(** * LLMChess: the latency benchmark and regression-check harness

    A shallow embedding of [llmchess/benchmark.py]: the percentile estimator
    [BenchmarkHarness._percentile], the statistics reduction performed by
    [run_benchmark], and the stateful operations [save_results] and
    [check_regression]; with them the mocked player of
    [llmchess/ai_player.py] and the two scripts that drive the harness.

    Python floats are an interface ([PyFloat]) with two instances:
    - [Binary64.binary64_float]: IEEE 754 binary64, the arithmetic the
      code runs on (the primitive floats of the kernel, with the
      specification of their operations);
    - [Exact.Q_float]: exact rational arithmetic, an idealisation kept
      for comparison.
    What is stated of the harness holds either for every instance or for
    binary64, there by the specification of the primitive operations
    ([FloatAxioms]: each is the operation of [SpecFloat] on the parts of
    its operands); the facts of [ExactFacts] say what the same formulas
    would give without rounding.

    Exceptions are values of [exn]; fallible code lives in the [result]
    monad.  The file system is a finite map from paths to the regular,
    readable files it holds; a file is known by what [json.load] makes of
    its text, and the numbers of a document are read as floats.  The time
    measured around each request is an input of [run_benchmark]. *)

From Stdlib Require Import ZArith QArith Qround Qabs Lqa Lia List Bool String Ascii.
From Stdlib Require Import DecimalString Sorted Permutation.
From Stdlib Require Import PrimFloat FloatOps SpecFloat FloatAxioms.
From stdpp Require Import base option list gmap strings.

Set Warnings "-inexact-float,-register-all".

Local Open Scope string_scope.
Local Open Scope Z_scope.

(** ** Exceptions and the result monad *)

Inductive exn : Type :=
| IndexError
| KeyError (key : string)
| TypeError
| ValueError (msg : string)
| StatisticsError (msg : string)
| JSONDecodeError
| ZeroDivisionError
| OverflowError.

(** [isinstance(e, ValueError)]: [statistics.StatisticsError] and
    [json.JSONDecodeError] both derive from [ValueError]; [IndexError] and
    [KeyError] derive from [LookupError]. *)
Definition is_ValueError (e : exn) : bool :=
  match e with
  | ValueError _ | StatisticsError _ | JSONDecodeError => true
  | _ => false
  end.

Inductive result (A : Type) : Type :=
| Ok (a : A)
| Raise (e : exn).
Arguments Ok {A} a.
Arguments Raise {A} e.

Definition bind {A B : Type} (m : result A) (k : A -> result B) : result B :=
  match m with
  | Ok a => k a
  | Raise e => Raise e
  end.

Notation "x <- m ;; k" := (bind m (fun x => k))
  (at level 100, m at next level, right associativity).

(** ** Python floats as an interface *)

Class PyFloat (F : Type) : Type := {
  fadd : F -> F -> F;
  fsub : F -> F -> F;
  fmul : F -> F -> F;
  (** the quotient [x / y] for a divisor that is not zero *)
  fquot : F -> F -> F;
  (** [x < y] and [x == y] *)
  flt : F -> F -> bool;
  feq : F -> F -> bool;
  (** [float(i)] for an [int] operand of mixed arithmetic *)
  of_int : Z -> F;
  (** [int(x)]: truncation towards zero *)
  to_int : F -> result Z;
  (** [x.as_integer_ratio()] and [float(Fraction)], which [statistics]
      uses to reduce exactly and round once *)
  exact_ratio : F -> Q;
  of_ratio : Q -> F;
  (** [format(x, '.Nf')] *)
  format_f : nat -> F -> string
}.

(** ** Pieces of the Python runtime *)

Section Runtime.
Context {A : Type}.

Definition len (l : list A) : Z := Z.of_nat (length l).

(** [l[i]]: a negative index counts from the end; out of range raises. *)
Definition getitem (l : list A) (i : Z) : result A :=
  let j := if i <? 0 then i + len l else i in
  if (j <? 0) || (len l <=? j) then Raise IndexError
  else match l !! Z.to_nat j with
       | Some a => Ok a
       | None => Raise IndexError
       end.

Variable lt : A -> A -> bool.

(** [sorted]: a stable sort that compares with [<] only. *)
Fixpoint insert_sorted (x : A) (l : list A) : list A :=
  match l with
  | [] => [x]
  | y :: l' => if lt y x then y :: insert_sorted x l' else x :: y :: l'
  end.

Definition sorted (l : list A) : list A := foldr insert_sorted [] l.

(** [min] and [max] of a list keep the first extremal element. *)
Definition py_min (l : list A) : result A :=
  match l with
  | [] => Raise (ValueError "min() iterable argument is empty")
  | x :: l' => Ok (foldl (fun best y => if lt y best then y else best) x l')
  end.

Definition py_max (l : list A) : result A :=
  match l with
  | [] => Raise (ValueError "max() iterable argument is empty")
  | x :: l' => Ok (foldl (fun best y => if lt best y then y else best) x l')
  end.
End Runtime.

(** ** The statistics engine *)

Section Engine.
Context {F : Type} `{PyFloat F}.

(** [x / y] on floats raises when the divisor is zero. *)
Definition py_div (x y : F) : result F :=
  if feq y (of_int 0) then Raise ZeroDivisionError else Ok (fquot x y).

(** [BenchmarkHarness._percentile(data, percentile)] *)
Definition _percentile (data : list F) (percentile : F) : result F :=
  let sorted_data := sorted flt data in
  q <- py_div percentile (of_int 100) ;;
  let index := fmul q (of_int (len sorted_data - 1)) in
  lower <- to_int index ;;
  let upper := lower + 1 in
  let weight := fsub index (of_int lower) in
  if len sorted_data <=? upper then getitem sorted_data (-1)
  else
    a <- getitem sorted_data lower ;;
    b <- getitem sorted_data upper ;;
    Ok (fadd (fmul a (fsub (of_int 1) weight)) (fmul b weight)).

(** [statistics.mean]: the exact sum of the samples as fractions, divided
    by their number and rounded once. *)
Definition mean (data : list F) : result F :=
  let total := foldr Qplus 0%Q (map exact_ratio data) in
  let n := len data in
  if n <? 1 then Raise (StatisticsError "mean requires at least one data point")
  else Ok (of_ratio (total / inject_Z n)%Q).

(** [statistics.median] *)
Definition median (data : list F) : result F :=
  let data := sorted flt data in
  let n := len data in
  if n =? 0 then Raise (StatisticsError "no median for empty data")
  else if n mod 2 =? 1 then getitem data (n / 2)
  else
    let i := n / 2 in
    a <- getitem data (i - 1) ;;
    b <- getitem data i ;;
    py_div (fadd a b) (of_int 2).
End Engine.

(** ** Fixed-point formatting, [format(x, '.Nf')]

    Python prints the exact value of the float, rounded half-to-even at
    the requested number of decimals. *)

Definition round_half_even (q : Q) : Z :=
  let n := Qnum q in
  let d := Zpos (Qden q) in
  let f := n / d in
  match 2 * (n mod d) ?= d with
  | Lt => f
  | Gt => f + 1
  | Eq => if Z.even f then f else f + 1
  end.

Definition decimal (n : Z) : string :=
  NilZero.string_of_uint (N.to_uint (Z.to_N n)).

Fixpoint zeros (n : nat) : string :=
  match n with
  | O => ""
  | S n' => "0" ++ zeros n'
  end.

(** [fixed_decimal neg d q] prints the magnitude [q >= 0] with [d]
    decimals, behind a minus sign when [neg] is set. *)
Definition fixed_decimal (neg : bool) (d : nat) (q : Q) : string :=
  let digits := decimal (round_half_even (q * inject_Z (10 ^ Z.of_nat d))) in
  let digits := zeros (S d - String.length digits) ++ digits in
  let k := (String.length digits - d)%nat in
  (if neg then "-" else "")
    ++ substring 0 k digits
    ++ match d with
       | O => ""
       | S _ => "." ++ substring k d digits
       end.

(** ** Exact arithmetic *)

Module Exact.

#[export] Instance Q_float : PyFloat Q := {
  fadd := Qplus;
  fsub := Qminus;
  fmul := Qmult;
  fquot := Qdiv;
  flt x y := negb (Qle_bool y x);
  feq := Qeq_bool;
  of_int := inject_Z;
  to_int x := Ok (Z.quot (Qnum x) (Zpos (Qden x)));
  exact_ratio x := x;
  of_ratio x := x;
  format_f d x := fixed_decimal (negb (Qle_bool 0 x)) d (Qabs x)
}.

Local Open Scope Q_scope.

(** The estimator in the words of the specification, over data already
    sorted ascending: [index = (p/100)*(n-1)], [lower = floor(index)],
    [upper = lower+1], [weight = index-lower]; [data[n-1]] when
    [upper >= n], else [data[lower]*(1-weight) + data[upper]*weight]. *)
Definition linear_interpolation (data : list Q) (p : Q) : Q :=
  let n := len data in
  let index := (p / 100) * inject_Z (n - 1) in
  let lower := Qfloor index in
  let upper := (lower + 1)%Z in
  let weight := index - inject_Z lower in
  if (upper >=? n)%Z then nth (Z.to_nat (n - 1)) data 0
  else nth (Z.to_nat lower) data 0 * (1 - weight)
       + nth (Z.to_nat upper) data 0 * weight.

(** [m] is a largest (smallest) element of [l]. *)
Definition is_max (l : list Q) (m : Q) : Prop :=
  In m l /\ forall y, In y l -> y <= m.

Definition is_min (l : list Q) (m : Q) : Prop :=
  In m l /\ forall y, In y l -> m <= y.

End Exact.

(** ** IEEE 754 binary64 *)

Module Binary64.

Definition float_of_int (z : Z) : float :=
  SF2Prim (binary_normalize prec emax z 0 false).

Definition float_to_int (x : float) : result Z :=
  match Prim2SF x with
  | S754_zero _ => Ok 0
  | S754_finite s m e =>
      let a := match e with
               | Z0 => Zpos m
               | Zpos p => Zpos m * 2 ^ Zpos p
               | Zneg p => Zpos m / 2 ^ Zpos p
               end in
      Ok (if s then - a else a)
  | S754_infinity _ => Raise OverflowError
  | S754_nan => Raise (ValueError "cannot convert float NaN to integer")
  end.

Definition float_exact_ratio (x : float) : Q :=
  match Prim2SF x with
  | S754_finite s m e =>
      let n := if s then Zneg m else Zpos m in
      match e with
      | Z0 => n # 1
      | Zpos p => (n * 2 ^ Zpos p) # 1
      | Zneg p => n # (2 ^ p)
      end
  | _ => 0%Q
  end.

Definition float_of_ratio (q : Q) : float :=
  let den := S754_finite false (Qden q) 0 in
  match Qnum q with
  | Z0 => zero
  | Zpos n => SF2Prim (SFdiv prec emax (S754_finite false n 0) den)
  | Zneg n => SF2Prim (SFdiv prec emax (S754_finite true n 0) den)
  end.

Definition float_format (d : nat) (x : float) : string :=
  match Prim2SF x with
  | S754_nan => "nan"
  | S754_infinity s => if s then "-inf" else "inf"
  | S754_zero s => fixed_decimal s d 0
  | S754_finite s _ _ => fixed_decimal s d (Qabs (float_exact_ratio x))
  end.

#[export] Instance binary64_float : PyFloat float := {
  fadd := PrimFloat.add;
  fsub := PrimFloat.sub;
  fmul := PrimFloat.mul;
  fquot := PrimFloat.div;
  flt := PrimFloat.ltb;
  feq := PrimFloat.eqb;
  of_int := float_of_int;
  to_int := float_to_int;
  exact_ratio := float_exact_ratio;
  of_ratio := float_of_ratio;
  format_f := float_format
}.


(** [math.floor(x)] *)
Definition float_floor (x : float) : result Z :=
  match Prim2SF x with
  | S754_zero _ => Ok 0
  | S754_finite s m e =>
      let n := if s then Zneg m else Zpos m in
      Ok match e with
         | Z0 => n
         | Zpos p => n * 2 ^ Zpos p
         | Zneg p => n / 2 ^ Zpos p
         end
  | S754_infinity _ => Raise OverflowError
  | S754_nan => Raise (ValueError "cannot convert float NaN to integer")
  end.

(** [math.isnan(x)] and [math.isfinite(x)] *)
Definition float_is_nan (x : float) : bool :=
  match Prim2SF x with
  | S754_nan => true
  | _ => false
  end.

Definition float_is_finite (x : float) : bool :=
  match Prim2SF x with
  | S754_zero _ | S754_finite _ _ _ => true
  | _ => false
  end.

(** The estimator in the words of the specification, over data already
    sorted ascending, every operation being the one of binary64:
    [index = (p/100)*(n-1)], [lower = floor(index)], [upper = lower+1],
    [weight = index-lower]; [data[n-1]] when [upper >= n], else
    [data[lower]*(1-weight) + data[upper]*weight]. *)
Definition float_linear_interpolation (data : list float) (p : float)
  : result float :=
  let n := len data in
  let index := PrimFloat.mul (PrimFloat.div p 100%float) (float_of_int (n - 1)) in
  lower <- float_floor index ;;
  let upper := lower + 1 in
  let weight := PrimFloat.sub index (float_of_int lower) in
  Ok (if upper >=? n then nth (Z.to_nat (n - 1)) data 0%float
      else PrimFloat.add
             (PrimFloat.mul (nth (Z.to_nat lower) data 0%float)
                            (PrimFloat.sub 1%float weight))
             (PrimFloat.mul (nth (Z.to_nat upper) data 0%float) weight)).

(** The figure of the specification, [(c - b)/b * 100], in binary64. *)
Definition float_percent_change (current baseline : float) : float :=
  PrimFloat.mul (PrimFloat.div (PrimFloat.sub current baseline) baseline)
                100%float.

(** What [_percentile([], p)] raises, by the kind of [p]. *)
Definition percentile_empty_fault (p : float) : exn :=
  match Prim2SF p with
  | S754_nan => ValueError "cannot convert float NaN to integer"
  | S754_infinity _ => OverflowError
  | _ => IndexError
  end.

(** Sign and size of a float given by its parts: [sf_pos] holds of the
    numbers that are not negative, [sf_mag B] of the finite ones below
    [2^B] in magnitude. *)
Definition sf_pos (X : spec_float) : Prop :=
  match X with
  | S754_finite s _ _ => s = false
  | _ => True
  end.

Definition sf_mag (B : Z) (X : spec_float) : Prop :=
  match X with
  | S754_zero _ => True
  | S754_finite _ m e => Zpos (digits2_pos m) + e <= B
  | _ => False
  end.


(** The place of a float that is not NaN in the order of [<]. *)
Definition sf_key (X : spec_float) : Z * Z * Z :=
  match X with
  | S754_zero _ => (0, 0, 0)
  | S754_infinity false => (2, 0, 0)
  | S754_infinity true => (-2, 0, 0)
  | S754_nan => (0, 0, 0)
  | S754_finite false m e => (1, e, Zpos m)
  | S754_finite true m e => (-1, - e, Zneg m)
  end.

Definition lex_lt (a b : Z * Z * Z) : Prop :=
  let '(a1, a2, a3) := a in
  let '(b1, b2, b3) := b in
  a1 < b1 \/ (a1 = b1 /\ (a2 < b2 \/ (a2 = b2 /\ a3 < b3))).

End Binary64.

(** ** Values loaded from JSON, and the file system *)

Section Storage.
Context {F : Type}.

(** What [json.load] returns: [None], a [bool], a number, a [str], a
    [list] or a [dict] (kept as the pairs of the document, in order; a
    repeated key takes its last value). *)
Inductive json : Type :=
| JNull
| JBool (b : bool)
| JNum (x : F)
| JStr (s : string)
| JArr (l : list json)
| JObj (kvs : list (string * json)).

Fixpoint dict_get (kvs : list (string * json)) (key : string) : option json :=
  match kvs with
  | [] => None
  | (k, v) :: rest =>
      match dict_get rest key with
      | Some v' => Some v'
      | None => if String.eqb k key then Some v else None
      end
  end.

(** [obj[key]] for a string key *)
Definition subscript (obj : json) (key : string) : result json :=
  match obj with
  | JObj kvs =>
      match dict_get kvs key with
      | Some v => Ok v
      | None => Raise (KeyError key)
      end
  | _ => Raise TypeError
  end.

(** A regular file holds text: either a JSON document or anything else. *)
Inductive file : Type :=
| Document (doc : json)
| Malformed.

(** [json.load(f)] *)
Definition json_load (f : file) : result json :=
  match f with
  | Document doc => Ok doc
  | Malformed => Raise JSONDecodeError
  end.
End Storage.
Arguments json F : clear implicits.
Arguments file F : clear implicits.

(** ** The mocked player ([llmchess/ai_player.py]) *)

(** [MockAzureAIClient.get_completion]: sleeps, then answers a fixed move. *)
Definition get_completion (prompt : string) : string := "e2e4".

(** [AIPlayer.get_move] *)
Definition get_move (board_state : string) : string :=
  get_completion
    ("Given this chess board state: " ++ board_state ++ ", what is the best move?").

(** [AIPlayer.get_move_with_timing]; [elapsed] is the difference of the two
    readings of [time.perf_counter] around the call. *)
Definition get_move_with_timing {F : Type} (elapsed : F) (board_state : string)
  : string * F :=
  (get_move board_state, elapsed).

(** ** The benchmark harness *)

Section Harness.
Context {F : Type} `{PyFloat F}.

(** Two library functions stay abstract: [statistics.stdev] and the
    [str] of a float. *)
Variable stdev : list F -> F.
Variable float_str : F -> string.

(** The dictionary built by [run_benchmark], one field per key. *)
Record ResultRecord : Type := {
  r_num_iterations : Z;
  r_mock_response_time : F;
  r_latencies : list F;
  r_mean : F;
  r_median : F;
  r_stdev : F;
  r_min : F;
  r_max : F;
  r_p95 : F;
  r_p99 : F
}.

(** The attributes of a harness.  The dictionary of a run is never empty,
    so [not self._results_dict] holds exactly when it is [None]. *)
Record BenchmarkHarness : Type := {
  num_iterations : Z;
  mock_response_time : F;
  results : list F;
  _results_dict : option ResultRecord
}.

(** [BenchmarkHarness.__init__] *)
Definition init (num_iterations : Z) (mock_response_time : F) : BenchmarkHarness :=
  {| num_iterations := num_iterations;
     mock_response_time := mock_response_time;
     results := [];
     _results_dict := None |}.

Definition board_state : string :=
  "rnbqkbnr/pppppppp/8/8/8/8/PPPPPPPP/RNBQKBNR w KQkq - 0 1".

(** The statistics of the dictionary literal, evaluated in key order. *)
Definition summarize (self : BenchmarkHarness) (latencies : list F)
  : result ResultRecord :=
  m <- mean latencies ;;
  md <- median latencies ;;
  let sd := if 1 <? len latencies then stdev latencies else of_int 0 in
  mn <- py_min flt latencies ;;
  mx <- py_max flt latencies ;;
  p95 <- _percentile latencies (of_int 95) ;;
  p99 <- _percentile latencies (of_int 99) ;;
  Ok {| r_num_iterations := num_iterations self;
        r_mock_response_time := mock_response_time self;
        r_latencies := latencies;
        r_mean := m;
        r_median := md;
        r_stdev := sd;
        r_min := mn;
        r_max := mx;
        r_p95 := p95;
        r_p99 := p99 |}.

(** [BenchmarkHarness.run_benchmark]; [elapsed i] is the time measured
    around the [i]-th request.  The harness is returned as the call
    leaves it, also when the call raises. *)
Definition run_benchmark (self : BenchmarkHarness) (elapsed : nat -> F)
  : BenchmarkHarness * result ResultRecord :=
  let latencies :=
    map (fun i => snd (get_move_with_timing (elapsed i) board_state))
        (seq 0 (Z.to_nat (num_iterations self))) in
  let self := {| num_iterations := num_iterations self;
                 mock_response_time := mock_response_time self;
                 results := latencies;
                 _results_dict := _results_dict self |} in
  match summarize self latencies with
  | Ok r =>
      ({| num_iterations := num_iterations self;
          mock_response_time := mock_response_time self;
          results := latencies;
          _results_dict := Some r |}, Ok r)
  | Raise e => (self, Raise e)
  end.

(** The harnesses on which no run has completed: a new one, and one whose
    runs so far all raised. *)
Inductive never_completed : BenchmarkHarness -> Prop :=
| never_new (n : Z) (t : F) : never_completed (init n t)
| never_failed (self self' : BenchmarkHarness) (elapsed : nat -> F) (e : exn) :
    never_completed self ->
    run_benchmark self elapsed = (self', Raise e) ->
    never_completed self'.

(** What [json.dump] writes for the dictionary. *)
Definition to_json (r : ResultRecord) : json F :=
  JObj [("num_iterations", JNum (of_int (r_num_iterations r)));
        ("mock_response_time", JNum (r_mock_response_time r));
        ("latencies", JArr (map JNum (r_latencies r)));
        ("mean", JNum (r_mean r));
        ("median", JNum (r_median r));
        ("stdev", JNum (r_stdev r));
        ("min", JNum (r_min r));
        ("max", JNum (r_max r));
        ("p95", JNum (r_p95 r));
        ("p99", JNum (r_p99 r))].

(** [BenchmarkHarness.save_results]: the outcome and the file system
    after the call. *)
Definition save_results (self : BenchmarkHarness) (filepath : string)
    (fs : gmap string (file F)) : result unit * gmap string (file F) :=
  match _results_dict self with
  | None =>
      (Raise (ValueError "No benchmark results to save. Run benchmark first."), fs)
  | Some r => (Ok tt, <[filepath := Document (to_json r)]> fs)
  end.

(** [x == 0] for a loaded value: numbers compare by value, [False] is
    [0], anything else differs from [0]. *)
Definition equals_zero (v : json F) : bool :=
  match v with
  | JNum x => feq x (of_int 0)
  | JBool b => negb b
  | _ => false
  end.

(** A loaded value as an operand of float arithmetic. *)
Definition as_float (v : json F) : result F :=
  match v with
  | JNum x => Ok x
  | JBool b => Ok (of_int (if b then 1 else 0))
  | _ => Raise TypeError
  end.

(** [BenchmarkHarness.check_regression] *)
Definition check_regression (self : BenchmarkHarness) (baseline_filepath : string)
    (threshold_percent : F) (fs : gmap string (file F)) : result (bool * string) :=
  match _results_dict self with
  | None => Ok (false, "No benchmark results available. Run benchmark first.")
  | Some r =>
      match fs !! baseline_filepath with
      | None =>
          Ok (true, "No baseline found at " ++ baseline_filepath
                      ++ ". Creating baseline.")
      | Some f =>
          baseline <- json_load f ;;
          let current_mean := r_mean r in
          baseline_mean <- subscript baseline "mean" ;;
          if equals_zero baseline_mean
          then Ok (false, "Invalid baseline: mean latency is zero")
          else
            b <- as_float baseline_mean ;;
            q <- py_div (fsub current_mean b) b ;;
            let percent_change := fmul q (of_int 100) in
            if flt threshold_percent percent_change
            then Ok (false,
                     "Performance regression detected! "
                       ++ "Mean latency increased by "
                       ++ format_f 2 percent_change ++ "% "
                       ++ "(baseline: " ++ format_f 4 b
                       ++ "s, current: " ++ format_f 4 current_mean ++ "s, "
                       ++ "threshold: " ++ float_str threshold_percent ++ "%)")
            else Ok (true,
                     "Performance check passed. "
                       ++ "Mean latency change: "
                       ++ format_f 2 percent_change ++ "% "
                       ++ "(baseline: " ++ format_f 4 b
                       ++ "s, current: " ++ format_f 4 current_mean ++ "s)")
      end
  end.

(** The exception a baseline file without a usable ["mean"] leads to. *)
Definition baseline_fault (f : file F) : exn :=
  match f with
  | Malformed => JSONDecodeError
  | Document (JObj _) => KeyError "mean"
  | Document _ => TypeError
  end.
End Harness.
Arguments ResultRecord F : clear implicits.
Arguments BenchmarkHarness F : clear implicits.

(** [contains s sub]: [sub] occurs in [s]. *)
Definition contains (s sub : string) : Prop :=
  exists before after, s = before ++ sub ++ after.

(** ** The player and its client ([llmchess/ai_player.py]) *)

Section Player.
Context {F : Type} `{PyFloat F}.

(** An object with a [get_completion] method: the mock, or any other
    implementation of the protocol. *)
Inductive AzureAIClient : Type :=
| MockAzureAIClient (response_time : F)
| OtherClient (completion : string -> string).

(** [client.get_completion(prompt)] *)
Definition client_get_completion (client : AzureAIClient) (prompt : string) : string :=
  match client with
  | MockAzureAIClient _ => get_completion prompt
  | OtherClient completion => completion prompt
  end.

(** [x or y] on strings, where [x] may be [None]: the empty string is
    false. *)
Definition str_or (x : option string) (y : string) : string :=
  match x with
  | Some (String c s) => String c s
  | _ => y
  end.

(** [os.environ.get(key, "")] *)
Definition environ_get (environ : gmap string string) (key : string) : string :=
  match environ !! key with
  | Some v => v
  | None => ""
  end.

(** [AIPlayer.__init__]: the client the new player holds.  The default
    response time of the mock is [0.05]. *)
Definition AIPlayer_init (client : option AzureAIClient)
    (endpoint model : option string) (environ : gmap string string)
  : result AzureAIClient :=
  match client with
  | Some c => Ok c
  | None =>
      let endpoint := str_or endpoint (environ_get environ "AZURE_AI_FOUNDRY_ENDPOINT") in
      let model := str_or model (environ_get environ "AZURE_AI_MODEL") in
      if String.eqb endpoint "" || String.eqb model ""
      then Raise (ValueError
                    ("Azure AI credentials required: set AZURE_AI_FOUNDRY_ENDPOINT "
                       ++ "and AZURE_AI_MODEL environment variables"))
      else Ok (MockAzureAIClient (of_ratio (1 # 20)))
  end.

(** [AIPlayer.get_move] for a player holding [client] *)
Definition player_get_move (client : AzureAIClient) (board_state : string) : string :=
  client_get_completion client
    ("Given this chess board state: " ++ board_state ++ ", what is the best move?").

(** A credential is at hand when the argument is a string that is not
    empty, or else when the environment variable is set to one. *)
Definition at_hand (arg : option string) (environ : gmap string string)
    (key : string) : Prop :=
  (exists s, arg = Some s /\ s <> "")
  \/ ((arg = None \/ arg = Some "") /\ exists v, environ !! key = Some v /\ v <> "").
End Player.
Arguments AzureAIClient F : clear implicits.

(** ** The entry points *)

(** What a script leaves behind: how it ended, what it printed (one string
    for each [print]), and the file system. *)
Record Outcome (F A : Type) : Type := {
  ended : result A;
  printed : list string;
  files : gmap string (file F)
}.
Arguments ended {F A} o.
Arguments printed {F A} o.
Arguments files {F A} o.

(** The [str] of an [int] *)
Definition int_str (z : Z) : string :=
  if z <? 0 then "-" ++ decimal (- z) else decimal z.

(** [scripts/check_regression.py] *)
Module CheckRegressionScript.
Section Script.
Context {F : Type} `{PyFloat F}.
Variable stdev : list F -> F.
Variable float_str : F -> string.

Definition baseline_path : string := "benchmark_baseline.json".

(** [main()]: the literals [0.05] and [15.0] are the floats nearest to
    1/20 and 15. *)
Definition main (elapsed : nat -> F) (fs : gmap string (file F)) : Outcome F Z :=
  let harness := init 100 (of_ratio (1 # 20)) in
  match run_benchmark stdev harness elapsed with
  | (_, Raise e) => {| ended := Raise e; printed := []; files := fs |}
  | (harness, Ok _) =>
      match check_regression float_str harness baseline_path (of_int 15) fs with
      | Raise e => {| ended := Raise e; printed := []; files := fs |}
      | Ok (passed, message) =>
          let exists_ := match fs !! baseline_path with Some _ => true | None => false end in
          if negb passed && exists_
          then {| ended := Ok 1; printed := [message]; files := fs |}
          else
            match save_results harness baseline_path fs with
            | (Raise e, fs') => {| ended := Raise e; printed := [message]; files := fs' |}
            | (Ok _, fs') => {| ended := Ok 0; printed := [message]; files := fs' |}
            end
      end
  end.
End Script.
End CheckRegressionScript.

(** [llmchess/benchmark.py], run as a script *)
Module BenchmarkScript.
Section Script.
Context {F : Type} `{PyFloat F}.
Variable stdev : list F -> F.

Definition results_path : string := "benchmark_results.json".

(** The lines [main()] prints for a record. *)
Definition report (results : ResultRecord F) : list string :=
  ["Benchmark Results:";
   "  Iterations: " ++ int_str (r_num_iterations results);
   "  Mean latency: " ++ format_f 4 (r_mean results) ++ "s";
   "  Median latency: " ++ format_f 4 (r_median results) ++ "s";
   "  Std dev: " ++ format_f 4 (r_stdev results) ++ "s";
   "  Min: " ++ format_f 4 (r_min results) ++ "s";
   "  Max: " ++ format_f 4 (r_max results) ++ "s";
   "  P95: " ++ format_f 4 (r_p95 results) ++ "s";
   "  P99: " ++ format_f 4 (r_p99 results) ++ "s"].

(** The newline of the last message, written out. *)
Definition saved_line : string :=
  String (ascii_of_nat 10) ("Results saved to " ++ results_path).

(** [main()] *)
Definition main (elapsed : nat -> F) (fs : gmap string (file F)) : Outcome F unit :=
  let harness := init 100 (of_ratio (1 # 20)) in
  match run_benchmark stdev harness elapsed with
  | (_, Raise e) => {| ended := Raise e; printed := []; files := fs |}
  | (harness, Ok results) =>
      match save_results harness results_path fs with
      | (Raise e, fs') => {| ended := Raise e; printed := report results; files := fs' |}
      | (Ok _, fs') =>
          {| ended := Ok tt; printed := report results ++ [saved_line]; files := fs' |}
      end
  end.
End Script.
End BenchmarkScript.

(** ** Sample data for the instances below *)

Module Examples.
Import Exact.
Local Open Scope Q_scope.

(** Three measured requests. *)
Definition elapsed (i : nat) : Q :=
  match i with
  | O => 51 # 1000
  | S O => 49 # 1000
  | _ => 50 # 1000
  end.

(** Stand-ins for the two abstract library functions. *)
Definition no_stdev (l : list Q) : Q := 0.
Definition plain_str (x : Q) : string := format_f 1 x.

Definition fresh : BenchmarkHarness Q := init 3 (1 # 20).

(** The harness after one run. *)
Definition ran : BenchmarkHarness Q :=
  fst (run_benchmark no_stdev fresh elapsed).

(** A harness asked for no iteration at all. *)
Definition idle : BenchmarkHarness Q := init 0 (1 # 20).

Definition baseline_file (m : Q) : file Q :=
  Document (JObj [("mean", JNum m); ("median", JNum m)]).

Definition disk : gmap string (file Q) :=
  {[ "baseline.json" := baseline_file (1 # 25);
     "zero.json" := baseline_file 0;
     "median_only.json" := Document (JObj [("median", JNum (1 # 20))]);
     "broken.json" := Malformed ]}.

End Examples.

Module FloatExamples.
Import Binary64.
Local Open Scope float_scope.

Definition one_to_ten : list float := [1; 2; 3; 4; 5; 6; 7; 8; 9; 10].

(** The harness after a run of three requests that each took [c] seconds. *)
Definition steady (c : float) : BenchmarkHarness float :=
fst (run_benchmark (fun _ => 0) (init 3 0.05) (fun _ => c)).

Definition stored : gmap string (file float) :=
{[ "baseline.json" := Document (JObj [("mean", JNum 0.01)]);
   "nan.json" := Document (JObj [("mean", JNum nan)]) ]}.

(** The threshold of the examples is [10.0]. *)
Definition ten_str (x : float) : string := "10.0".

(** A baseline near a run of 0.0077 s. *)
Definition stored_near : gmap string (file float) :=
{[ "near.json" := Document (JObj [("mean", JNum 0.007)]) ]}.

(** A few samples out of order. *)
Definition three_samples : list float := [3; 1; 2].

End FloatExamples.

Module MoreExamples.
Import Exact Examples.
Local Open Scope Q_scope.

(** Every request takes a twentieth of a second. *)
Definition even_pace (i : nat) : Q := 1 # 20.

Definition shelf : gmap string (file Q) :=
  {[ "close.json" := Document (JObj [("mean", JNum (1 # 20))]);
     "mean_only.json" := Document (JObj [("mean", JNum (1 # 25))]);
     "null.json" := Document (JObj [("mean", JNull)]) ]}.

Definition no_files : gmap string (file Q) := ∅.

Definition no_environ : gmap string string := ∅.

End MoreExamples.

(** * Properties that hold for every arithmetic *)

Section HarnessFacts.
Context {F : Type} `{PyFloat F}.
Variable stdev : list F -> F.
Variable float_str : F -> string.

Implicit Types (self : BenchmarkHarness F) (fs : gmap string (file F)).

(** A new harness holds no results. *)
Lemma init_no_results (n : Z) (t : F) : _results_dict (init n t) = None.
Proof. reflexivity. Qed.

(** A run that raises leaves the stored dictionary as it was, so a
    harness that never completed a run holds no results. *)
Lemma run_benchmark_raise_keeps_dict self elapsed self' e :
  run_benchmark stdev self elapsed = (self', Raise e) ->
  _results_dict self' = _results_dict self.
Proof.
  unfold run_benchmark.
  destruct (summarize _ _ _) as [r|e']; intros [= <- ?]; reflexivity.
Qed.

(** A run that returns stores what it returns. *)
Lemma run_benchmark_ok_stores self elapsed self' r :
  run_benchmark stdev self elapsed = (self', Ok r) ->
  _results_dict self' = Some r.
Proof.
  unfold run_benchmark.
  destruct (summarize _ _ _) as [r'|e']; intros [= <- ?]; subst; reflexivity.
Qed.

(** Until a run completes, the harness holds no results. *)
Lemma never_completed_no_results self :
  never_completed stdev self -> _results_dict self = None.
Proof.
  induction 1 as [n t|self self' elapsed e _ IH Hrun].
  - apply init_no_results.
  - rewrite (run_benchmark_raise_keeps_dict _ _ _ _ Hrun). exact IH.
Qed.

(** C6: with results at hand and no file at the baseline path,
    [check_regression] passes and its message notes the absent baseline,
    whatever the results and the threshold. *)
Theorem check_regression_no_baseline self r path threshold fs :
  _results_dict self = Some r ->
  fs !! path = None ->
  check_regression float_str self path threshold fs
  = Ok (true, "No baseline found at " ++ path ++ ". Creating baseline.").
Proof.
  intros Hr Hf. unfold check_regression. rewrite Hr, Hf. reflexivity.
Qed.

(** C7: when the loaded baseline has [mean == 0], [check_regression]
    returns the non-passing verdict "Invalid baseline" for every current
    record and threshold; it returns before the division and raises
    nothing. *)
Theorem check_regression_zero_baseline self r path threshold fs baseline m :
  _results_dict self = Some r ->
  fs !! path = Some (Document baseline) ->
  subscript baseline "mean" = Ok m ->
  equals_zero m = true ->
  check_regression float_str self path threshold fs
  = Ok (false, "Invalid baseline: mean latency is zero").
Proof.
  intros Hr Hf Hm Hz. unfold check_regression.
  rewrite Hr, Hf. cbn [json_load bind]. rewrite Hm. cbn [bind].
  rewrite Hz. reflexivity.
Qed.

(** C8: [save_results] before any completed run raises [ValueError] and
    leaves the file system as it was: no file is created or changed. *)
Theorem save_results_before_run self path fs :
  never_completed stdev self ->
  save_results self path fs
  = (Raise (ValueError "No benchmark results to save. Run benchmark first."), fs).
Proof.
  intros Hr. apply never_completed_no_results in Hr.
  unfold save_results. rewrite Hr. reflexivity.
Qed.

(** C9: [check_regression] before any completed run returns (does not
    raise) the non-passing verdict with its explanation, for every baseline
    path, threshold and file system. *)
Theorem check_regression_before_run self path threshold fs :
  never_completed stdev self ->
  check_regression float_str self path threshold fs
  = Ok (false, "No benchmark results available. Run benchmark first.").
Proof.
  intros Hr. apply never_completed_no_results in Hr.
  unfold check_regression. rewrite Hr. reflexivity.
Qed.

(** C10: when the baseline file exists and is not a JSON document, or is
    a document that is not an object, or is an object without the key
    ["mean"], [check_regression] raises (a decode error, a [TypeError], a
    [KeyError]) and returns no verdict. *)
Theorem check_regression_unusable_baseline self r path threshold fs f :
  _results_dict self = Some r ->
  fs !! path = Some f ->
  (forall kvs, f = Document (JObj kvs) -> dict_get kvs "mean" = None) ->
  check_regression float_str self path threshold fs = Raise (baseline_fault f).
Proof.
  intros Hr Hf Hk. unfold check_regression. rewrite Hr, Hf.
  destruct f as [doc|]; [|reflexivity].
  destruct doc; try reflexivity.
  cbn. rewrite (Hk kvs eq_refl). reflexivity.
Qed.
End HarnessFacts.

(** * Properties of the runtime pieces *)

Section RuntimeFacts.
Context {A : Type}.
Implicit Types (l : list A) (i : Z).

Lemma len_nonneg l : 0 <= len l.
Proof. unfold len. lia. Qed.

Lemma len_positive l : l <> [] -> 1 <= len l.
Proof. destruct l; [congruence | unfold len; cbn [length]; lia]. Qed.

Lemma len_nil_iff l : len l = 0 <-> l = [].
Proof. unfold len. destruct l; cbn; split; intros; try easy; lia. Qed.

(** An index within the bounds reads the element at that position. *)
Lemma getitem_nth l i (d : A) :
  0 <= i < len l -> getitem l i = Ok (nth (Z.to_nat i) l d).
Proof.
  intros Hi. unfold getitem.
  replace (i <? 0) with false by lia.
  replace ((i <? 0) || (len l <=? i)) with false by lia.
  destruct (l !! Z.to_nat i) as [a|] eqn:E.
  - f_equal. symmetry. apply nth_lookup_Some with (d := d) in E. exact E.
  - apply lookup_ge_None in E. unfold len in Hi. lia.
Qed.

(** [l[-1]] is the last element of a list that has one. *)
Lemma getitem_last l (d : A) :
  l <> [] -> getitem l (-1) = Ok (nth (Z.to_nat (len l - 1)) l d).
Proof.
  intros Hl. unfold getitem. cbn [Z.ltb Z.compare].
  assert (1 <= len l) by (apply len_positive, Hl).
  replace ((-1 + len l <? 0) || (len l <=? -1 + len l)) with false by lia.
  replace (-1 + len l) with (len l - 1) by lia.
  destruct (l !! Z.to_nat (len l - 1)) as [a|] eqn:E.
  - f_equal. symmetry. apply nth_lookup_Some with (d := d) in E. exact E.
  - apply lookup_ge_None in E. unfold len in *. lia.
Qed.

(** Any index into the empty list raises [IndexError]. *)
Lemma getitem_nil i : getitem (@nil A) i = Raise IndexError.
Proof.
  unfold getitem. change (len (@nil A)) with 0.
  destruct (i <? 0) eqn:E.
  - replace (i + 0 <? 0) with true by lia. reflexivity.
  - rewrite E. replace (0 <=? i) with true by lia. reflexivity.
Qed.

Variable lt : A -> A -> bool.

Lemma insert_sorted_perm (x : A) l : Permutation (insert_sorted lt x l) (x :: l).
Proof.
  induction l as [|y l IH]; cbn.
  - reflexivity.
  - destruct (lt y x).
    + rewrite IH. apply perm_swap.
    + reflexivity.
Qed.

(** [sorted] rearranges its argument. *)
Lemma sorted_perm l : Permutation (sorted lt l) l.
Proof.
  induction l as [|x l IH]; cbn.
  - reflexivity.
  - fold (sorted lt l). rewrite insert_sorted_perm, IH. reflexivity.
Qed.

Lemma sorted_length l : length (sorted lt l) = length l.
Proof. apply Permutation_length, sorted_perm. Qed.

Lemma len_sorted l : len (sorted lt l) = len l.
Proof. unfold len. rewrite sorted_length. reflexivity. Qed.

Lemma sorted_nil_iff l : sorted lt l = [] <-> l = [].
Proof.
  rewrite <- !len_nil_iff, len_sorted. reflexivity.
Qed.
End RuntimeFacts.

(** ** Sorting and extremes under a comparison that is a total order on
    the elements at hand *)

Section OrderFacts.
Context {A : Type} (lt : A -> A -> bool) (P : A -> Prop).
Hypothesis lt_asym : forall x y, lt x y = true -> lt y x = false.
Hypothesis lt_negtrans :
  forall x y z, P x -> P y -> P z ->
    lt x y = false -> lt y z = false -> lt x z = false.

Lemma lt_irrefl (x : A) : lt x x = false.
Proof.
  destruct (lt x x) eqn:E; [|reflexivity]. pose proof (lt_asym _ _ E). congruence.
Qed.

Lemma insert_sorted_ascending (x : A) (l : list A) :
  P x -> Forall P l ->
  StronglySorted (fun a b => lt b a = false) l ->
  StronglySorted (fun a b => lt b a = false) (insert_sorted lt x l).
Proof.
  intros Hx Hl Hs. induction Hs as [|y l Hs IH Hy]; cbn [insert_sorted].
  - repeat constructor.
  - apply Forall_cons in Hl as [Py Pl].
    destruct (lt y x) eqn:E.
    + constructor; [apply IH, Pl|].
      apply (Permutation_Forall (Permutation_sym (insert_sorted_perm lt x l))).
      constructor; [apply lt_asym, E | exact Hy].
    + constructor; [constructor; assumption|].
      constructor; [exact E|].
      rewrite Forall_forall in Hy, Pl |- *. intros z Hz.
      apply (lt_negtrans z y x); auto.
Qed.

(** [sorted] orders its argument ascending. *)
Lemma sorted_ascending (l : list A) :
  Forall P l -> StronglySorted (fun a b => lt b a = false) (sorted lt l).
Proof.
  induction 1 as [|x l Hx Hl IH]; cbn.
  - constructor.
  - apply insert_sorted_ascending; [exact Hx| |exact IH].
    apply (Permutation_Forall (Permutation_sym (sorted_perm lt l))), Hl.
Qed.

(** In an ascending list, elements are ordered as their positions. *)
Lemma ascending_nth (l : list A) (i j : nat) (d : A) :
  StronglySorted (fun a b => lt b a = false) l ->
  (i <= j < length l)%nat -> lt (nth j l d) (nth i l d) = false.
Proof.
  intros Hs. revert i j.
  induction Hs as [|x l Hs IH Hx]; intros i j Hij; cbn [length] in Hij.
  - lia.
  - destruct i as [|i], j as [|j]; cbn [nth]; try lia.
    + apply lt_irrefl.
    + rewrite Forall_forall in Hx. apply Hx, list_elem_of_In, nth_In. lia.
    + apply IH. lia.
Qed.

Lemma fold_max_extreme (l : list A) (best : A) :
  P best -> Forall P l ->
  let m := foldl (fun best y => if lt best y then y else best) best l in
  In m (best :: l) /\ forall y, In y (best :: l) -> lt m y = false.
Proof.
  revert best. induction l as [|y l IH]; intros best Pb Pl; cbn [foldl].
  - split; [left; reflexivity|]. intros z [<-|[]]. apply lt_irrefl.
  - apply Forall_cons in Pl as [Py Pl].
    assert (Pall : forall z, In z (y :: l) -> P z).
    { intros z [<-|Hz]; [exact Py|].
      rewrite Forall_forall in Pl. apply Pl, list_elem_of_In, Hz. }
    destruct (lt best y) eqn:E.
    + destruct (IH y Py Pl) as [Hin Hle]. split; [right; exact Hin|].
      intros z [<-|Hz]; [|apply Hle, Hz].
      apply (lt_negtrans _ y best); [apply Pall, Hin|exact Py|exact Pb| |].
      * apply Hle. left. reflexivity.
      * apply lt_asym, E.
    + destruct (IH best Pb Pl) as [Hin Hle]. split.
      * destruct Hin as [<-|Hin]; [left; reflexivity|right; right; exact Hin].
      * intros z [<-|[<-|Hz]].
        -- apply Hle. left. reflexivity.
        -- apply (lt_negtrans _ best y); [|exact Pb|exact Py| |exact E].
           ++ destruct Hin as [<-|Hin]; [exact Pb|apply Pall; right; exact Hin].
           ++ apply Hle. left. reflexivity.
        -- apply Hle. right. exact Hz.
Qed.

Lemma fold_min_extreme (l : list A) (best : A) :
  P best -> Forall P l ->
  let m := foldl (fun best y => if lt y best then y else best) best l in
  In m (best :: l) /\ forall y, In y (best :: l) -> lt y m = false.
Proof.
  revert best. induction l as [|y l IH]; intros best Pb Pl; cbn [foldl].
  - split; [left; reflexivity|]. intros z [<-|[]]. apply lt_irrefl.
  - apply Forall_cons in Pl as [Py Pl].
    assert (Pall : forall z, In z (y :: l) -> P z).
    { intros z [<-|Hz]; [exact Py|].
      rewrite Forall_forall in Pl. apply Pl, list_elem_of_In, Hz. }
    destruct (lt y best) eqn:E.
    + destruct (IH y Py Pl) as [Hin Hle]. split; [right; exact Hin|].
      intros z [<-|Hz]; [|apply Hle, Hz].
      apply (lt_negtrans best y _); [exact Pb|exact Py|apply Pall, Hin| |].
      * apply lt_asym, E.
      * apply Hle. left. reflexivity.
    + destruct (IH best Pb Pl) as [Hin Hle]. split.
      * destruct Hin as [<-|Hin]; [left; reflexivity|right; right; exact Hin].
      * intros z [<-|[<-|Hz]].
        -- apply Hle. left. reflexivity.
        -- apply (lt_negtrans y best _); [exact Py|exact Pb| |exact E|].
           ++ destruct Hin as [<-|Hin]; [exact Pb|apply Pall; right; exact Hin].
           ++ apply Hle. left. reflexivity.
        -- apply Hle. right. exact Hz.
Qed.

(** [max] and [min] return on a list that is not empty, and what they
    return is an extreme of it. *)
Lemma py_max_extreme (l : list A) :
  l <> [] -> Forall P l ->
  exists m, py_max lt l = Ok m /\ In m l /\ forall y, In y l -> lt m y = false.
Proof.
  destruct l as [|x l]; [congruence|]. intros _ Pl.
  apply Forall_cons in Pl as [Px Pl].
  eexists. split; [reflexivity|]. apply fold_max_extreme; assumption.
Qed.

Lemma py_min_extreme (l : list A) :
  l <> [] -> Forall P l ->
  exists m, py_min lt l = Ok m /\ In m l /\ forall y, In y l -> lt y m = false.
Proof.
  destruct l as [|x l]; [congruence|]. intros _ Pl.
  apply Forall_cons in Pl as [Px Pl].
  eexists. split; [reflexivity|]. apply fold_min_extreme; assumption.
Qed.

(** The ends of the sorted data are extremes of the data. *)
Lemma sorted_last_extreme (data : list A) (d : A) :
  data <> [] -> Forall P data ->
  let m := nth (Z.to_nat (len (sorted lt data) - 1)) (sorted lt data) d in
  In m data /\ forall y, In y data -> lt m y = false.
Proof.
  intros Hd Pd.
  pose proof (sorted_perm lt data) as Hp.
  pose proof (len_positive data Hd) as Hn.
  rewrite <- (len_sorted lt) in Hn. unfold len in *.
  split.
  - apply (Permutation_in _ Hp), nth_In. lia.
  - intros y Hy. apply (Permutation_in _ (Permutation_sym Hp)) in Hy.
    destruct (In_nth _ _ d Hy) as (i & Hi & <-).
    apply ascending_nth; [apply sorted_ascending, Pd | lia].
Qed.

Lemma sorted_first_extreme (data : list A) (d : A) :
  data <> [] -> Forall P data ->
  let m := nth 0 (sorted lt data) d in
  In m data /\ forall y, In y data -> lt y m = false.
Proof.
  intros Hd Pd.
  pose proof (sorted_perm lt data) as Hp.
  pose proof (len_positive data Hd) as Hn.
  rewrite <- (len_sorted lt) in Hn. unfold len in *.
  split.
  - apply (Permutation_in _ Hp), nth_In. lia.
  - intros y Hy. apply (Permutation_in _ (Permutation_sym Hp)) in Hy.
    destruct (In_nth _ _ d Hy) as (i & Hi & <-).
    apply ascending_nth; [apply sorted_ascending, Pd | lia].
Qed.
End OrderFacts.


(** * Strings *)

Lemma append_assoc (a b c : string) :
  ((a ++ b) ++ c = a ++ (b ++ c))%string.
Proof.
  induction a as [|ch a IH]; [reflexivity|].
  change (String ch ((a ++ b) ++ c) = String ch (a ++ (b ++ c)))%string.
  now rewrite IH.
Qed.

(** * The statistics engine in exact arithmetic

    Over the rationals the estimator stays within the extremes of the
    data and grows with [p]; binary64 rounds each operation, and
    [Binary64Facts] shows where that decides the outcome. *)

Module ExactFacts.
Import Exact.
Local Open Scope Q_scope.

Lemma flt_true (x y : Q) : flt x y = true <-> x < y.
Proof.
  cbn. rewrite negb_true_iff, <- not_true_iff_false, Qle_bool_iff.
  split; [apply Qnot_le_lt | apply Qlt_not_le].
Qed.

Lemma flt_false (x y : Q) : flt x y = false <-> y <= x.
Proof.
  cbn. rewrite negb_false_iff, Qle_bool_iff. reflexivity.
Qed.

Lemma Forall_Qle_trans (x y : Q) (l : list Q) :
  x <= y -> Forall (Qle y) l -> Forall (Qle x) l.
Proof.
  intros Hxy Hl. induction Hl as [|z l Hz _ IH]; constructor.
  - eapply Qle_trans; eassumption.
  - exact IH.
Qed.

Lemma insert_sorted_sorted (x : Q) (l : list Q) :
  StronglySorted Qle l -> StronglySorted Qle (insert_sorted flt x l).
Proof.
  induction 1 as [|y l Hs IH Hy]; cbn [insert_sorted].
  - repeat constructor.
  - destruct (flt y x) eqn:E.
    + constructor; [exact IH|].
      rewrite (insert_sorted_perm flt x l).
      constructor; [|exact Hy].
      apply flt_true in E. apply Qlt_le_weak, E.
    + apply flt_false in E.
      constructor; [constructor; assumption|].
      constructor; [exact E|]. eapply Forall_Qle_trans; eassumption.
Qed.

(** [sorted] orders its argument ascending. *)
Lemma sorted_sorted (l : list Q) : StronglySorted Qle (sorted flt l).
Proof.
  induction l as [|x l IH]; cbn.
  - constructor.
  - apply insert_sorted_sorted, IH.
Qed.

(** In an ascending list, elements are ordered as their positions. *)
Lemma sorted_nth_le (l : list Q) (i j : nat) :
  StronglySorted Qle l -> (i <= j < length l)%nat -> nth i l 0 <= nth j l 0.
Proof.
  intros Hs. revert i j.
  induction Hs as [|x l Hs IH Hx]; intros i j Hij; cbn [length] in Hij.
  - lia.
  - destruct i as [|i], j as [|j]; cbn [nth]; try lia.
    + apply Qle_refl.
    + rewrite Forall_forall in Hx. apply Hx, list_elem_of_In, nth_In. lia.
    + apply IH. lia.
Qed.

(** On a value that is not negative, truncation is the floor. *)
Lemma trunc_floor (x : Q) :
  0 <= x -> Z.quot (Qnum x) (Zpos (Qden x)) = Qfloor x.
Proof.
  destruct x as [n d]. unfold Qle. cbn. intros Hn.
  apply Z.quot_div_nonneg; lia.
Qed.

Section Index.
Variables (data : list Q) (p : Q).
Hypothesis data_nonempty : data <> [].
Hypothesis p_range : 0 <= p <= 100.

Abbreviation n := (len (sorted flt data)).
Abbreviation index := ((p / 100) * inject_Z (n - 1)).

Lemma n_positive : (1 <= n)%Z.
Proof using data_nonempty.
  rewrite len_sorted. apply len_positive, data_nonempty.
Qed.

Lemma index_range : 0 <= index <= inject_Z (n - 1).
Proof using data_nonempty p_range.
  pose proof n_positive as Hn.
  assert (0 <= inject_Z (n - 1)) as Hm.
  { rewrite <- (Zle_Qle 0). lia. }
  assert (0 <= p / 100 <= 1) as [Hq0 Hq1].
  { split.
    - apply Qle_shift_div_l; [reflexivity | lra].
    - apply Qle_shift_div_r; [reflexivity | lra]. }
  split; [nra | nra].
Qed.

Lemma floor_index_range : (0 <= Qfloor index <= n - 1)%Z.
Proof using data_nonempty p_range.
  destruct index_range as [H0 H1]. split.
  - change 0%Z with (Qfloor 0). apply Qfloor_resp_le, H0.
  - apply Z.le_trans with (Qfloor (inject_Z (n - 1))).
    + apply Qfloor_resp_le, H1.
    + rewrite Qfloor_Z. lia.
Qed.

(** For data that is not empty and [p] within [[0,100]], the code
    computes the estimator over its sorted data. *)
Lemma percentile_unfold :
  _percentile data p = Ok (linear_interpolation (sorted flt data) p).
Proof using data_nonempty p_range.
  pose proof floor_index_range as Hf.
  destruct index_range as [Hi0 _].
  unfold _percentile, linear_interpolation.
  change (py_div p (of_int 100)) with (Ok (p / 100)).
  cbn [bind to_int Q_float fmul of_int].
  rewrite (trunc_floor index Hi0).
  replace (Qfloor index + 1 >=? n)%Z with (n <=? Qfloor index + 1)%Z
    by (rewrite Z.geb_leb; reflexivity).
  destruct (n <=? Qfloor index + 1)%Z eqn:E.
  - apply getitem_last. rewrite sorted_nil_iff. exact data_nonempty.
  - apply Z.leb_gt in E.
    rewrite (getitem_nth _ (Qfloor index) 0) by lia.
    rewrite (getitem_nth _ (Qfloor index + 1) 0) by lia.
    reflexivity.
Qed.
End Index.

(** ** Extremes *)

Lemma is_max_unique (l : list Q) (m m' : Q) :
  is_max l m -> is_max l m' -> m == m'.
Proof.
  intros [Hm Hle] [Hm' Hle']. apply Qle_antisym; auto.
Qed.

Lemma is_min_unique (l : list Q) (m m' : Q) :
  is_min l m -> is_min l m' -> m == m'.
Proof.
  intros [Hm Hle] [Hm' Hle']. apply Qle_antisym; auto.
Qed.

Lemma fold_max_spec (l : list Q) (best : Q) :
  is_max (best :: l) (foldl (fun best y => if flt best y then y else best) best l).
Proof.
  revert best. induction l as [|y l IH]; intros best; cbn [foldl].
  - split; [left; reflexivity|]. intros z [<-|[]]. apply Qle_refl.
  - destruct (flt best y) eqn:E.
    + apply flt_true in E. destruct (IH y) as [Hin Hle]. split.
      * right. exact Hin.
      * intros z [<-|Hz]; [|apply Hle, Hz].
        eapply Qle_trans; [apply Qlt_le_weak, E|]. apply Hle. left. reflexivity.
    + apply flt_false in E. destruct (IH best) as [Hin Hle]. split.
      * destruct Hin as [<-|Hin]; [left; reflexivity|right; right; exact Hin].
      * intros z [<-|[<-|Hz]].
        -- apply Hle. left. reflexivity.
        -- eapply Qle_trans; [exact E|]. apply Hle. left. reflexivity.
        -- apply Hle. right. exact Hz.
Qed.

Lemma fold_min_spec (l : list Q) (best : Q) :
  is_min (best :: l) (foldl (fun best y => if flt y best then y else best) best l).
Proof.
  revert best. induction l as [|y l IH]; intros best; cbn [foldl].
  - split; [left; reflexivity|]. intros z [<-|[]]. apply Qle_refl.
  - destruct (flt y best) eqn:E.
    + apply flt_true in E. destruct (IH y) as [Hin Hle]. split.
      * right. exact Hin.
      * intros z [<-|Hz]; [|apply Hle, Hz].
        eapply Qle_trans; [|apply Qlt_le_weak, E]. apply Hle. left. reflexivity.
    + apply flt_false in E. destruct (IH best) as [Hin Hle]. split.
      * destruct Hin as [<-|Hin]; [left; reflexivity|right; right; exact Hin].
      * intros z [<-|[<-|Hz]].
        -- apply Hle. left. reflexivity.
        -- eapply Qle_trans; [|exact E]. apply Hle. left. reflexivity.
        -- apply Hle. right. exact Hz.
Qed.

(** [max] and [min] return on a list that is not empty, and return an
    extreme of it. *)
Lemma py_max_spec (l : list Q) :
  l <> [] -> exists m, py_max flt l = Ok m /\ is_max l m.
Proof.
  destruct l as [|x l]; [congruence|]. intros _.
  eexists. split; [reflexivity|]. apply fold_max_spec.
Qed.

Lemma py_min_spec (l : list Q) :
  l <> [] -> exists m, py_min flt l = Ok m /\ is_min l m.
Proof.
  destruct l as [|x l]; [congruence|]. intros _.
  eexists. split; [reflexivity|]. apply fold_min_spec.
Qed.

(** Every element of a list sits at one of its positions. *)
Lemma In_nth_pos (l : list Q) (y : Q) :
  In y l -> exists i, (i < length l)%nat /\ nth i l 0 = y.
Proof. intros Hy. apply (In_nth l y 0 Hy). Qed.

(** The ends of the sorted data are extremes of the data. *)
Lemma sorted_last_is_max (data : list Q) :
  data <> [] ->
  is_max data (nth (Z.to_nat (len (sorted flt data) - 1)) (sorted flt data) 0).
Proof.
  intros Hd.
  pose proof (sorted_perm flt data) as Hp.
  pose proof (len_positive data Hd) as Hn.
  rewrite <- (len_sorted flt) in Hn. unfold len in *.
  split.
  - apply (Permutation_in _ Hp), nth_In. lia.
  - intros y Hy. apply (Permutation_in _ (Permutation_sym Hp)) in Hy.
    destruct (In_nth_pos _ _ Hy) as (i & Hi & <-).
    apply sorted_nth_le; [apply sorted_sorted | lia].
Qed.

Lemma sorted_first_is_min (data : list Q) :
  data <> [] -> is_min data (nth 0 (sorted flt data) 0).
Proof.
  intros Hd.
  pose proof (sorted_perm flt data) as Hp.
  pose proof (len_positive data Hd) as Hn.
  rewrite <- (len_sorted flt) in Hn. unfold len in *.
  split.
  - apply (Permutation_in _ Hp), nth_In. lia.
  - intros y Hy. apply (Permutation_in _ (Permutation_sym Hp)) in Hy.
    destruct (In_nth_pos _ _ Hy) as (i & Hi & <-).
    apply sorted_nth_le; [apply sorted_sorted | lia].
Qed.

(** At [p = 100] the estimator takes the clamp branch. *)
Lemma linear_interpolation_100 (s : list Q) :
  linear_interpolation s 100 = nth (Z.to_nat (len s - 1)) s 0.
Proof.
  unfold linear_interpolation.
  assert (100 / 100 * inject_Z (len s - 1) == inject_Z (len s - 1)) as E by field.
  rewrite (Qfloor_comp _ _ E), Qfloor_Z.
  replace (len s - 1 + 1 >=? len s)%Z with true by lia. reflexivity.
Qed.

(** At [p = 0] it yields the first element. *)
Lemma linear_interpolation_0 (s : list Q) :
  linear_interpolation s 0 == nth 0 s 0.
Proof.
  unfold linear_interpolation.
  assert (0 / 100 * inject_Z (len s - 1) == 0) as E by field.
  rewrite (Qfloor_comp _ _ E). change (Qfloor 0) with 0%Z.
  change (0 + 1)%Z with 1%Z.
  change (Z.to_nat 0) with 0%nat. change (Z.to_nat 1) with 1%nat.
  change (inject_Z 0) with 0.
  set (index := 0 / 100 * inject_Z (len s - 1)) in *.
  destruct (1 >=? len s)%Z eqn:En.
  - pose proof (len_nonneg s) as Hs.
    assert (len s = 0 \/ len s = 1)%Z as [H0|H1] by lia.
    + rewrite H0. destruct s; reflexivity.
    + rewrite H1. reflexivity.
  - set (a := nth 0 s 0). set (b := nth 1 s 0).
    transitivity (a * (1 - (0 - 0)) + b * (0 - 0)); [|ring].
    assert (index - 0 == 0 - 0) as Ew by (apply Qplus_comp; [exact E | reflexivity]).
    apply Qplus_comp; apply Qmult_comp; try reflexivity; try exact Ew.
Qed.

(** ** Ordering of the statistics in exact arithmetic *)

Lemma convex_le (a b M w : Q) :
a <= M -> b <= M -> 0 <= w <= 1 -> a * (1 - w) + b * w <= M.
Proof. intros Ha Hb [Hw0 Hw1]. nra. Qed.

Lemma convex_ge (a b m w : Q) :
m <= a -> m <= b -> 0 <= w <= 1 -> m <= a * (1 - w) + b * w.
Proof. intros Ha Hb [Hw0 Hw1]. nra. Qed.

Lemma convex_mono (a b w u : Q) :
a <= b -> w <= u -> a * (1 - w) + b * w <= a * (1 - u) + b * u.
Proof. intros Hab Hwu. nra. Qed.

(** The fractional part of a value lies in [[0,1]]. *)
Lemma weight_range (x : Q) : 0 <= x - inject_Z (Qfloor x) <= 1.
Proof.
pose proof (Qfloor_le x) as Hl. pose proof (Qlt_floor x) as Hu.
rewrite inject_Z_plus in Hu. change (inject_Z 1) with 1 in Hu.
split; lra.
Qed.

Lemma Qfloor_eq (x : Q) (z : Z) :
inject_Z z <= x -> x < inject_Z (z + 1) -> Qfloor x = z.
Proof.
intros Hl Hu.
assert (z <= Qfloor x)%Z.
{ rewrite <- (Qfloor_Z z). apply Qfloor_resp_le, Hl. }
assert (Qfloor x < z + 1)%Z.
{ rewrite Zlt_Qlt. eapply Qle_lt_trans; [apply Qfloor_le | exact Hu]. }
lia.
Qed.

(** The position [(p/100)*(n-1)] grows with [p]. *)
Lemma position_mono (n : Z) (p q : Q) :
(1 <= n)%Z -> 0 <= p -> p <= q -> q <= 100 ->
0 <= p / 100 * inject_Z (n - 1)
/\ p / 100 * inject_Z (n - 1) <= q / 100 * inject_Z (n - 1)
/\ q / 100 * inject_Z (n - 1) <= inject_Z (n - 1).
Proof.
intros Hn Hp Hpq Hq.
assert (0 <= inject_Z (n - 1)) as Hm.
{ rewrite <- (Zle_Qle 0). lia. }
assert (0 <= p / 100) by (apply Qle_shift_div_l; [reflexivity | lra]).
assert (q / 100 <= 1) by (apply Qle_shift_div_r; [reflexivity | lra]).
assert (p / 100 <= q / 100).
{ unfold Qdiv. apply Qmult_le_compat_r; [exact Hpq | discriminate]. }
repeat split; nra.
Qed.


(** Over ascending data the estimator grows with [p]. *)
Lemma linear_interpolation_mono (s : list Q) (p q : Q) :
StronglySorted Qle s -> s <> [] -> 0 <= p -> p <= q -> q <= 100 ->
linear_interpolation s p <= linear_interpolation s q.
Proof.
intros Hs Hne Hp Hpq Hq.
pose proof (len_positive s Hne) as Hn.
destruct (position_mono (len s) p q Hn Hp Hpq Hq) as (Hx0 & Hxy & HyN).
unfold linear_interpolation.
set (x := p / 100 * inject_Z (len s - 1)) in *.
set (y := q / 100 * inject_Z (len s - 1)) in *.
assert (0 <= Qfloor x)%Z as Hi0.
{ change 0%Z with (Qfloor 0). apply Qfloor_resp_le, Hx0. }
assert (Qfloor x <= Qfloor y)%Z as Hij by apply Qfloor_resp_le, Hxy.
assert (Qfloor y <= len s - 1)%Z as HjN.
{ apply Z.le_trans with (Qfloor (inject_Z (len s - 1))).
  - apply Qfloor_resp_le, HyN.
  - rewrite Qfloor_Z. lia. }
pose proof (weight_range x) as Hw. pose proof (weight_range y) as Hu.
set (i := Qfloor x) in *. set (j := Qfloor y) in *.
assert (forall a b : Z, (0 <= a <= b)%Z -> (b <= len s - 1)%Z ->
                        nth (Z.to_nat a) s 0 <= nth (Z.to_nat b) s 0) as Hnth.
{ intros a b Hab Hb. apply sorted_nth_le; [exact Hs|]. unfold len in *. lia. }
rewrite !Z.geb_leb.
destruct (len s <=? j + 1)%Z eqn:Ej; destruct (len s <=? i + 1)%Z eqn:Ei.
- apply Qle_refl.
- apply Z.leb_gt in Ei.
  apply convex_le; [apply Hnth; lia | apply Hnth; lia | exact Hw].
- apply Z.leb_le in Ei. apply Z.leb_gt in Ej. lia.
- apply Z.leb_gt in Ei. apply Z.leb_gt in Ej.
  destruct (Z.eq_dec i j) as [E|NE].
  + rewrite <- E. apply convex_mono; [apply Hnth; lia | lra].
  + apply Qle_trans with (nth (Z.to_nat (i + 1)) s 0).
    * apply convex_le; [apply Hnth; lia | apply Qle_refl | exact Hw].
    * apply Qle_trans with (nth (Z.to_nat j) s 0); [apply Hnth; lia|].
      apply convex_ge; [apply Qle_refl | apply Hnth; lia | exact Hu].
Qed.


Lemma inject_Z_pred (k : Z) : inject_Z (k - 1) == inject_Z k - 1.
Proof.
unfold Z.sub. rewrite inject_Z_plus. reflexivity.
Qed.

Lemma inject_Z_double (k : Z) : inject_Z (2 * k) == 2 * inject_Z k.
Proof. rewrite inject_Z_mult. reflexivity. Qed.

(** [statistics.median] returns on data that is not empty, and returns the
    estimator at [p = 50]. *)
Lemma median_is_percentile_50 (data : list Q) :
data <> [] ->
exists m, median data = Ok m /\ m == linear_interpolation (sorted flt data) 50.
Proof.
intros Hd. unfold median, linear_interpolation.
assert (1 <= len (sorted flt data))%Z as Hn.
{ rewrite len_sorted. apply len_positive, Hd. }
set (s := sorted flt data) in *. set (n := len s) in *.
change (50 / 100) with (50 # 100).
replace (n =? 0)%Z with false by lia.
pose proof (Z.div_mod n 2 ltac:(lia)) as Hdm.
pose proof (Z.mod_pos_bound n 2 ltac:(lia)) as Hmb.
set (k := (n / 2)%Z) in *.
destruct (n mod 2 =? 1)%Z eqn:Eodd.
- apply Z.eqb_eq in Eodd.
  assert (n - 1 = 2 * k)%Z as En by lia.
  pose proof (inject_Z_double k) as Hk. rewrite <- En in Hk.
  set (x := (50 # 100) * inject_Z (n - 1)) in *.
  assert (x == inject_Z k) as Hx by (unfold x; lra).
  assert (Qfloor x = k) as Hf.
  { apply Qfloor_eq; [lra|]. rewrite inject_Z_plus. change (inject_Z 1) with 1. lra. }
  rewrite Hf.
  exists (nth (Z.to_nat k) s 0). split.
  + apply getitem_nth. fold n. lia.
  + rewrite Z.geb_leb. destruct (n <=? k + 1)%Z eqn:Ec.
    * apply Z.leb_le in Ec. replace (n - 1)%Z with k by lia. reflexivity.
    * nra.
- apply Z.eqb_neq in Eodd.
  assert (n = 2 * k)%Z as En by lia.
  pose proof (inject_Z_double k) as Hk. rewrite <- En in Hk.
  pose proof (inject_Z_pred n) as Hp.
  pose proof (inject_Z_pred k) as Hpk.
  set (x := (50 # 100) * inject_Z (n - 1)) in *.
  assert (x == inject_Z k - (1 # 2)) as Hx by (unfold x; lra).
  assert (Qfloor x = k - 1)%Z as Hf.
  { apply Qfloor_eq; [lra|]. replace (k - 1 + 1)%Z with k by lia. lra. }
  rewrite Hf.
  rewrite (getitem_nth s (k - 1) 0) by (fold n; lia).
  rewrite (getitem_nth s k 0) by (fold n; lia).
  cbn [bind].
  set (a := nth (Z.to_nat (k - 1)) s 0). set (b := nth (Z.to_nat k) s 0).
  exists ((a + b) * (1 # 2)). split; [reflexivity|].
  rewrite Z.geb_leb. replace (n <=? k - 1 + 1)%Z with false by lia.
  replace (k - 1 + 1)%Z with k by lia. fold a b. nra.
Qed.


Lemma inject_Z_len_cons (x : Q) (l : list Q) :
inject_Z (len (x :: l)) == inject_Z (len l) + 1.
Proof.
unfold len. cbn [length]. rewrite Nat2Z.inj_succ. unfold Z.succ.
rewrite inject_Z_plus. reflexivity.
Qed.

Lemma sum_bounds (l : list Q) (lo hi : Q) :
(forall y, In y l -> lo <= y <= hi) ->
inject_Z (len l) * lo <= foldr Qplus 0 (map exact_ratio l)
/\ foldr Qplus 0 (map exact_ratio l) <= inject_Z (len l) * hi.
Proof.
induction l as [|x l IH]; intros Hb.
- change (inject_Z (len (@nil Q))) with 0. cbn [map foldr]. split; lra.
- destruct IH as [IHlo IHhi]; [intros y Hy; apply Hb; right; exact Hy|].
  destruct (Hb x (or_introl eq_refl)) as [Hlo Hhi].
  pose proof (inject_Z_len_cons x l) as Hc.
  cbn [map foldr]. change (exact_ratio x) with x.
  set (total := foldr Qplus 0 (map exact_ratio l)) in *.
  assert (inject_Z (len (x :: l)) * lo == inject_Z (len l) * lo + lo) as Elo
    by (rewrite Hc; ring).
  assert (inject_Z (len (x :: l)) * hi == inject_Z (len l) * hi + hi) as Ehi
    by (rewrite Hc; ring).
  split; nra.
Qed.

(** [statistics.mean] returns on data that is not empty, within any bounds
    of the data. *)
Lemma mean_spec (data : list Q) :
data <> [] ->
exists m, mean data = Ok m
          /\ forall lo hi, (forall y, In y data -> lo <= y <= hi) -> lo <= m <= hi.
Proof.
intros Hd. pose proof (len_positive data Hd) as Hn.
unfold mean. replace (len data <? 1)%Z with false by lia.
eexists. split; [reflexivity|].
intros lo hi Hb. destruct (sum_bounds data lo hi Hb) as [Hlo Hhi].
assert (0 < inject_Z (len data)) as Hpos by (rewrite <- (Zlt_Qlt 0); lia).
cbn [of_ratio Q_float]. split.
- apply Qle_shift_div_l; [exact Hpos|]. lra.
- apply Qle_shift_div_r; [exact Hpos|]. lra.
Qed.

(** The statistics of a record built from samples, in exact arithmetic. *)
Lemma summarize_ordering (stdev : list Q -> Q) (self : BenchmarkHarness Q)
  (latencies : list Q) :
latencies <> [] ->
exists r, summarize stdev self latencies = Ok r
          /\ r_latencies r = latencies
          /\ r_min r <= r_median r <= r_max r
          /\ r_min r <= r_mean r <= r_max r
          /\ r_median r <= r_p95 r <= r_p99 r.
Proof.
intros Hne.
destruct (mean_spec latencies Hne) as (m & Em & Hm).
destruct (median_is_percentile_50 latencies Hne) as (md & Emd & Hmd).
destruct (py_min_spec latencies Hne) as (mn & Emn & Hmn).
destruct (py_max_spec latencies Hne) as (mx & Emx & Hmx).
assert (0 <= 95 <= 100) as R95 by (split; discriminate).
assert (0 <= 99 <= 100) as R99 by (split; discriminate).
pose proof (percentile_unfold latencies 95 Hne R95) as E95.
pose proof (percentile_unfold latencies 99 Hne R99) as E99.
unfold summarize. rewrite Em, Emd, Emn, Emx. cbn [bind].
change (_percentile latencies (of_int 95)) with (_percentile latencies 95).
change (_percentile latencies (of_int 99)) with (_percentile latencies 99).
rewrite E95, E99. cbn [bind].
eexists. split; [reflexivity|].
cbn [r_latencies r_min r_median r_max r_mean r_p95 r_p99].
split; [reflexivity|].
pose proof (sorted_sorted latencies) as Hs.
assert (sorted flt latencies <> []) as Hsne by (rewrite sorted_nil_iff; exact Hne).
set (s := sorted flt latencies) in *.
pose proof (is_min_unique _ _ _ (sorted_first_is_min latencies Hne) Hmn) as Hlo.
pose proof (is_max_unique _ _ _ (sorted_last_is_max latencies Hne) Hmx) as Hhi.
fold s in Hlo, Hhi.
pose proof (linear_interpolation_0 s) as L0.
pose proof (linear_interpolation_100 s) as L100.
pose proof (linear_interpolation_mono s 0 50 Hs Hsne) as M1.
pose proof (linear_interpolation_mono s 50 95 Hs Hsne) as M2.
pose proof (linear_interpolation_mono s 95 99 Hs Hsne) as M3.
pose proof (linear_interpolation_mono s 99 100 Hs Hsne) as M4.
specialize (M1 ltac:(discriminate) ltac:(discriminate) ltac:(discriminate)).
specialize (M2 ltac:(discriminate) ltac:(discriminate) ltac:(discriminate)).
specialize (M3 ltac:(discriminate) ltac:(discriminate) ltac:(discriminate)).
specialize (M4 ltac:(discriminate) ltac:(discriminate) ltac:(discriminate)).
rewrite L100 in M4.
assert (forall y, In y latencies -> mn <= y <= mx) as Hb.
{ intros y Hy. split; [apply Hmn, Hy | apply Hmx, Hy]. }
specialize (Hm mn mx Hb).
repeat split; lra.
Qed.

(** In exact arithmetic the record of a run with at least one iteration
    is ordered as the specification states: [min <= median <= max],
    [min <= mean <= max] and [median <= p95 <= p99]. *)
Lemma record_ordering_exact (stdev : list Q -> Q) (self : BenchmarkHarness Q)
  (elapsed : nat -> Q) :
(1 <= num_iterations self)%Z ->
exists r, snd (run_benchmark stdev self elapsed) = Ok r
          /\ len (r_latencies r) = num_iterations self
          /\ r_min r <= r_median r <= r_max r
          /\ r_min r <= r_mean r <= r_max r
          /\ r_median r <= r_p95 r <= r_p99 r.
Proof.
intros Hn. unfold run_benchmark.
set (latencies := map _ (seq 0 (Z.to_nat (num_iterations self)))).
assert (length latencies = Z.to_nat (num_iterations self)) as Hlen.
{ unfold latencies. rewrite length_map, length_seq. reflexivity. }
assert (latencies <> []) as Hne.
{ intros E. rewrite E in Hlen. cbn in Hlen. lia. }
destruct (summarize_ordering stdev
            {| num_iterations := num_iterations self;
               mock_response_time := mock_response_time self;
               results := latencies;
               _results_dict := _results_dict self |} latencies Hne)
  as (r & Er & Hl & Hord).
rewrite Er. exists r. split; [reflexivity|]. split; [|exact Hord].
rewrite Hl. unfold len. rewrite Hlen. lia.
Qed.

End ExactFacts.

(** * Binary64: the primitive operations and their specification *)

Module FloatFacts.
Import Binary64.

(** ** The number of binary digits *)

(** [digits2_pos p] is the length of [p] in base 2. *)
Lemma digits2_pos_bounds (p : positive) :
  2 ^ (Zpos (digits2_pos p) - 1) <= Zpos p < 2 ^ Zpos (digits2_pos p).
Proof.
  induction p as [p IH|p IH|]; cbn [digits2_pos].
  - rewrite Pos2Z.inj_succ.
    replace (Z.succ (Zpos (digits2_pos p)) - 1) with (Z.succ (Zpos (digits2_pos p) - 1)) by lia.
    rewrite !Z.pow_succ_r by lia. lia.
  - rewrite Pos2Z.inj_succ.
    replace (Z.succ (Zpos (digits2_pos p)) - 1) with (Z.succ (Zpos (digits2_pos p) - 1)) by lia.
    rewrite !Z.pow_succ_r by lia. lia.
  - cbn. lia.
Qed.

Lemma Zdigits2_nonneg (m : Z) : 0 <= Zdigits2 m.
Proof. destruct m; cbn; lia. Qed.

Lemma Zdigits2_bounds (m : Z) :
  0 < m -> 2 ^ (Zdigits2 m - 1) <= m < 2 ^ Zdigits2 m.
Proof. destruct m; try lia. intros _. apply digits2_pos_bounds. Qed.

(** A number below [2^k] has at most [k] digits; one from [2^k] on has
    more. *)
Lemma Zdigits2_le_pow (m k : Z) : 0 <= k -> 0 <= m < 2 ^ k -> Zdigits2 m <= k.
Proof.
  intros Hk [H0 Hm].
  destruct (Z.eq_dec m 0) as [->|Hn]; [cbn; lia|].
  destruct (Z_le_gt_dec (Zdigits2 m) k) as [|Hgt]; [assumption|exfalso].
  pose proof (Zdigits2_bounds m ltac:(lia)) as [Hlo _].
  assert (2 ^ k <= 2 ^ (Zdigits2 m - 1)) by (apply Z.pow_le_mono_r; lia).
  lia.
Qed.

Lemma Zdigits2_gt_pow (m k : Z) : 0 <= k -> 2 ^ k <= m -> k < Zdigits2 m.
Proof.
  intros Hk Hm.
  assert (0 < 2 ^ k) by (apply Z.pow_pos_nonneg; lia).
  pose proof (Zdigits2_bounds m ltac:(lia)) as [_ Hhi].
  destruct (Z_lt_le_dec k (Zdigits2 m)) as [|Hle]; [assumption|exfalso].
  assert (2 ^ Zdigits2 m <= 2 ^ k) by (apply Z.pow_le_mono_r; lia).
  lia.
Qed.

Lemma Zdigits2_mono (a b : Z) : 0 <= a <= b -> Zdigits2 a <= Zdigits2 b.
Proof.
  intros [Ha Hab].
  destruct (Z.eq_dec b 0) as [->|Hb]; [replace a with 0 by lia; lia|].
  apply Zdigits2_le_pow; [apply Zdigits2_nonneg|].
  pose proof (Zdigits2_bounds b ltac:(lia)). lia.
Qed.

(** Digits under the operations the rounding uses. *)
Lemma Zdigits2_mul_pow (m k : Z) :
  0 < m -> 0 <= k -> Zdigits2 (m * 2 ^ k) = Zdigits2 m + k.
Proof.
  intros Hm Hk.
  pose proof (Zdigits2_bounds m Hm) as [Hlo Hhi].
  pose proof (Zdigits2_nonneg m).
  assert (0 < 2 ^ k) by (apply Z.pow_pos_nonneg; lia).
  assert (1 <= Zdigits2 m).
  { destruct m; cbn; lia. }
  apply Z.le_antisymm.
  - apply Zdigits2_le_pow; [lia|]. rewrite Z.pow_add_r by lia. nia.
  - assert (Zdigits2 m + k - 1 < Zdigits2 (m * 2 ^ k)); [|lia].
    apply Zdigits2_gt_pow; [lia|].
    replace (Zdigits2 m + k - 1) with ((Zdigits2 m - 1) + k) by lia.
    rewrite Z.pow_add_r by lia. nia.
Qed.

Lemma Zdigits2_mul (a b : Z) :
  0 <= a -> 0 <= b -> Zdigits2 (a * b) <= Zdigits2 a + Zdigits2 b.
Proof.
  intros Ha Hb.
  pose proof (Zdigits2_nonneg a). pose proof (Zdigits2_nonneg b).
  destruct (Z.eq_dec a 0) as [->|Hna]; [rewrite Z.mul_0_l; lia|].
  destruct (Z.eq_dec b 0) as [->|Hnb]; [rewrite Z.mul_0_r; lia|].
  apply Zdigits2_le_pow; [lia|].
  pose proof (Zdigits2_bounds a ltac:(lia)).
  pose proof (Zdigits2_bounds b ltac:(lia)).
  rewrite Z.pow_add_r by lia. nia.
Qed.

Lemma Zdigits2_succ (m : Z) : 0 <= m -> Zdigits2 (m + 1) <= Zdigits2 m + 1.
Proof.
  intros Hm. pose proof (Zdigits2_nonneg m).
  apply Zdigits2_le_pow; [lia|].
  destruct (Z.eq_dec m 0) as [->|Hn]; [cbn; lia|].
  pose proof (Zdigits2_bounds m ltac:(lia)).
  rewrite Z.pow_add_r by lia. change (2 ^ 1) with 2. lia.
Qed.

Lemma Zdigits2_div (a b : Z) :
  0 < a -> 0 < b -> Zdigits2 (a / b) <= Z.max 0 (Zdigits2 a - Zdigits2 b + 1).
Proof.
  intros Ha Hb.
  pose proof (Zdigits2_bounds a Ha) as [_ Hahi].
  pose proof (Zdigits2_bounds b Hb) as [Hblo _].
  assert (1 <= Zdigits2 a) by (destruct a; cbn; lia).
  assert (1 <= Zdigits2 b) by (destruct b; cbn; lia).
  assert (0 <= a / b) by (apply Z.div_pos; lia).
  destruct (Z_le_gt_dec (Zdigits2 b) (Zdigits2 a)) as [Hle|Hgt].
  - rewrite Z.max_r by lia. apply Zdigits2_le_pow; [lia|]. split; [assumption|].
    apply Z.div_lt_upper_bound; [lia|].
    assert (2 ^ Zdigits2 a = 2 ^ (Zdigits2 b - 1) * 2 ^ (Zdigits2 a - Zdigits2 b + 1)).
    { rewrite <- Z.pow_add_r by lia. f_equal. lia. }
    assert (0 < 2 ^ (Zdigits2 a - Zdigits2 b + 1)) by (apply Z.pow_pos_nonneg; lia).
    assert (2 ^ (Zdigits2 b - 1) * 2 ^ (Zdigits2 a - Zdigits2 b + 1)
            <= b * 2 ^ (Zdigits2 a - Zdigits2 b + 1))
      by (apply Z.mul_le_mono_nonneg_r; lia).
    lia.
  - assert (a < b).
    { assert (2 ^ Zdigits2 a <= 2 ^ (Zdigits2 b - 1)) by (apply Z.pow_le_mono_r; lia). lia. }
    rewrite Z.div_small by lia. cbn. lia.
Qed.

(** ** Shifting right and rounding *)

Lemma iter_pos_nat {A : Type} (f : A -> A) (p : positive) (x : A) :
  SpecFloat.iter_pos f p x = Nat.iter (Pos.to_nat p) f x.
Proof.
  revert x. induction p as [p IH|p IH|]; intros x; cbn [SpecFloat.iter_pos].
  - rewrite !IH, Pos2Nat.inj_xI.
    replace (S (2 * Pos.to_nat p)) with (Pos.to_nat p + (Pos.to_nat p + 1))%nat by lia.
    rewrite !Nat.iter_add. reflexivity.
  - rewrite !IH, Pos2Nat.inj_xO.
    replace (2 * Pos.to_nat p)%nat with (Pos.to_nat p + Pos.to_nat p)%nat by lia.
    rewrite Nat.iter_add. reflexivity.
  - reflexivity.
Qed.

(** A shift by one position drops one digit. *)
Lemma shr_1_digits (mrs : shr_record) :
  Zdigits2 (shr_m (shr_1 mrs)) = Z.max (Zdigits2 (shr_m mrs) - 1) 0.
Proof.
  destruct mrs as [m r s]. destruct m as [|p|p]; cbn [shr_1 shr_m].
  - reflexivity.
  - destruct p; cbn [shr_m Zdigits2 digits2_pos]; rewrite ?Pos2Z.inj_succ; lia.
  - destruct p; cbn [shr_m Zdigits2 digits2_pos]; rewrite ?Pos2Z.inj_succ; lia.
Qed.

Lemma shr_1_nonneg (mrs : shr_record) : 0 <= shr_m mrs -> 0 <= shr_m (shr_1 mrs).
Proof.
  destruct mrs as [m r s]. destruct m as [|p|p]; cbn [shr_1 shr_m]; try lia.
  destruct p; cbn [shr_m]; lia.
Qed.

Lemma iter_shr_1_digits (n : nat) (mrs : shr_record) :
  Zdigits2 (shr_m (Nat.iter n shr_1 mrs))
  = Z.max (Zdigits2 (shr_m mrs) - Z.of_nat n) 0.
Proof.
  pose proof (Zdigits2_nonneg (shr_m mrs)).
  induction n as [|n IH].
  - cbn. lia.
  - rewrite Nat2Z.inj_succ.
    change (Nat.iter (S n) shr_1 mrs) with (shr_1 (Nat.iter n shr_1 mrs)).
    rewrite shr_1_digits, IH. lia.
Qed.

Lemma iter_shr_1_nonneg (n : nat) (mrs : shr_record) :
  0 <= shr_m mrs -> 0 <= shr_m (Nat.iter n shr_1 mrs).
Proof.
  intros Hm. induction n as [|n IH]; [assumption|].
  change (Nat.iter (S n) shr_1 mrs) with (shr_1 (Nat.iter n shr_1 mrs)).
  apply shr_1_nonneg, IH.
Qed.

(** What [shr] does to the exponent, to the number of digits and to the
    sign of the mantissa. *)
Lemma shr_spec (mrs : shr_record) (e n : Z) :
  let r := shr mrs e n in
  snd r = e + Z.max n 0
  /\ Zdigits2 (shr_m (fst r)) = Z.max (Zdigits2 (shr_m mrs) - Z.max n 0) 0
  /\ (0 <= shr_m mrs -> 0 <= shr_m (fst r)).
Proof.
  pose proof (Zdigits2_nonneg (shr_m mrs)).
  destruct n as [|p|p]; cbn [shr fst snd].
  - repeat split; auto; lia.
  - rewrite iter_pos_nat, iter_shr_1_digits, positive_nat_Z.
    repeat split; try lia. apply iter_shr_1_nonneg.
  - repeat split; auto; lia.
Qed.

Lemma round_nearest_even_cases (m : Z) (l : location) :
  round_nearest_even m l = m \/ round_nearest_even m l = m + 1.
Proof.
  destruct l as [|[| |]]; cbn; auto. destruct (Z.even m); auto.
Qed.

(** Rounding a mantissa that is not negative, of a number below [2^B]
    with [B] within the format, gives a zero or a finite number of the
    sign asked for, below [2^(B+1)]: there is no overflow. *)
Lemma binary_round_aux_cases (s : bool) (m e : Z) (l : location) (B : Z) :
  0 <= m -> e <= 971 -> Zdigits2 m + e <= B -> B <= 1023 ->
  binary_round_aux prec emax s m e l = S754_zero s
  \/ exists m' e',
       binary_round_aux prec emax s m e l = S754_finite s m' e'
       /\ Zpos (digits2_pos m') + e' <= Z.max B (-1074) + 1.
Proof.
  intros Hm He HB HB'. unfold binary_round_aux, shr_fexp.
  set (n1 := fexp prec emax (Zdigits2 m + e) - e).
  pose proof (shr_spec (shr_record_of_loc m l) e n1) as (E1 & D1 & N1).
  destruct (shr (shr_record_of_loc m l) e n1) as [mrs1 e1]. cbn [fst snd] in *.
  assert (Hml : shr_m (shr_record_of_loc m l) = m) by (destruct l as [|[| |]]; reflexivity).
  rewrite Hml in *. specialize (N1 Hm).
  set (m2 := round_nearest_even (shr_m mrs1) (loc_of_shr_record mrs1)).
  assert (Hm2 : 0 <= m2 /\ Zdigits2 m2 <= Zdigits2 (shr_m mrs1) + 1).
  { pose proof (Zdigits2_succ _ N1).
    destruct (round_nearest_even_cases (shr_m mrs1) (loc_of_shr_record mrs1)) as [E|E];
      fold m2 in E; rewrite E; lia. }
  destruct Hm2 as [Hm2 Dm2]. clearbody m2.
  set (n2 := fexp prec emax (Zdigits2 m2 + e1) - e1).
  pose proof (shr_spec (shr_record_of_loc m2 loc_Exact) e1 n2) as (E2 & D2 & N2).
  destruct (shr (shr_record_of_loc m2 loc_Exact) e1 n2) as [mrs2 e2]. cbn [fst snd] in *.
  change (shr_m (shr_record_of_loc m2 loc_Exact)) with m2 in *. specialize (N2 Hm2).
  pose proof (Zdigits2_nonneg m). pose proof (Zdigits2_nonneg m2).
  pose proof (Zdigits2_nonneg (shr_m mrs1)).
  subst n1 n2. unfold fexp, SpecFloat.emin, prec, emax in *.
  destruct (shr_m mrs2) as [|p|p] eqn:Ep; [left; reflexivity| |lia].
  right. cbn [Zdigits2] in D2.
  change IntDef.Z.max with Z.max in *.
  assert (e2 <= 1024 - 53) by lia.
  destruct (Z.leb_spec e2 (1024 - 53)); [|lia].
  exists p, e2. split; [reflexivity|]. lia.
Qed.

(** Shifting out zeros loses nothing. *)
Lemma shr_1_double (M : Z) :
  0 < M ->
  shr_1 {| shr_m := 2 * M; shr_r := false; shr_s := false |}
  = {| shr_m := M; shr_r := false; shr_s := false |}.
Proof. destruct M; try lia. reflexivity. Qed.

Lemma iter_shr_1_exact (k : nat) (M : Z) :
  0 < M ->
  Nat.iter k shr_1 {| shr_m := 2 ^ Z.of_nat k * M; shr_r := false; shr_s := false |}
  = {| shr_m := M; shr_r := false; shr_s := false |}.
Proof.
  intros HM. induction k as [|k IH].
  - cbn [Nat.iter nat_rect]. f_equal. cbn. destruct M; reflexivity.
  - rewrite Nat.iter_succ_r, Nat2Z.inj_succ, Z.pow_succ_r by lia.
    rewrite <- Z.mul_assoc, shr_1_double; [exact IH|].
    assert (0 < 2 ^ Z.of_nat k) by (apply Z.pow_pos_nonneg; lia). nia.
Qed.

Lemma bounded_spec (m : positive) (e : Z) :
  bounded prec emax m e = true ->
  fexp prec emax (Zpos (digits2_pos m) + e) = e /\ e <= 971.
Proof.
  unfold bounded, canonical_mantissa. intros H.
  apply andb_prop in H as [H1 H2].
  apply Z.eqb_eq in H1. apply Z.leb_le in H2. split; [exact H1|exact H2].
Qed.

(** A number of the format, written with [k] more zeros, is rounded to
    itself. *)
Lemma binary_round_aux_exact (s : bool) (m : positive) (e k : Z) :
  0 <= k ->
  bounded prec emax m e = true ->
  binary_round_aux prec emax s (2 ^ k * Zpos m) (e - k) loc_Exact
  = S754_finite s m e.
Proof.
  intros Hk Hb. apply bounded_spec in Hb as [Hc He].
  unfold binary_round_aux, shr_fexp.
  assert (Hd : Zdigits2 (2 ^ k * Zpos m) + (e - k) = Zpos (digits2_pos m) + e).
  { rewrite Z.mul_comm, Zdigits2_mul_pow by lia. cbn [Zdigits2]. lia. }
  rewrite Hd, Hc. replace (e - (e - k)) with k by lia.
  assert (Hs : shr (shr_record_of_loc (2 ^ k * Zpos m) loc_Exact) (e - k) k
               = ({| shr_m := Zpos m; shr_r := false; shr_s := false |}, e)).
  { destruct k as [|q|q]; try lia.
    - cbn [shr shr_record_of_loc]. rewrite Z.sub_0_r. reflexivity.
    - cbn [shr shr_record_of_loc]. rewrite iter_pos_nat.
      rewrite <- (positive_nat_Z q) at 1. rewrite iter_shr_1_exact by lia.
      f_equal. lia. }
  rewrite Hs. cbn [shr_m loc_of_shr_record round_nearest_even].
  cbn [Zdigits2]. rewrite Hc, Z.sub_diag. cbn [shr shr_record_of_loc shr_m].
  change (emax - prec) with 971.
  destruct (Z.leb_spec e 971); [reflexivity|lia].
Qed.

(** ** Sign and magnitude of the results of the operations *)

Lemma sf_mag_weaken (B B' : Z) (X : spec_float) :
  B <= B' -> sf_mag B X -> sf_mag B' X.
Proof. destruct X; cbn; auto. lia. Qed.

(** Rounding keeps the sign. *)
Lemma binary_round_aux_sign (s : bool) (m e : Z) (l : location) :
  match binary_round_aux prec emax s m e l with
  | S754_finite s' _ _ => s' = s
  | _ => True
  end.
Proof.
  unfold binary_round_aux.
  destruct (shr_fexp prec emax m e l) as [mrs1 e1].
  destruct (shr_fexp _ _ _ e1 loc_Exact) as [mrs2 e2].
  destruct (shr_m mrs2); auto. destruct (e2 <=? emax - prec); auto.
Qed.

Lemma binary_round_aux_mag (s : bool) (m e : Z) (l : location) (B : Z) :
  0 <= m -> e <= 971 -> Zdigits2 m + e <= B -> B <= 1023 ->
  sf_mag (Z.max B (-1074) + 1) (binary_round_aux prec emax s m e l).
Proof.
  intros Hm He HB HB'.
  destruct (binary_round_aux_cases s m e l B Hm He HB HB') as [->|(m' & e' & -> & H)];
    cbn; auto.
Qed.

(** The floats of the format: at most 53 digits, and either exactly 53
    or the least exponent. *)
Lemma valid_mag (s : bool) (m : positive) (e : Z) :
  valid_binary (S754_finite s m e) = true ->
  Zpos (digits2_pos m) <= 53
  /\ e <= 971
  /\ (e = Zpos (digits2_pos m) + e - 53 \/ e = -1074).
Proof.
  cbn [SpecFloat.valid_binary]. intros Hb. apply bounded_spec in Hb as [Hc He].
  unfold fexp, SpecFloat.emin, prec, emax in Hc.
  change IntDef.Z.max with Z.max in Hc. lia.
Qed.

(** A product and a quotient of numbers that are not negative are not
    negative. *)
Lemma SFmul_sign (X Y : spec_float) :
  sf_pos X -> sf_pos Y -> sf_pos (SFmul prec emax X Y).
Proof.
  destruct X as [sx|sx| |sx mx ex], Y as [sy|sy| |sy my ey]; cbn; auto.
  intros -> ->. apply binary_round_aux_sign.
Qed.

Lemma SFdiv_sign (X Y : spec_float) :
  sf_pos X -> sf_pos Y -> sf_pos (SFdiv prec emax X Y).
Proof.
  destruct X as [sx|sx| |sx mx ex], Y as [sy|sy| |sy my ey]; cbn [SFdiv sf_pos]; auto.
  intros -> ->.
  destruct (SFdiv_core_binary prec emax (Zpos mx) ex (Zpos my) ey) as [[mz ez] lz].
  apply binary_round_aux_sign.
Qed.

(** The size of a product and of a quotient. *)
Lemma SFmul_mag (X Y : spec_float) (Bx By : Z) :
  valid_binary X = true -> valid_binary Y = true ->
  sf_mag Bx X -> sf_mag By Y -> Bx + By <= 1023 ->
  sf_mag (Z.max (Bx + By) (-1074) + 1) (SFmul prec emax X Y).
Proof.
  destruct X as [sx|sx| |sx mx ex], Y as [sy|sy| |sy my ey];
    cbn [SFmul sf_mag]; auto; try tauto.
  intros Vx Vy Hx Hy HB.
  apply valid_mag in Vx as (Dx & Ex & Cx). apply valid_mag in Vy as (Dy & Ey & Cy).
  pose proof (Zdigits2_mul (Zpos mx) (Zpos my) ltac:(lia) ltac:(lia)) as Hd.
  cbn [Zdigits2] in Hd.
  assert (1 <= Zpos (digits2_pos mx)) by lia.
  assert (1 <= Zpos (digits2_pos my)) by lia.
  apply binary_round_aux_mag; try lia.
  change (Zpos (mx * my)) with (Zpos mx * Zpos my). lia.
Qed.

Lemma SFdiv_mag (X : spec_float) (sy : bool) (my : positive) (ey : Z) (Bx : Z) :
  valid_binary X = true ->
  sf_mag Bx X ->
  Bx - (Zpos (digits2_pos my) + ey) <= 1022 ->
  sf_mag (Z.max (Bx - (Zpos (digits2_pos my) + ey) + 1) (-1074) + 1)
         (SFdiv prec emax X (S754_finite sy my ey)).
Proof.
  destruct X as [sx|sx| |sx mx ex]; cbn [SFdiv sf_mag]; auto.
  intros Vx Hx HB. apply valid_mag in Vx as (Dx & Ex & Cx).
  unfold SFdiv_core_binary. cbn [Zdigits2].
  set (dx := Zpos (digits2_pos mx)) in *. set (dy := Zpos (digits2_pos my)) in *.
  set (e' := Z.min (fexp prec emax (dx + ex - (dy + ey))) (ex - ey)).
  set (s := ex - ey - e').
  assert (He' : e' <= fexp prec emax (dx + ex - (dy + ey)) /\ e' <= ex - ey)
    by (subst e'; change IntDef.Z.min with Z.min; lia).
  assert (Hs : 0 <= s) by (subst s; lia).
  assert (Hsd : s = ex - ey - e') by reflexivity.
  clearbody s. clearbody e'.
  set (m' := match s with Zpos _ => Z.shiftl (Zpos mx) s | Z0 => Zpos mx | Zneg _ => 0 end).
  assert (Hm' : m' = Zpos mx * 2 ^ s).
  { subst m'. destruct s as [|q|q]; try lia.
    rewrite Z.shiftl_mul_pow2 by lia. reflexivity. }
  clearbody m'.
  destruct (Z.div_eucl m' (Zpos my)) as [q r] eqn:Ed.
  assert (Hq : q = m' / Zpos my) by (unfold Z.div; rewrite Ed; reflexivity).
  assert (0 < 2 ^ s) by (apply Z.pow_pos_nonneg; lia).
  assert (0 < m') by (rewrite Hm'; nia).
  assert (Hq0 : 0 <= q) by (rewrite Hq; apply Z.div_pos; lia).
  pose proof (Zdigits2_div m' (Zpos my) ltac:(lia) ltac:(lia)) as Hd.
  rewrite <- Hq, Hm', Zdigits2_mul_pow in Hd by lia. cbn [Zdigits2] in Hd.
  fold dx dy in Hd.
  unfold fexp, SpecFloat.emin, prec, emax in He'. change IntDef.Z.max with Z.max in He'.
  assert (1 <= dx) by (subst dx; lia). assert (1 <= dy) by (subst dy; lia).
  eapply sf_mag_weaken;
    [|apply (binary_round_aux_mag _ _ _ _ (Z.max (Bx - (dy + ey) + 1) (-1074)))];
    lia.
Qed.

(** ** Integers as floats *)

(** An integer below [2^53] is a float. *)
Lemma Pos_iter_xO (p j : positive) : Zpos (Pos.iter xO p j) = 2 ^ Zpos j * Zpos p.
Proof.
  induction j as [|j IH] using Pos.peano_ind.
  - cbn. lia.
  - rewrite Pos.iter_succ, Pos2Z.inj_succ, Z.pow_succ_r by lia.
    rewrite Pos2Z.inj_xO, IH. lia.
Qed.

Lemma binary_normalize_int (p : positive) :
  Zpos p < 2 ^ 53 ->
  exists m e,
    binary_normalize prec emax (Zpos p) 0 false = S754_finite false m e
    /\ bounded prec emax m e = true /\ e <= 0 /\ Zpos m = 2 ^ (- e) * Zpos p.
Proof.
  intros Hp. cbn [binary_normalize]. unfold binary_round, shl_align.
  set (d := Zpos (digits2_pos p)).
  assert (Hd : 1 <= d <= 53).
  { split; [subst d; lia|]. apply (Zdigits2_le_pow (Zpos p) 53); lia. }
  assert (Hf : fexp prec emax (d + 0) - 0 = d - 53).
  { unfold fexp, SpecFloat.emin, prec, emax. change IntDef.Z.max with Z.max. lia. }
  assert (Hf' : fexp prec emax (d + 0) = d - 53) by lia.
  rewrite Hf, Hf'. destruct (d - 53) as [|j|j] eqn:Ej; try lia.
  - exists p, 0. assert (Hb : bounded prec emax p 0 = true).
    { unfold bounded, canonical_mantissa. fold d. replace d with 53 by lia. reflexivity. }
    pose proof (binary_round_aux_exact false p 0 0 ltac:(lia) Hb) as Hr.
    rewrite Z.pow_0_r, Z.mul_1_l, Z.sub_0_r in Hr.
    rewrite Hr. repeat split; auto; lia.
  - set (mz := Pos.iter xO p j).
    assert (Hmz : Zpos mz = 2 ^ Zpos j * Zpos p) by apply Pos_iter_xO.
    assert (Hdz : Zpos (digits2_pos mz) = 53).
    { change (Zpos (digits2_pos mz)) with (Zdigits2 (Zpos mz)).
      rewrite Hmz, Z.mul_comm, Zdigits2_mul_pow by lia. cbn [Zdigits2]. fold d. lia. }
    exists mz, (Zneg j).
    assert (Hb : bounded prec emax mz (Zneg j) = true).
    { unfold bounded, canonical_mantissa. rewrite Hdz.
      unfold fexp, SpecFloat.emin, prec, emax. change IntDef.Z.max with Z.max.
      apply andb_true_intro. split; [apply Z.eqb_eq|apply Z.leb_le]; lia. }
    pose proof (binary_round_aux_exact false mz (Zneg j) 0 ltac:(lia) Hb) as Hr.
    rewrite Z.pow_0_r, Z.mul_1_l, Z.sub_0_r in Hr.
    rewrite Hr. repeat split; auto; try lia.
Qed.

(** ** From the primitive operations to their specification *)

Lemma Prim2SF_100 : Prim2SF 100%float = S754_finite false 7036874417766400 (-46).
Proof. vm_compute. reflexivity. Qed.

Lemma float_of_int_100 : float_of_int 100 = 100%float.
Proof. vm_compute. reflexivity. Qed.

Lemma float_of_int_0 : float_of_int 0 = 0%float.
Proof. vm_compute. reflexivity. Qed.

Lemma float_of_int_1 : float_of_int 1 = 1%float.
Proof. vm_compute. reflexivity. Qed.

Lemma Prim2SF_mul (x y : float) :
  Prim2SF (x * y)%float = SFmul prec emax (Prim2SF x) (Prim2SF y).
Proof. apply FloatAxioms.mul_spec. Qed.

Lemma Prim2SF_div (x y : float) :
  Prim2SF (x / y)%float = SFdiv prec emax (Prim2SF x) (Prim2SF y).
Proof. apply FloatAxioms.div_spec. Qed.

Lemma Prim2SF_add (x y : float) :
  Prim2SF (x + y)%float = SFadd prec emax (Prim2SF x) (Prim2SF y).
Proof. apply FloatAxioms.add_spec. Qed.

Lemma Prim2SF_sub (x y : float) :
  Prim2SF (x - y)%float = SFsub prec emax (Prim2SF x) (Prim2SF y).
Proof. apply FloatAxioms.sub_spec. Qed.

(** A float of bounded magnitude converts to an integer; when it is not
    negative, to its floor, which is not negative either. *)
Lemma float_to_int_mag (x : float) (B : Z) :
  sf_mag B (Prim2SF x) -> exists z, float_to_int x = Ok z.
Proof.
  unfold float_to_int. destruct (Prim2SF x); cbn [sf_mag]; try tauto; eauto.
Qed.

Lemma float_to_int_floor (x : float) :
  sf_pos (Prim2SF x) -> float_to_int x = float_floor x.
Proof.
  unfold float_to_int, float_floor.
  destruct (Prim2SF x) as [s|s| |s m e]; cbn [sf_pos]; auto.
  intros ->. reflexivity.
Qed.

Lemma float_to_int_nonneg (x : float) (z : Z) :
  sf_pos (Prim2SF x) -> float_to_int x = Ok z -> 0 <= z.
Proof.
  unfold float_to_int.
  destruct (Prim2SF x) as [s|s| |s m e]; cbn [sf_pos]; intros Hs Hz;
    try discriminate; injection Hz as <-; [lia|].
  subst s. destruct e as [|q|q]; [lia| |].
  - assert (0 < 2 ^ Zpos q) by (apply Z.pow_pos_nonneg; lia). nia.
  - apply Z.div_pos; [lia|]. apply Z.pow_pos_nonneg; lia.
Qed.

(** [float(z)] for an integer up to [2^53] is exact. *)
Lemma float_of_int_spec (z : Z) :
  0 <= z < 2 ^ 53 ->
  valid_binary (Prim2SF (float_of_int z)) = true
  /\ sf_pos (Prim2SF (float_of_int z))
  /\ sf_mag 53 (Prim2SF (float_of_int z))
  /\ float_to_int (float_of_int z) = Ok z.
Proof.
  intros Hz. split; [apply Prim2SF_valid|].
  destruct z as [|p|p]; try lia.
  - rewrite float_of_int_0. vm_compute. auto.
  - destruct (binary_normalize_int p ltac:(lia)) as (m & e & E & Hb & He & Hm).
    unfold float_to_int, float_of_int. rewrite E.
    rewrite Prim2SF_SF2Prim by exact Hb.
    cbn [sf_pos sf_mag]. split; [reflexivity|]. split.
    + change (Zpos (digits2_pos m)) with (Zdigits2 (Zpos m)).
      rewrite Hm, Z.mul_comm, Zdigits2_mul_pow by lia.
      pose proof (Zdigits2_le_pow (Zpos p) 53 ltac:(lia) ltac:(lia)). lia.
    + f_equal. destruct e as [|q|q]; [|lia|].
      * change (Zpos m = 1 * Zpos p) in Hm. lia.
      * change (Zpos m = 2 ^ Zpos q * Zpos p) in Hm.
        rewrite Hm, Z.mul_comm, Z.div_mul; [reflexivity|].
        apply Z.pow_nonzero; lia.
Qed.

(** Beyond [2^53] the conversion rounds, to a float of the same size. *)
Lemma round_nearest_even_ge (m : Z) (l : location) :
  m <= round_nearest_even m l <= m + 1.
Proof. destruct (round_nearest_even_cases m l) as [-> | ->]; lia. Qed.

Lemma binary_normalize_big (p : positive) :
  2 ^ 53 <= Zpos p < 2 ^ 1023 ->
  exists m e,
    binary_normalize prec emax (Zpos p) 0 false = S754_finite false m e
    /\ bounded prec emax m e = true
    /\ Zpos (digits2_pos m) + e <= Zpos (digits2_pos p) + 1.
Proof.
  intros Hp. cbn [binary_normalize]. unfold binary_round, shl_align.
  set (d := Zpos (digits2_pos p)).
  assert (Hd : 54 <= d <= 1023).
  { split.
    - pose proof (Zdigits2_gt_pow (Zpos p) 53 ltac:(lia) ltac:(lia)) as H.
      cbn [Zdigits2] in H. fold d in H. lia.
    - apply (Zdigits2_le_pow (Zpos p) 1023); lia. }
  assert (Hf : fexp prec emax (d + 0) = d - 53).
  { unfold fexp, SpecFloat.emin, prec, emax. change IntDef.Z.max with Z.max. lia. }
  rewrite Hf. destruct (d - 53 - 0) as [|j|j] eqn:Ej; try lia.
  unfold binary_round_aux, shr_fexp. cbn [Zdigits2]. fold d. rewrite Hf, Ej.
  pose proof (shr_spec (shr_record_of_loc (Zpos p) loc_Exact) 0 (Zpos j))
    as (E1 & D1 & N1).
  destruct (shr (shr_record_of_loc (Zpos p) loc_Exact) 0 (Zpos j)) as [mrs1 e1].
  cbn [fst snd shr_m shr_record_of_loc Zdigits2] in E1, D1, N1. fold d in D1.
  specialize (N1 ltac:(lia)).
  set (m2 := round_nearest_even (shr_m mrs1) (loc_of_shr_record mrs1)).
  pose proof (round_nearest_even_ge (shr_m mrs1) (loc_of_shr_record mrs1)) as Hm2.
  fold m2 in Hm2.
  assert (Dm2 : 53 <= Zdigits2 m2 <= 54).
  { pose proof (Zdigits2_mono (shr_m mrs1) m2 ltac:(lia)).
    pose proof (Zdigits2_mono m2 (shr_m mrs1 + 1) ltac:(lia)).
    pose proof (Zdigits2_succ (shr_m mrs1) N1). lia. }
  clearbody m2.
  pose proof (shr_spec (shr_record_of_loc m2 loc_Exact) e1
                (fexp prec emax (Zdigits2 m2 + e1) - e1)) as (E2 & D2 & N2).
  destruct (shr (shr_record_of_loc m2 loc_Exact) e1
                (fexp prec emax (Zdigits2 m2 + e1) - e1)) as [mrs2 e2].
  cbn [fst snd shr_m shr_record_of_loc] in E2, D2, N2.
  specialize (N2 ltac:(lia)).
  unfold fexp, SpecFloat.emin, prec, emax in E2, D2 |- *.
  change IntDef.Z.max with Z.max in *.
  destruct (shr_m mrs2) as [|m|m] eqn:Em; cbn [Zdigits2] in D2; try lia.
  assert (He2 : e2 <= 1024 - 53) by lia.
  destruct (Z.leb_spec e2 (1024 - 53)); [|lia].
  exists m, e2. split; [reflexivity|]. split.
  - unfold bounded, canonical_mantissa, fexp, SpecFloat.emin.
    change IntDef.Z.max with Z.max.
    apply andb_true_intro. split; [apply Z.eqb_eq|apply Z.leb_le]; lia.
  - lia.
Qed.

(** [float(z)] for the length of a list, which is below [2^63]. *)
Lemma float_of_int_length (z : Z) :
  0 <= z < 2 ^ 63 ->
  valid_binary (Prim2SF (float_of_int z)) = true
  /\ sf_pos (Prim2SF (float_of_int z))
  /\ sf_mag 64 (Prim2SF (float_of_int z)).
Proof.
  intros Hz. destruct (Z_lt_le_dec z (2 ^ 53)) as [Hs|Hb].
  - destruct (float_of_int_spec z ltac:(lia)) as (V & P & M & _).
    repeat split; try assumption. eapply sf_mag_weaken; [|exact M]. lia.
  - split; [apply Prim2SF_valid|].
    destruct z as [|p|p]; try lia.
    destruct (binary_normalize_big p ltac:(lia)) as (m & e & E & Hbd & Hm).
    unfold float_of_int. rewrite E, Prim2SF_SF2Prim by exact Hbd.
    cbn [sf_pos sf_mag]. split; [reflexivity|].
    pose proof (Zdigits2_le_pow (Zpos p) 63 ltac:(lia) ltac:(lia)) as H.
    cbn [Zdigits2] in H. lia.
Qed.

(** ** The order of the floats that are not NaN *)

(** [<] on floats is the lexicographic order of their keys. *)
Lemma SFltb_key (X Y : spec_float) :
  X <> S754_nan -> Y <> S754_nan ->
  (SFltb X Y = true <-> lex_lt (sf_key X) (sf_key Y)).
Proof.
  intros HX HY.
  destruct X as [sx|sx| |sx mx ex], Y as [sy|sy| |sy my ey]; try congruence;
    try destruct sx; try destruct sy;
    unfold SFltb, SFcompare, sf_key, lex_lt;
    try (split; intros H; first [discriminate H | reflexivity | lia]).
  - change (Pos.compare_cont Eq mx my) with (Pos.compare mx my).
    destruct (Z.compare_spec ex ey); [destruct (Pos.compare_spec mx my)| |];
      cbn [CompOpp]; split; intros H';
      first [discriminate H' | reflexivity | lia].
  - change (Pos.compare_cont Eq mx my) with (Pos.compare mx my).
    destruct (Z.compare_spec ex ey); [destruct (Pos.compare_spec mx my)| |];
      split; intros H';
      first [discriminate H' | reflexivity | lia].
Qed.

Lemma SFltb_asym (X Y : spec_float) : SFltb X Y = true -> SFltb Y X = false.
Proof.
  intros H.
  assert (X <> S754_nan) by (intros ->; destruct Y; discriminate H).
  assert (Y <> S754_nan) by (intros ->; destruct X; discriminate H).
  apply SFltb_key in H; [|assumption..].
  apply not_true_is_false. intros H'. apply SFltb_key in H'; [|assumption..].
  destruct (sf_key X) as [[a1 a2] a3], (sf_key Y) as [[b1 b2] b3].
  unfold lex_lt in *. lia.
Qed.

Lemma SFltb_negtrans (X Y Z : spec_float) :
  X <> S754_nan -> Y <> S754_nan -> Z <> S754_nan ->
  SFltb X Y = false -> SFltb Y Z = false -> SFltb X Z = false.
Proof.
  intros HX HY HZ H1 H2. apply not_true_is_false. intros H3.
  apply SFltb_key in H3; [|assumption..].
  apply not_true_iff_false in H1, H2.
  rewrite SFltb_key in H1, H2 by assumption.
  destruct (sf_key X) as [[a1 a2] a3], (sf_key Y) as [[b1 b2] b3],
           (sf_key Z) as [[c1 c2] c3].
  unfold lex_lt in *. lia.
Qed.

(** Without NaN, [<=] is the negation of [>], and [==] that of [<] and
    [>]. *)
Lemma SFleb_ltb (X Y : spec_float) :
  X <> S754_nan -> Y <> S754_nan -> SFleb X Y = negb (SFltb Y X).
Proof.
  intros HX HY.
  destruct X as [sx|sx| |sx mx ex], Y as [sy|sy| |sy my ey]; try congruence;
    try destruct sx; try destruct sy; try reflexivity;
    unfold SFleb, SFltb, SFcompare;
    change (Pos.compare_cont Eq mx my) with (Pos.compare mx my);
    change (Pos.compare_cont Eq my mx) with (Pos.compare my mx);
    rewrite (Z.compare_antisym ex ey), (Pos.compare_antisym mx my);
    destruct (ex ?= ey); try reflexivity; destruct (mx ?= my)%positive; reflexivity.
Qed.

Lemma SFeqb_ltb (X Y : spec_float) :
  X <> S754_nan -> Y <> S754_nan ->
  SFeqb X Y = negb (SFltb X Y) && negb (SFltb Y X).
Proof.
  intros HX HY.
  destruct X as [sx|sx| |sx mx ex], Y as [sy|sy| |sy my ey]; try congruence;
    try destruct sx; try destruct sy; try reflexivity;
    unfold SFeqb, SFltb, SFcompare;
    change (Pos.compare_cont Eq mx my) with (Pos.compare mx my);
    change (Pos.compare_cont Eq my mx) with (Pos.compare my mx);
    rewrite (Z.compare_antisym ex ey), (Pos.compare_antisym mx my);
    destruct (ex ?= ey); try reflexivity; destruct (mx ?= my)%positive; reflexivity.
Qed.

Lemma float_is_nan_false (x : float) :
  float_is_nan x = false <-> Prim2SF x <> S754_nan.
Proof.
  unfold float_is_nan. destruct (Prim2SF x); split; congruence.
Qed.

Lemma float_is_finite_not_nan (x : float) :
  float_is_finite x = true -> float_is_nan x = false.
Proof. unfold float_is_finite, float_is_nan. destruct (Prim2SF x); congruence. Qed.

Lemma ltb_asym (x y : float) : (x <? y)%float = true -> (y <? x)%float = false.
Proof. rewrite !FloatAxioms.ltb_spec. apply SFltb_asym. Qed.

Lemma ltb_negtrans (x y z : float) :
  float_is_nan x = false -> float_is_nan y = false -> float_is_nan z = false ->
  (x <? y)%float = false -> (y <? z)%float = false -> (x <? z)%float = false.
Proof.
  intros Hx Hy Hz. apply float_is_nan_false in Hx, Hy, Hz.
  rewrite !FloatAxioms.ltb_spec. apply SFltb_negtrans; assumption.
Qed.

Lemma leb_ltb (x y : float) :
  float_is_nan x = false -> float_is_nan y = false ->
  (x <=? y)%float = negb (y <? x)%float.
Proof.
  intros Hx Hy. apply float_is_nan_false in Hx, Hy.
  rewrite FloatAxioms.leb_spec, FloatAxioms.ltb_spec. apply SFleb_ltb; assumption.
Qed.

Lemma eqb_ltb (x y : float) :
  float_is_nan x = false -> float_is_nan y = false ->
  (x =? y)%float = negb (x <? y)%float && negb (y <? x)%float.
Proof.
  intros Hx Hy. apply float_is_nan_false in Hx, Hy.
  rewrite FloatAxioms.eqb_spec, !FloatAxioms.ltb_spec. apply SFeqb_ltb; assumption.
Qed.

(** ** The index of the percentile *)

(** A [p] with [0 <= p <= 100] is not negative and below [2^7]. *)
Lemma percent_range (p : float) :
  (0 <=? p)%float = true -> (p <=? 100)%float = true ->
  sf_pos (Prim2SF p) /\ sf_mag 7 (Prim2SF p).
Proof.
  rewrite !FloatAxioms.leb_spec, Prim2SF_100.
  change (Prim2SF 0) with (S754_zero false).
  pose proof (Prim2SF_valid p) as V.
  destruct (Prim2SF p) as [s|s| |s m e]; unfold SFleb, SFcompare; cbn [sf_pos sf_mag].
  - auto.
  - destruct s; [discriminate|]. intros _ H. discriminate H.
  - discriminate.
  - destruct s; [discriminate|]. intros _ H. split; [reflexivity|].
    apply valid_mag in V as (D & E & C).
    destruct (Z.compare_spec e (-46)); try discriminate; lia.
Qed.

Lemma py_div_100 (p : float) : py_div p (of_int 100) = Ok (p / 100)%float.
Proof.
  unfold py_div. cbn [feq of_int fquot binary64_float].
  rewrite float_of_int_100, float_of_int_0.
  assert ((100 =? 0)%float = false) as -> by (vm_compute; reflexivity).
  reflexivity.
Qed.

(** For [0 <= p <= 100] and a list of any length the index is a finite
    number that is not negative. *)
Lemma percentile_index (p : float) (n : Z) :
  (0 <=? p)%float = true -> (p <=? 100)%float = true -> 1 <= n <= 2 ^ 63 ->
  sf_pos (Prim2SF (p / 100 * float_of_int (n - 1)))
  /\ sf_mag 67 (Prim2SF (p / 100 * float_of_int (n - 1))).
Proof.
  intros H0 H100 Hn.
  destruct (percent_range p H0 H100) as [Pp Mp].
  destruct (float_of_int_length (n - 1) ltac:(lia)) as (Vk & Pk & Mk).
  assert (Pq : sf_pos (Prim2SF (p / 100))).
  { rewrite Prim2SF_div. apply SFdiv_sign; [exact Pp|].
    rewrite Prim2SF_100. reflexivity. }
  assert (Mq : sf_mag 2 (Prim2SF (p / 100))).
  { rewrite Prim2SF_div, Prim2SF_100.
    eapply sf_mag_weaken;
      [|apply (SFdiv_mag (Prim2SF p) false 7036874417766400 (-46) 7);
        [apply Prim2SF_valid|exact Mp|]];
      apply Z.leb_le; vm_compute; reflexivity. }
  split.
  - rewrite Prim2SF_mul. apply SFmul_sign; assumption.
  - rewrite Prim2SF_mul.
    eapply sf_mag_weaken;
      [|apply (SFmul_mag _ _ 2 64); [apply Prim2SF_valid|exact Vk|exact Mq|exact Mk|lia]].
    lia.
Qed.

(** The estimator of the specification and the code agree on the index
    and on what becomes of it. *)
Lemma percentile_float_unfold (data : list float) (p : float) :
  data <> [] -> len data <= 2 ^ 63 ->
  (0 <=? p)%float = true -> (p <=? 100)%float = true ->
  exists v,
    float_linear_interpolation (sorted flt data) p = Ok v
    /\ _percentile data p = Ok v.
Proof.
  intros Hd Hl H0 H100.
  pose proof (len_positive data Hd) as Hn.
  rewrite <- (len_sorted flt data) in Hn, Hl.
  assert (Hs : sorted flt data <> []) by (rewrite sorted_nil_iff; exact Hd).
  assert (Hr : 1 <= len (sorted flt data) <= 2 ^ 63) by (split; assumption).
  destruct (percentile_index p (len (sorted flt data)) H0 H100 Hr) as [Pi Mi].
  destruct (float_to_int_mag _ _ Mi) as [lower El].
  pose proof (float_to_int_nonneg _ _ Pi El) as Hl0.
  pose proof (float_to_int_floor _ Pi) as Ef. rewrite El in Ef.
  unfold _percentile, float_linear_interpolation.
  rewrite py_div_100. cbn [bind fmul fsub fadd of_int to_int binary64_float].
  rewrite El, <- Ef. cbn [bind].
  rewrite Z.geb_leb.
  destruct (len (sorted flt data) <=? lower + 1) eqn:E.
  - eexists. split; [reflexivity|]. apply getitem_last, Hs.
  - apply Z.leb_gt in E. eexists. split; [reflexivity|].
    rewrite (getitem_nth _ lower 0%float) by lia.
    rewrite (getitem_nth _ (lower + 1) 0%float) by lia.
    cbn [bind]. rewrite float_of_int_1. reflexivity.
Qed.

(** ** Multiplying by one and by zero *)

Lemma Prim2SF_1 : Prim2SF 1%float = S754_finite false 4503599627370496 (-52).
Proof. vm_compute. reflexivity. Qed.

Lemma Prim2SF_0 : Prim2SF 0%float = S754_zero false.
Proof. vm_compute. reflexivity. Qed.

Lemma SFmul_one_l (X : spec_float) :
  valid_binary X = true ->
  SFmul prec emax (S754_finite false 4503599627370496 (-52)) X = X.
Proof.
  intros V. destruct X as [s|s| |s m e]; cbn [SFmul xorb]; try reflexivity.
  cbn [SpecFloat.valid_binary] in V.
  rewrite Pos2Z.inj_mul. change (Zpos 4503599627370496) with (2 ^ 52).
  replace (-52 + e) with (e - 52) by lia.
  apply binary_round_aux_exact; [lia|exact V].
Qed.

Lemma SFmul_one_r (X : spec_float) :
  valid_binary X = true ->
  SFmul prec emax X (S754_finite false 4503599627370496 (-52)) = X.
Proof.
  intros V. destruct X as [s|s| |s m e]; cbn [SFmul]; rewrite ?xorb_false_r;
    try reflexivity.
  cbn [SpecFloat.valid_binary] in V.
  rewrite Pos2Z.inj_mul, Z.mul_comm. change (Zpos 4503599627370496) with (2 ^ 52).
  replace (e + -52) with (e - 52) by lia.
  apply binary_round_aux_exact; [lia|exact V].
Qed.

Lemma mul_one_l (x : float) : (1 * x)%float = x.
Proof.
  apply Prim2SF_inj. rewrite Prim2SF_mul, Prim2SF_1.
  apply SFmul_one_l, Prim2SF_valid.
Qed.

Lemma mul_one_r (x : float) : (x * 1)%float = x.
Proof.
  apply Prim2SF_inj. rewrite Prim2SF_mul, Prim2SF_1.
  apply SFmul_one_r, Prim2SF_valid.
Qed.

Lemma float_of_int_pos (z : Z) :
  0 < z < 2 ^ 53 ->
  exists m e, Prim2SF (float_of_int z) = S754_finite false m e.
Proof.
  intros Hz. destruct z as [|p|p]; try lia.
  destruct (binary_normalize_int p ltac:(lia)) as (m & e & E & Hb & _).
  exists m, e. unfold float_of_int. rewrite E. apply Prim2SF_SF2Prim, Hb.
Qed.

Lemma mul_zero_int (z : Z) : 0 <= z < 2 ^ 53 -> (0 * float_of_int z)%float = 0%float.
Proof.
  intros Hz. destruct (Z.eq_dec z 0) as [->|Hn].
  - vm_compute. reflexivity.
  - destruct (float_of_int_pos z ltac:(lia)) as (m & e & E).
    apply Prim2SF_inj. rewrite Prim2SF_mul, E, Prim2SF_0. reflexivity.
Qed.

Lemma SFcompare_refl (X : spec_float) :
  X <> S754_nan -> SFcompare X X = Some Eq.
Proof.
  destruct X as [s|s| |s m e]; try congruence; intros _; cbn [SFcompare].
  - reflexivity.
  - destruct s; reflexivity.
  - rewrite Z.compare_refl.
    change (Pos.compare_cont Eq m m) with (Pos.compare m m).
    rewrite Pos.compare_refl. destruct s; reflexivity.
Qed.

(** With weight zero the interpolation of two finite samples is the
    first of them (up to the sign of a zero). *)
Lemma interpolation_weight_zero (a b : float) :
  float_is_finite a = true -> float_is_finite b = true ->
  float_is_finite (a * 1 + b * 0)%float = true
  /\ (a * 1 + b * 0 =? a)%float = true.
Proof.
  unfold float_is_finite. intros Fa Fb.
  rewrite FloatAxioms.eqb_spec, Prim2SF_add, mul_one_r, Prim2SF_mul, Prim2SF_0.
  destruct (Prim2SF b) as [sb|sb| |sb mb eb]; try discriminate;
    destruct (Prim2SF a) as [sa|sa| |sa ma ea]; try discriminate;
    cbn [SFmul SFadd];
    try (destruct sa, sb; cbn [xorb]; split; reflexivity);
    (split; [reflexivity|]; unfold SFeqb; rewrite SFcompare_refl; [reflexivity|discriminate]).
Qed.

(** ** The extremes *)

Lemma percentile_100 (data : list float) :
  data <> [] -> len data <= 2 ^ 53 ->
  _percentile data 100%float
  = Ok (nth (Z.to_nat (len (sorted flt data) - 1)) (sorted flt data) 0%float).
Proof.
  intros Hd Hl.
  pose proof (len_positive data Hd) as Hn.
  rewrite <- (len_sorted flt data) in Hn, Hl.
  assert (Hs : sorted flt data <> []) by (rewrite sorted_nil_iff; exact Hd).
  assert (Hr : 0 <= len (sorted flt data) - 1 < 2 ^ 53) by (split; lia).
  destruct (float_of_int_spec _ Hr) as (_ & _ & _ & Ei).
  unfold _percentile. rewrite py_div_100.
  cbn [bind fmul fsub fadd of_int to_int binary64_float].
  assert ((100 / 100)%float = 1%float) as -> by (vm_compute; reflexivity).
  rewrite mul_one_l, Ei. cbn [bind].
  replace (len (sorted flt data) <=? len (sorted flt data) - 1 + 1) with true by lia.
  apply getitem_last, Hs.
Qed.

Lemma percentile_0 (data : list float) :
  data <> [] -> len data <= 2 ^ 53 ->
  Forall (fun x => float_is_finite x = true) data ->
  exists lo,
    _percentile data 0%float = Ok lo
    /\ float_is_finite lo = true
    /\ (lo =? nth 0 (sorted flt data) 0%float)%float = true.
Proof.
  intros Hd Hl Hf.
  pose proof (len_positive data Hd) as Hn.
  assert (Hfs : Forall (fun x => float_is_finite x = true) (sorted flt data)).
  { apply (Permutation_Forall (Permutation_sym (sorted_perm flt data))), Hf. }
  rewrite <- (len_sorted flt data) in Hn, Hl.
  assert (Hs : sorted flt data <> []) by (rewrite sorted_nil_iff; exact Hd).
  assert (Hr : 0 <= len (sorted flt data) - 1 < 2 ^ 53) by (split; lia).
  assert (Hnth : forall i, (i < length (sorted flt data))%nat ->
                   float_is_finite (nth i (sorted flt data) 0%float) = true).
  { intros i Hi. rewrite Forall_forall in Hfs.
    apply Hfs, list_elem_of_In, nth_In, Hi. }
  unfold _percentile. rewrite py_div_100.
  cbn [bind fmul fsub fadd of_int to_int binary64_float].
  assert ((0 / 100)%float = 0%float) as -> by (vm_compute; reflexivity).
  rewrite (mul_zero_int _ Hr).
  assert (float_to_int 0 = Ok 0) as -> by (vm_compute; reflexivity).
  cbn [bind]. rewrite float_of_int_0, float_of_int_1.
  assert ((0 - 0)%float = 0%float) as -> by (vm_compute; reflexivity).
  assert ((1 - 0)%float = 1%float) as -> by (vm_compute; reflexivity).
  change (0 + 1) with 1.
  destruct (len (sorted flt data) <=? 1) eqn:E.
  - apply Z.leb_le in E.
    rewrite (getitem_last _ 0%float Hs).
    replace (len (sorted flt data) - 1) with 0 by lia.
    change (Z.to_nat 0) with 0%nat.
    eexists. split; [reflexivity|].
    assert (Hfin : float_is_finite (nth 0 (sorted flt data) 0%float) = true)
      by (apply Hnth; unfold len in Hn; lia).
    split; [exact Hfin|].
    rewrite eqb_ltb by (apply float_is_finite_not_nan, Hfin).
    rewrite (lt_irrefl PrimFloat.ltb ltb_asym). reflexivity.
  - apply Z.leb_gt in E.
    rewrite (getitem_nth _ 0 0%float) by lia.
    rewrite (getitem_nth _ 1 0%float) by lia.
    change (Z.to_nat 0) with 0%nat. change (Z.to_nat 1) with 1%nat.
    cbn [bind]. eexists. split; [reflexivity|].
    apply interpolation_weight_zero; apply Hnth; unfold len in E; lia.
Qed.

(** ** The empty sequence *)

Lemma percentile_empty (p : float) :
  _percentile [] p = Raise (percentile_empty_fault p).
Proof.
  unfold _percentile, percentile_empty_fault. cbn [sorted foldr].
  rewrite py_div_100. cbn [bind fmul of_int to_int binary64_float].
  change (len (@nil float) - 1) with (-1).
  assert (Hk : Prim2SF (float_of_int (-1))
               = S754_finite true 4503599627370496 (-52))
    by (vm_compute; reflexivity).
  pose proof (Prim2SF_valid (p / 100)) as Vq.
  pose proof (Prim2SF_div p 100) as Hq. rewrite Prim2SF_100 in Hq.
  pose proof (Prim2SF_mul (p / 100) (float_of_int (-1))) as Hi. rewrite Hk in Hi.
  pose proof (Prim2SF_valid p) as Vp.
  assert (Hraise : forall z : Z,
            (if len (@nil float) <=? z + 1 then getitem (@nil float) (-1)
             else a <- getitem [] z ;;
                  b <- getitem [] (z + 1) ;;
                  Ok (fadd (fmul a (fsub (of_int 1)
                        (fsub (p / 100 * float_of_int (-1))%float (of_int z))))
                      (fmul b (fsub (p / 100 * float_of_int (-1))%float (of_int z)))))
            = Raise IndexError).
  { intros z. destruct (len (@nil float) <=? z + 1).
    - apply getitem_nil.
    - rewrite getitem_nil. reflexivity. }
  destruct (Prim2SF p) as [s|s| |s m e] eqn:Ep.
  - cbn [SFdiv] in Hq. rewrite Hq in Hi. cbn [SFmul] in Hi.
    unfold float_to_int at 1. rewrite Hi. cbn [bind]. apply Hraise.
  - cbn [SFdiv] in Hq. rewrite Hq in Hi. cbn [SFmul] in Hi.
    unfold float_to_int at 1. rewrite Hi. reflexivity.
  - cbn [SFdiv] in Hq. rewrite Hq in Hi. cbn [SFmul] in Hi.
    unfold float_to_int at 1. rewrite Hi. reflexivity.
  - assert (Mp : sf_mag 1024 (S754_finite s m e)).
    { apply valid_mag in Vp as (D & E & C). cbn [sf_mag]. lia. }
    assert (Mq : sf_mag 1020 (Prim2SF (p / 100))).
    { rewrite Hq. eapply sf_mag_weaken;
        [|apply (SFdiv_mag (S754_finite s m e) false 7036874417766400 (-46) 1024);
          [exact Vp|exact Mp|]];
        apply Z.leb_le; vm_compute; reflexivity. }
    assert (Mi : sf_mag 1022 (Prim2SF (p / 100 * float_of_int (-1)))).
    { rewrite Hi. eapply sf_mag_weaken;
        [|apply (SFmul_mag _ (S754_finite true 4503599627370496 (-52)) 1020 1);
          [exact Vq|reflexivity|exact Mq| |lia]].
      - lia.
      - cbn [sf_mag]. apply Z.leb_le. vm_compute. reflexivity. }
    destruct (float_to_int_mag _ _ Mi) as [z Ez].
    rewrite Ez. cbn [bind]. apply Hraise.
Qed.

(** ** Sorting floats *)

Lemma StronglySorted_impl {A : Type} (R R' : A -> A -> Prop) (Q : A -> Prop)
    (l : list A) :
  (forall a b, Q a -> Q b -> R a b -> R' a b) ->
  Forall Q l -> StronglySorted R l -> StronglySorted R' l.
Proof.
  intros HR HQ Hs. induction Hs as [|x l Hs IH Hx]; constructor.
  - apply IH. apply Forall_cons in HQ as [_ HQ]. exact HQ.
  - apply Forall_cons in HQ as [Qx HQ].
    rewrite Forall_forall in Hx, HQ |- *. intros y Hy. apply HR; auto.
Qed.

(** Data without NaN is sorted ascending. *)
Lemma sorted_float_ascending (data : list float) :
  Forall (fun x => float_is_nan x = false) data ->
  StronglySorted (fun a b => (a <=? b)%float = true) (sorted flt data).
Proof.
  intros Hd.
  assert (Hs : Forall (fun x => float_is_nan x = false) (sorted flt data)).
  { apply (Permutation_Forall (Permutation_sym (sorted_perm flt data))), Hd. }
  apply (StronglySorted_impl (fun a b => (b <? a)%float = false) _
           (fun x => float_is_nan x = false)); [|exact Hs|].
  - intros a b Ha Hb H. rewrite (leb_ltb a b Ha Hb), H. reflexivity.
  - apply (sorted_ascending PrimFloat.ltb (fun x => float_is_nan x = false));
      [exact ltb_asym|exact ltb_negtrans|exact Hd].
Qed.

(** Comparisons that are decided by [==] or by a NaN. *)
Lemma eqb_not_ltb (x y : float) : (x =? y)%float = true -> (y <? x)%float = false.
Proof.
  intros H.
  assert (Hx : float_is_nan x = false).
  { rewrite FloatAxioms.eqb_spec in H. unfold float_is_nan.
    destruct (Prim2SF x); try reflexivity. discriminate H. }
  assert (Hy : float_is_nan y = false).
  { rewrite FloatAxioms.eqb_spec in H. unfold float_is_nan.
    destruct (Prim2SF y); try reflexivity. destruct (Prim2SF x); discriminate H. }
  rewrite (eqb_ltb x y Hx Hy) in H. apply andb_prop in H as [_ H].
  apply negb_true_iff in H. exact H.
Qed.

Lemma ltb_nan_r (x y : float) : float_is_nan y = true -> (x <? y)%float = false.
Proof.
  unfold float_is_nan. rewrite FloatAxioms.ltb_spec.
  destruct (Prim2SF y); try discriminate. intros _.
  destruct (Prim2SF x); reflexivity.
Qed.

Lemma ltb_nan_l (x y : float) : float_is_nan x = true -> (x <? y)%float = false.
Proof.
  unfold float_is_nan. rewrite FloatAxioms.ltb_spec.
  destruct (Prim2SF x); try discriminate. reflexivity.
Qed.

End FloatFacts.


(** * The harness on binary64 *)

Module Binary64Facts.
Import Binary64 FloatExamples FloatFacts.
Local Open Scope float_scope.

(** C3 (as stated): on the empty sequence, [_percentile] does not fail
    with an error of the [ValueError] family; what it raises is the
    [IndexError] of its own indexing. *)
Lemma percentile_empty_not_invalid_input :
  ~ (exists e, _percentile [] 95 = Raise e /\ is_ValueError e = true).
Proof.
  intros (e & He & Hv). vm_compute in He.
  injection He as <-. discriminate Hv.
Qed.


(** C1: for every non-empty list of latency values (floats, none of them
    NaN) and every [p] with [0 <= p <= 100], [_percentile] returns the
    linear-interpolation estimator of the specification, taken over the
    data sorted ascending: [lower] is the floor of the index, which is
    never negative, and both lookups are in range.  The operations are
    those of binary64, in the order of the formula.  A list holds fewer
    than [2^63] elements ([sys.maxsize]). *)
Theorem percentile_linear_interpolation (data : list float) (p : float) :
  data <> [] ->
  (len data < 2 ^ 63)%Z ->
  Forall (fun x => float_is_nan x = false) data ->
  (0 <=? p) = true ->
  (p <=? 100) = true ->
  Permutation (sorted flt data) data
  /\ StronglySorted (fun a b => (a <=? b) = true) (sorted flt data)
  /\ exists v,
       float_linear_interpolation (sorted flt data) p = Ok v
       /\ _percentile data p = Ok v.
Proof.
  intros Hd Hl Hn H0 H100. split; [apply sorted_perm|].
  split; [apply sorted_float_ascending, Hn|].
  apply percentile_float_unfold; try assumption. lia.
Qed.

(** C5 (as stated): the 0th percentile of the samples 1.0 and infinity
    is NaN, while their minimum is 1.0. *)
Lemma percentile_0_not_min :
  _percentile [1; infinity] 0 = Ok nan
  /\ py_min flt [1; infinity] = Ok 1
  /\ (nan =? 1) = false.
Proof. repeat split; vm_compute; reflexivity. Qed.

(** C5 (as the code has it): for every non-empty list of finite samples
    (no NaN, no infinity; at most [2^53] of them, so that their number
    is a float), the percentile at 100 equals the maximum of the data and
    the percentile at 0 its minimum, a single element included. *)
Theorem percentile_extremes_finite (data : list float) :
  data <> [] ->
  (len data <= 2 ^ 53)%Z ->
  Forall (fun x => float_is_finite x = true) data ->
  exists lo hi mn mx,
    _percentile data 0 = Ok lo /\ py_min flt data = Ok mn /\ (lo =? mn) = true
    /\ _percentile data 100 = Ok hi /\ py_max flt data = Ok mx
    /\ (hi =? mx) = true.
Proof.
  intros Hd Hl Hf.
  assert (Hn : Forall (fun x => float_is_nan x = false) data).
  { rewrite Forall_forall in Hf |- *. intros x Hx.
    apply float_is_finite_not_nan, Hf, Hx. }
  assert (Hnan : forall x, In x data -> float_is_nan x = false).
  { intros x Hx. rewrite Forall_forall in Hn. apply Hn, list_elem_of_In, Hx. }
  destruct (py_min_extreme PrimFloat.ltb _ ltb_asym ltb_negtrans data Hd Hn)
    as (mn & Emn & Imn & Hmn).
  destruct (py_max_extreme PrimFloat.ltb _ ltb_asym ltb_negtrans data Hd Hn)
    as (mx & Emx & Imx & Hmx).
  destruct (sorted_first_extreme PrimFloat.ltb _ ltb_asym ltb_negtrans data 0 Hd Hn)
    as (Ifirst & Hfirst).
  destruct (sorted_last_extreme PrimFloat.ltb _ ltb_asym ltb_negtrans data 0 Hd Hn)
    as (Ilast & Hlast).
  destruct (percentile_0 data Hd Hl Hf) as (lo & Elo & Flo & Hlo).
  exists lo, (nth (Z.to_nat (len (sorted flt data) - 1)) (sorted flt data) 0), mn, mx.
  split; [exact Elo|]. split; [exact Emn|].
  cbn [flt binary64_float] in *.
  pose proof (Hnan _ Ifirst) as Nfirst. pose proof (Hnan _ Ilast) as Nlast.
  pose proof (Hfirst mn Imn) as F1. pose proof (Hmn _ Ifirst) as F2.
  pose proof (Hlast mx Imx) as L1. pose proof (Hmx _ Ilast) as L2.
  remember (nth 0 (sorted PrimFloat.ltb data) 0) as first.
  remember (nth (Z.to_nat (len (sorted PrimFloat.ltb data) - 1))
                (sorted PrimFloat.ltb data) 0) as last.
  split.
  - pose proof (float_is_finite_not_nan _ Flo) as Nlo.
    rewrite (eqb_ltb lo first Nlo Nfirst) in Hlo.
    apply andb_prop in Hlo as [H1 H2]. apply negb_true_iff in H1, H2.
    rewrite (eqb_ltb lo mn Nlo (Hnan _ Imn)).
    rewrite (ltb_negtrans lo first mn), (ltb_negtrans mn first lo); auto.
  - split; [subst last; apply (percentile_100 data); assumption|].
    split; [exact Emx|].
    rewrite (eqb_ltb last mx Nlast (Hnan _ Imx)), L1, L2. reflexivity.
Qed.

(** C3 (as the code has it): on the empty sequence [_percentile] has no
    guard of its own and never returns a value: for every finite [p] it
    raises the [IndexError] of indexing the empty sorted list; [int(index)]
    comes first and raises for a [p] that is infinite ([OverflowError])
    or NaN ([ValueError]).  [run_benchmark] over no samples raises the
    [StatisticsError] of [statistics.mean] before the percentile is
    reached. *)
Theorem empty_sequence_raises (stdev : list float -> float) (p : float)
    (self : BenchmarkHarness float) (elapsed : nat -> float) :
  (num_iterations self <= 0)%Z ->
  _percentile [] p = Raise (percentile_empty_fault p)
  /\ (float_is_finite p = true -> _percentile [] p = Raise IndexError)
  /\ snd (run_benchmark stdev self elapsed)
     = Raise (StatisticsError "mean requires at least one data point").
Proof.
  intros Hn. split; [apply percentile_empty|]. split.
  - intros Hp. rewrite percentile_empty. unfold percentile_empty_fault.
    unfold float_is_finite in Hp. destruct (Prim2SF p); try discriminate; reflexivity.
  - unfold run_benchmark.
    replace (Z.to_nat (num_iterations self)) with 0%nat by lia.
    reflexivity.
Qed.

(** C2 (as stated): a baseline whose mean is NaN is not zero and the
    percent change against it is not at most the threshold, yet the
    check passes; and a run of 0.0077 s against a baseline of 0.007 s
    passes at the threshold 10 although the change between these two
    numbers exceeds 10 percent: rounded, it is 10.0. *)
Lemma check_regression_not_at_most :
  ((nan =? 0) = false
   /\ (float_percent_change 0.05 nan <=? 10) = false
   /\ check_regression ten_str (steady 0.05) "nan.json" 10 stored
      = Ok (true,
            "Performance check passed. Mean latency change: nan% (baseline: nans, current: 0.0500s)"%string))
  /\ (option_map r_mean (_results_dict (steady 0.0077)) = Some 0.0077
      /\ (10 < (float_exact_ratio 0.0077 - float_exact_ratio 0.007)
                 / float_exact_ratio 0.007 * 100)%Q
      /\ float_percent_change 0.0077 0.007 = 10
      /\ check_regression ten_str (steady 0.0077) "near.json" 10 stored_near
         = Ok (true,
               "Performance check passed. Mean latency change: 10.00% (baseline: 0.0070s, current: 0.0077s)"%string)).
Proof. repeat split; vm_compute; reflexivity. Qed.

(** C2 (as the code has it): with a current record and a baseline file
    whose mean is a float [b] that is not zero, [check_regression]
    computes [percent_change = (c - b)/b * 100] in binary64 and returns
    [passed = not (percent_change > t)]: this is [percent_change <= t]
    when neither number is NaN, a change equal to the threshold passes,
    and a change that is NaN passes.  Its message contains the percent
    change and both means as formatted. *)
Theorem check_regression_float_verdict (float_str : float -> string)
    (self : BenchmarkHarness float) (r : ResultRecord float) (path : string)
    (t : float) (fs : gmap string (file float)) (baseline : json float)
    (b : float) :
  _results_dict self = Some r ->
  fs !! path = Some (Document baseline) ->
  subscript baseline "mean" = Ok (JNum b) ->
  (b =? 0) = false ->
  let c := r_mean r in
  let pc := float_percent_change c b in
  exists msg,
    check_regression float_str self path t fs = Ok (negb (t <? pc), msg)
    /\ (float_is_nan pc = false -> float_is_nan t = false ->
        negb (t <? pc) = (pc <=? t))
    /\ ((pc =? t) = true -> negb (t <? pc) = true)
    /\ (float_is_nan pc = true -> negb (t <? pc) = true)
    /\ contains msg (format_f 2 pc)
    /\ contains msg (format_f 4 b)
    /\ contains msg (format_f 4 c).
Proof.
  intros Hr Hf Hm Hb c pc.
  unfold check_regression. rewrite Hr, Hf.
  cbn [json_load bind]. rewrite Hm.
  cbn [bind equals_zero as_float feq of_int binary64_float].
  rewrite float_of_int_0, Hb.
  unfold py_div. cbn [feq fsub fquot fmul flt of_int binary64_float].
  rewrite float_of_int_0, Hb, float_of_int_100. cbn [bind].
  change ((r_mean r - b) / b * 100) with pc. fold c.
  assert (H1 : float_is_nan pc = false -> float_is_nan t = false ->
               negb (t <? pc) = (pc <=? t)).
  { intros Np Nt. rewrite (leb_ltb pc t Np Nt). reflexivity. }
  assert (H2 : (pc =? t) = true -> negb (t <? pc) = true).
  { intros E. rewrite (eqb_not_ltb pc t E). reflexivity. }
  assert (H3 : float_is_nan pc = true -> negb (t <? pc) = true).
  { intros Np. rewrite (ltb_nan_r t pc Np). reflexivity. }
  destruct (t <? pc); cbn [negb] in *;
    (eexists; split; [reflexivity|]);
    (split; [exact H1|]); (split; [exact H2|]); (split; [exact H3|]).
  - split; [|split].
    + exists "Performance regression detected! Mean latency increased by "%string.
      eexists. reflexivity.
    + exists ("Performance regression detected! Mean latency increased by "
                ++ format_f 2 pc ++ "% (baseline: ")%string.
      eexists. rewrite !append_assoc. reflexivity.
    + exists ("Performance regression detected! Mean latency increased by "
                ++ format_f 2 pc ++ "% (baseline: " ++ format_f 4 b
                ++ "s, current: ")%string.
      eexists. rewrite !append_assoc. reflexivity.
  - split; [|split].
    + exists "Performance check passed. Mean latency change: "%string.
      eexists. reflexivity.
    + exists ("Performance check passed. Mean latency change: "
                ++ format_f 2 pc ++ "% (baseline: ")%string.
      eexists. rewrite !append_assoc. reflexivity.
    + exists ("Performance check passed. Mean latency change: "
                ++ format_f 2 pc ++ "% (baseline: " ++ format_f 4 b
                ++ "s, current: ")%string.
      exists "s)"%string. rewrite !append_assoc. reflexivity.
Qed.

(** ** The definitions at work on binary64 *)

Example percentiles_one_to_ten :
_percentile one_to_ten 0 = Ok 1
/\ _percentile one_to_ten 50 = Ok 5.5
/\ _percentile one_to_ten 95 = Ok 9.5499999999999989
/\ _percentile one_to_ten 99 = Ok 9.9100000000000001
/\ _percentile one_to_ten 100 = Ok 10.
Proof. repeat split; vm_compute; reflexivity. Qed.

Example regression_detected :
check_regression ten_str (steady 0.05) "baseline.json" 10 stored
= Ok (false,
      "Performance regression detected! Mean latency increased by 400.00% (baseline: 0.0100s, current: 0.0500s, threshold: 10.0%)"%string).
Proof. vm_compute. reflexivity. Qed.

Example same_mean_passes :
check_regression ten_str (steady 0.01) "baseline.json" 10 stored
= Ok (true,
      "Performance check passed. Mean latency change: 0.00% (baseline: 0.0100s, current: 0.0100s)"%string).
Proof. vm_compute. reflexivity. Qed.

(** A baseline whose mean is not a number is neither zero nor above the
    threshold: the check passes. *)
Example nan_baseline_passes :
check_regression ten_str (steady 0.05) "nan.json" 10 stored
= Ok (true,
      "Performance check passed. Mean latency change: nan% (baseline: nans, current: 0.0500s)"%string).
Proof. vm_compute. reflexivity. Qed.

(** What [save_results] writes is what [check_regression] reads back: a
    run compared with its own saved results passes. *)
Example saved_run_passes :
check_regression ten_str (steady 0.05) "out.json" 10
  (snd (save_results (steady 0.05) "out.json" stored))
= Ok (true,
      "Performance check passed. Mean latency change: 0.00% (baseline: 0.0500s, current: 0.0500s)"%string).
Proof. vm_compute. reflexivity. Qed.

End Binary64Facts.

(** * The theorems at concrete inputs *)

Module Witnesses.
Import Exact ExactFacts Examples.
Local Open Scope Q_scope.

Lemma check_regression_no_baseline_witness :
  exists r,
    _results_dict ran = Some r
    /\ disk !! "absent.json" = None
    /\ check_regression plain_str ran "absent.json" 10 disk
       = Ok (true, "No baseline found at absent.json. Creating baseline."%string).
Proof.
  eexists.
  assert (_results_dict ran = Some _) as H1 by (vm_compute; reflexivity).
  assert (disk !! "absent.json" = None) as H2 by (vm_compute; reflexivity).
  split; [exact H1|]. split; [exact H2|].
  apply (check_regression_no_baseline plain_str ran _ "absent.json" 10 disk H1 H2).
Defined.

Lemma check_regression_zero_baseline_witness :
  exists r,
    _results_dict ran = Some r
    /\ disk !! "zero.json" = Some (baseline_file 0)
    /\ equals_zero (JNum 0) = true
    /\ check_regression plain_str ran "zero.json" 10 disk
       = Ok (false, "Invalid baseline: mean latency is zero"%string).
Proof.
  eexists.
  assert (_results_dict ran = Some _) as H1 by (vm_compute; reflexivity).
  assert (disk !! "zero.json" = Some (baseline_file 0)) as H2
    by (vm_compute; reflexivity).
  assert (subscript (JObj [("mean", JNum 0); ("median", JNum 0)]) "mean"
          = Ok (JNum 0)) as H3 by reflexivity.
  assert (equals_zero (JNum 0) = true) as H4 by reflexivity.
  split; [exact H1|]. split; [exact H2|]. split; [exact H4|].
  apply (check_regression_zero_baseline plain_str ran _ "zero.json" 10 disk _ _
           H1 H2 H3 H4).
Defined.

Lemma save_results_before_run_witness :
  never_completed no_stdev fresh
  /\ save_results fresh "results.json" disk
     = (Raise (ValueError "No benchmark results to save. Run benchmark first."), disk).
Proof.
  assert (never_completed no_stdev fresh) as H1 by exact (never_new no_stdev 3 (1 # 20)).
  split; [exact H1|].
  apply (save_results_before_run no_stdev fresh "results.json" disk H1).
Defined.

Lemma check_regression_before_run_witness :
  never_completed no_stdev (fst (run_benchmark no_stdev idle elapsed))
  /\ check_regression plain_str (fst (run_benchmark no_stdev idle elapsed))
       "baseline.json" 10 disk
     = Ok (false, "No benchmark results available. Run benchmark first."%string).
Proof.
  assert (never_completed no_stdev (fst (run_benchmark no_stdev idle elapsed))) as H1.
  { apply (never_failed no_stdev idle _ elapsed
             (StatisticsError "mean requires at least one data point")
             (never_new no_stdev 0 (1 # 20))).
    reflexivity. }
  split; [exact H1|].
  apply (check_regression_before_run no_stdev plain_str _ "baseline.json" 10 disk H1).
Defined.

Lemma check_regression_unusable_baseline_witness :
  exists r,
    _results_dict ran = Some r
    /\ disk !! "median_only.json" = Some (Document (JObj [("median", JNum (1 # 20))]))
    /\ check_regression plain_str ran "median_only.json" 10 disk
       = Raise (KeyError "mean").
Proof.
  eexists.
  assert (_results_dict ran = Some _) as H1 by (vm_compute; reflexivity).
  assert (disk !! "median_only.json"
          = Some (Document (JObj [("median", JNum (1 # 20))]))) as H2
    by (vm_compute; reflexivity).
  assert (forall kvs,
            Document (JObj [("median", JNum (1 # 20))]) = Document (JObj kvs) ->
            dict_get kvs "mean" = None) as H3
    by (intros kvs E; injection E as <-; reflexivity).
  split; [exact H1|]. split; [exact H2|].
  apply (check_regression_unusable_baseline plain_str ran _ "median_only.json" 10
           disk _ H1 H2 H3).
Defined.

End Witnesses.

Module FloatWitnesses.
Import Binary64 FloatExamples Binary64Facts.
Local Open Scope float_scope.

Lemma percentile_linear_interpolation_witness :
  three_samples <> [] /\ (len three_samples < 2 ^ 63)%Z
  /\ Forall (fun x => float_is_nan x = false) three_samples
  /\ (0 <=? 50) = true /\ (50 <=? 100) = true
  /\ StronglySorted (fun a b => (a <=? b) = true) (sorted flt three_samples)
  /\ exists v,
       float_linear_interpolation (sorted flt three_samples) 50 = Ok v
       /\ _percentile three_samples 50 = Ok v.
Proof.
  assert (three_samples <> []) as H1 by discriminate.
  assert (len three_samples < 2 ^ 63)%Z as H2 by (vm_compute; reflexivity).
  assert (Forall (fun x => float_is_nan x = false) three_samples) as H3
    by (repeat constructor).
  assert ((0 <=? 50) = true) as H4 by (vm_compute; reflexivity).
  assert ((50 <=? 100) = true) as H5 by (vm_compute; reflexivity).
  split; [exact H1|]. split; [exact H2|]. split; [exact H3|].
  split; [exact H4|]. split; [exact H5|].
  apply (percentile_linear_interpolation three_samples 50 H1 H2 H3 H4 H5).
Defined.

Lemma percentile_extremes_finite_witness :
  three_samples <> [] /\ (len three_samples <= 2 ^ 53)%Z
  /\ Forall (fun x => float_is_finite x = true) three_samples
  /\ exists lo hi mn mx,
       _percentile three_samples 0 = Ok lo /\ py_min flt three_samples = Ok mn
       /\ (lo =? mn) = true
       /\ _percentile three_samples 100 = Ok hi /\ py_max flt three_samples = Ok mx
       /\ (hi =? mx) = true.
Proof.
  assert (three_samples <> []) as H1 by discriminate.
  assert (len three_samples <= 2 ^ 53)%Z as H2 by (vm_compute; discriminate).
  assert (Forall (fun x => float_is_finite x = true) three_samples) as H3
    by (repeat constructor).
  split; [exact H1|]. split; [exact H2|]. split; [exact H3|].
  apply (percentile_extremes_finite three_samples H1 H2 H3).
Defined.

Lemma empty_sequence_raises_witness :
  (num_iterations (init 0 0.05%float) <= 0)%Z
  /\ _percentile [] 95 = Raise (percentile_empty_fault 95)
  /\ (float_is_finite 95 = true -> _percentile [] 95 = Raise IndexError)
  /\ snd (run_benchmark (fun _ => 0) (init 0 0.05) (fun _ => 0.051))
     = Raise (StatisticsError "mean requires at least one data point").
Proof.
  assert (num_iterations (init 0 0.05%float) <= 0)%Z as H1 by (simpl; lia).
  split; [exact H1|].
  apply (empty_sequence_raises (fun _ => 0) 95 (init 0 0.05) (fun _ => 0.051) H1).
Defined.

Lemma check_regression_float_verdict_witness :
  exists r msg,
    _results_dict (steady 0.05) = Some r
    /\ stored !! "baseline.json" = Some (Document (JObj [("mean", JNum 0.01)]))
    /\ (0.01 =? 0) = false
    /\ check_regression ten_str (steady 0.05) "baseline.json" 10 stored
       = Ok (negb (10 <? float_percent_change (r_mean r) 0.01), msg).
Proof.
  eexists.
  assert (_results_dict (steady 0.05) = Some _) as H1 by (vm_compute; reflexivity).
  assert (stored !! "baseline.json" = Some (Document (JObj [("mean", JNum 0.01)])))
    as H2 by (vm_compute; reflexivity).
  assert (subscript (JObj [("mean", JNum 0.01)]) "mean" = Ok (JNum 0.01)) as H3
    by reflexivity.
  assert ((0.01 =? 0) = false) as H4 by (vm_compute; reflexivity).
  destruct (check_regression_float_verdict ten_str (steady 0.05) _ "baseline.json"
              10 stored _ 0.01 H1 H2 H3 H4) as (msg & E & _).
  exists msg. split; [exact H1|]. split; [exact H2|]. split; [exact H4|]. exact E.
Defined.

End FloatWitnesses.

(** * More of the harness, for every arithmetic *)

Section MoreHarnessFacts.
Context {F : Type} `{PyFloat F}.
Variable stdev : list F -> F.
Variable float_str : F -> string.

Implicit Types (self : BenchmarkHarness F) (fs : gmap string (file F)).

(** What a record that [summarize] returns holds besides the statistics. *)
Lemma summarize_ok_fields self latencies r :
  summarize stdev self latencies = Ok r ->
  r_num_iterations r = num_iterations self
  /\ r_mock_response_time r = mock_response_time self
  /\ r_latencies r = latencies.
Proof.
  unfold summarize.
  destruct (mean latencies); [|discriminate]. cbn [bind].
  destruct (median latencies); [|discriminate]. cbn [bind].
  destruct (py_min flt latencies); [|discriminate]. cbn [bind].
  destruct (py_max flt latencies); [|discriminate]. cbn [bind].
  destruct (_percentile latencies (of_int 95)); [|discriminate]. cbn [bind].
  destruct (_percentile latencies (of_int 99)); [|discriminate]. cbn [bind].
  intros [= <-]. auto.
Qed.

(** The statistics depend on the harness through its two parameters only. *)
Lemma summarize_parameters self1 self2 latencies :
  num_iterations self1 = num_iterations self2 ->
  mock_response_time self1 = mock_response_time self2 ->
  summarize stdev self1 latencies = summarize stdev self2 latencies.
Proof.
  intros Hn Ht. unfold summarize. rewrite Hn, Ht. reflexivity.
Qed.

(** A run that is asked for no iteration raises the [StatisticsError] of
    [statistics.mean]; it has already emptied [results], and it keeps the
    dictionary of an earlier run. *)
Theorem run_benchmark_no_iterations self elapsed :
  num_iterations self <= 0 ->
  run_benchmark stdev self elapsed
  = ({| num_iterations := num_iterations self;
        mock_response_time := mock_response_time self;
        results := [];
        _results_dict := _results_dict self |},
     Raise (StatisticsError "mean requires at least one data point")).
Proof.
  intros Hn. unfold run_benchmark.
  replace (Z.to_nat (num_iterations self)) with 0%nat by lia.
  reflexivity.
Qed.

(** A run that returns has measured one latency for each iteration, in
    order; it returns the record it stores, and sets [results] to the
    latencies of that record. *)
Theorem run_benchmark_ok_shape self elapsed self' r :
  run_benchmark stdev self elapsed = (self', Ok r) ->
  r_latencies r = map elapsed (seq 0 (Z.to_nat (num_iterations self)))
  /\ r_num_iterations r = num_iterations self
  /\ r_mock_response_time r = mock_response_time self
  /\ self' = {| num_iterations := num_iterations self;
                mock_response_time := mock_response_time self;
                results := r_latencies r;
                _results_dict := Some r |}.
Proof.
  unfold run_benchmark.
  set (latencies := map _ (seq 0 (Z.to_nat (num_iterations self)))).
  destruct (summarize _ _ latencies) as [r'|e] eqn:E; [|discriminate].
  intros [= <- <-].
  destruct (summarize_ok_fields _ _ _ E) as (Hn & Ht & Hl).
  cbn [num_iterations mock_response_time] in Hn, Ht.
  rewrite Hl. repeat split; try assumption.
Qed.

(** Runs are not cumulative: a run that returns leaves the harness in the
    state, and returns the record, that the same measurements give on any
    other harness with the same two parameters. *)
Theorem run_benchmark_forgets self1 self2 elapsed self' r :
  num_iterations self1 = num_iterations self2 ->
  mock_response_time self1 = mock_response_time self2 ->
  run_benchmark stdev self1 elapsed = (self', Ok r) ->
  run_benchmark stdev self2 elapsed = (self', Ok r).
Proof.
  intros Hn Ht. unfold run_benchmark. rewrite <- Hn, <- Ht.
  set (latencies := map _ (seq 0 (Z.to_nat (num_iterations self1)))).
  rewrite (summarize_parameters
             {| num_iterations := num_iterations self1;
                mock_response_time := mock_response_time self1;
                results := latencies;
                _results_dict := _results_dict self2 |}
             {| num_iterations := num_iterations self1;
                mock_response_time := mock_response_time self1;
                results := latencies;
                _results_dict := _results_dict self1 |} latencies eq_refl eq_refl).
  destruct (summarize _ _ latencies); [|discriminate].
  intros [= <- <-]. reflexivity.
Qed.

(** After a run that returned, [save_results] does not raise. *)
Lemma save_results_after_run self elapsed self' r path fs :
  run_benchmark stdev self elapsed = (self', Ok r) ->
  save_results self' path fs = (Ok tt, <[path := Document (to_json r)]> fs).
Proof.
  intros Hrun. apply run_benchmark_ok_stores in Hrun.
  unfold save_results. rewrite Hrun. reflexivity.
Qed.

(** Only the two means drive [check_regression]: records with the same
    mean, compared with baselines that give the same ["mean"], get the same
    verdict and message, whatever else they hold. *)
Theorem check_regression_only_means self1 self2 r1 r2 path1 path2 threshold
    fs1 fs2 baseline1 baseline2 :
  _results_dict self1 = Some r1 ->
  _results_dict self2 = Some r2 ->
  r_mean r1 = r_mean r2 ->
  fs1 !! path1 = Some (Document baseline1) ->
  fs2 !! path2 = Some (Document baseline2) ->
  subscript baseline1 "mean" = subscript baseline2 "mean" ->
  check_regression float_str self1 path1 threshold fs1
  = check_regression float_str self2 path2 threshold fs2.
Proof.
  intros H1 H2 Hm Hf1 Hf2 Hb. unfold check_regression.
  rewrite H1, H2, Hf1, Hf2. cbn [json_load bind]. rewrite Hb, Hm. reflexivity.
Qed.

(** A baseline whose ["mean"] is [null], a string, a list or an object is
    not equal to zero, and the subtraction raises [TypeError]: no verdict is
    returned. *)
Theorem check_regression_mean_not_a_number self r path threshold fs baseline m :
  _results_dict self = Some r ->
  fs !! path = Some (Document baseline) ->
  subscript baseline "mean" = Ok m ->
  (forall x, m <> JNum x) ->
  (forall b, m <> JBool b) ->
  check_regression float_str self path threshold fs = Raise TypeError.
Proof.
  intros Hr Hf Hm Hnum Hbool. unfold check_regression.
  rewrite Hr, Hf. cbn [json_load bind]. rewrite Hm. cbn [bind].
  destruct m; try reflexivity.
  - exfalso. eapply Hbool. reflexivity.
  - exfalso. eapply Hnum. reflexivity.
Qed.
End MoreHarnessFacts.

(** * The regression script, for every arithmetic *)

Section ScriptFacts.
Context {F : Type} `{PyFloat F}.
Variable stdev : list F -> F.
Variable float_str : F -> string.

Implicit Types (fs : gmap string (file F)) (elapsed : nat -> F).

Abbreviation script := (CheckRegressionScript.main stdev float_str).
Abbreviation baseline_path := CheckRegressionScript.baseline_path.
Abbreviation harness := (init 100 (of_ratio (1 # 20))).

(** How the script can end: with exit code 1, the baseline file exists
    and no file has changed; with an exception, no file has changed; with
    exit code 0, the baseline file now holds the record of this very run
    and the other files are as before.  There is no other exit code. *)
Theorem script_outcomes elapsed fs :
  let o := script elapsed fs in
  (ended o = Ok 1 -> files o = fs /\ is_Some (fs !! baseline_path))
  /\ (forall e, ended o = Raise e -> files o = fs)
  /\ (ended o = Ok 0 ->
      exists r, snd (run_benchmark stdev harness elapsed) = Ok r
                /\ files o = <[baseline_path := Document (to_json r)]> fs)
  /\ (forall code, ended o = Ok code -> code = 0 \/ code = 1).
Proof.
  unfold CheckRegressionScript.main.
  destruct (run_benchmark stdev harness elapsed) as [self' [r|e]] eqn:Erun;
    cbn [snd].
  2: { cbn. repeat split; try discriminate; auto. }
  rewrite (save_results_after_run stdev _ _ _ _ baseline_path fs Erun).
  destruct (check_regression float_str self' baseline_path (of_int 15) fs)
    as [[passed message]|e].
  2: { cbn. repeat split; try discriminate; auto. }
  destruct (fs !! baseline_path) as [f|] eqn:Ef; destruct passed;
    cbn [negb andb ended files]; repeat split; try discriminate; eauto.
  all: try (intros; eexists; reflexivity).
  all: intros code [= <-]; auto.
Qed.

(** The first run: with no baseline file the script prints that none was
    found, creates the file from the run and exits with 0. *)
Theorem script_first_run elapsed fs self' r :
  run_benchmark stdev harness elapsed = (self', Ok r) ->
  fs !! baseline_path = None ->
  script elapsed fs
  = {| ended := Ok 0;
       printed := ["No baseline found at benchmark_baseline.json. Creating baseline."];
       files := <[baseline_path := Document (to_json r)]> fs |}.
Proof.
  intros Erun Ef. unfold CheckRegressionScript.main. rewrite Erun.
  unfold check_regression.
  rewrite (run_benchmark_ok_stores stdev _ _ _ _ Erun), Ef. cbn [negb andb].
  rewrite (save_results_after_run stdev _ _ _ _ baseline_path fs Erun).
  reflexivity.
Qed.
End ScriptFacts.

(** * The player, for every arithmetic *)

Section PlayerFacts.
Context {F : Type} `{PyFloat F}.

Lemma str_or_empty_iff (arg : option string) (environ : gmap string string)
    (key : string) :
  str_or arg (environ_get environ key) = "" <-> ~ at_hand arg environ key.
Proof.
  unfold at_hand, str_or, environ_get. split.
  - intros E [(s & -> & Hs)|(Harg & v & Hv & Hne)].
    + destruct s; [congruence | discriminate].
    + rewrite Hv in E. destruct Harg as [->| ->]; congruence.
  - intros Hn. destruct arg as [[|c s]|].
    + destruct (environ !! key) as [v|] eqn:Ev; [|reflexivity].
      destruct (String.eqb_spec v ""); [assumption|].
      exfalso. apply Hn. right. split; [auto|]. exists v. auto.
    + exfalso. apply Hn. left. eexists. split; [reflexivity | discriminate].
    + destruct (environ !! key) as [v|] eqn:Ev; [|reflexivity].
      destruct (String.eqb_spec v ""); [assumption|].
      exfalso. apply Hn. right. split; [auto|]. exists v. auto.
Qed.

(** Without a client, [AIPlayer] can be built exactly when the endpoint and
    the model are both at hand (an empty string counts as missing, for an
    argument and for a variable); it raises [ValueError] otherwise.  The
    player it builds holds the mock with the default response time,
    whatever the credentials are, and answers e2e4 on every board. *)
Theorem AIPlayer_init_without_client (endpoint model : option string)
    (environ : gmap string string) :
  (at_hand endpoint environ "AZURE_AI_FOUNDRY_ENDPOINT"
   /\ at_hand model environ "AZURE_AI_MODEL"
   /\ AIPlayer_init None endpoint model environ
      = Ok (MockAzureAIClient (of_ratio (1 # 20)))
   /\ forall board_state,
        player_get_move (MockAzureAIClient (of_ratio (1 # 20))) board_state = "e2e4")
  \/ (~ (at_hand endpoint environ "AZURE_AI_FOUNDRY_ENDPOINT"
         /\ at_hand model environ "AZURE_AI_MODEL")
      /\ exists msg, AIPlayer_init None endpoint model environ = Raise (ValueError msg)).
Proof.
  unfold AIPlayer_init.
  pose proof (str_or_empty_iff endpoint environ "AZURE_AI_FOUNDRY_ENDPOINT") as He.
  pose proof (str_or_empty_iff model environ "AZURE_AI_MODEL") as Hm.
  destruct (String.eqb_spec (str_or endpoint (environ_get environ "AZURE_AI_FOUNDRY_ENDPOINT")) "")
    as [Ee|Ee].
  - right. split; [|eexists; reflexivity].
    intros [Ha _]. apply He in Ee. contradiction.
  - destruct (String.eqb_spec (str_or model (environ_get environ "AZURE_AI_MODEL")) "")
      as [Em|Em].
    + right. split; [|eexists; reflexivity].
      intros [_ Ha]. apply Hm in Em. contradiction.
    + left. cbn [orb].
      assert (forall P : Prop, (P \/ ~ P) -> ~ ~ P -> P) as dn by tauto.
      split; [|split; [|split; [reflexivity | reflexivity]]].
      * apply dn; [|rewrite <- He; exact Ee].
        unfold at_hand. destruct endpoint as [[|c s]|];
          destruct (environ !! "AZURE_AI_FOUNDRY_ENDPOINT") as [[|c' v]|];
          (left; left; eexists; split; [reflexivity|discriminate])
          || (left; right; split; [auto|]; eexists; split; [reflexivity|discriminate])
          || (right; intros [(s0 & E0 & N0)|(_ & v0 & E0 & N0)]; congruence).
      * apply dn; [|rewrite <- Hm; exact Em].
        unfold at_hand. destruct model as [[|c s]|];
          destruct (environ !! "AZURE_AI_MODEL") as [[|c' v]|];
          (left; left; eexists; split; [reflexivity|discriminate])
          || (left; right; split; [auto|]; eexists; split; [reflexivity|discriminate])
          || (right; intros [(s0 & E0 & N0)|(_ & v0 & E0 & N0)]; congruence).
Qed.
End PlayerFacts.

(** * More of the script, for every arithmetic *)

Section MoreScriptFacts.
Context {F : Type} `{PyFloat F}.
Variable stdev : list F -> F.
Variable float_str : F -> string.

Implicit Types (fs : gmap string (file F)) (elapsed : nat -> F).

(** The statistics of a record are those of its latencies. *)
Lemma summarize_ok_statistics (self : BenchmarkHarness F) (latencies : list F)
    (r : ResultRecord F) :
  summarize stdev self latencies = Ok r ->
  r_latencies r = latencies
  /\ mean latencies = Ok (r_mean r)
  /\ median latencies = Ok (r_median r)
  /\ r_stdev r = (if 1 <? len latencies then stdev latencies else of_int 0)
  /\ py_min flt latencies = Ok (r_min r)
  /\ py_max flt latencies = Ok (r_max r)
  /\ _percentile latencies (of_int 95) = Ok (r_p95 r)
  /\ _percentile latencies (of_int 99) = Ok (r_p99 r).
Proof.
  unfold summarize.
  destruct (mean latencies); [|discriminate]. cbn [bind].
  destruct (median latencies); [|discriminate]. cbn [bind].
  destruct (py_min flt latencies); [|discriminate]. cbn [bind].
  destruct (py_max flt latencies); [|discriminate]. cbn [bind].
  destruct (_percentile latencies (of_int 95)); [|discriminate]. cbn [bind].
  destruct (_percentile latencies (of_int 99)); [|discriminate]. cbn [bind].
  intros [= <-]. cbn. repeat split; reflexivity.
Qed.

(** The record of a run that returns is the summary of what it measured. *)
Lemma run_benchmark_ok_summary (self self' : BenchmarkHarness F) elapsed
    (r : ResultRecord F) :
  run_benchmark stdev self elapsed = (self', Ok r) ->
  exists self0,
    summarize stdev self0
      (map elapsed (seq 0 (Z.to_nat (num_iterations self)))) = Ok r.
Proof.
  unfold run_benchmark. cbn [get_move_with_timing snd].
  match goal with
  | |- context [summarize stdev ?s ?l] =>
      destruct (summarize stdev s l) as [r'|e] eqn:E; [|discriminate];
      intros [= _ <-]; exists s; exact E
  end.
Qed.

(** With a baseline mean that is a float other than zero, the verdict is
    the comparison of the change with the threshold. *)
Lemma check_regression_float_mean (self : BenchmarkHarness F) (r : ResultRecord F)
    (path : string) (t : F) fs (baseline : json F) (b : F) :
  _results_dict self = Some r ->
  fs !! path = Some (Document baseline) ->
  subscript baseline "mean" = Ok (JNum b) ->
  feq b (of_int 0) = false ->
  exists msg,
    check_regression float_str self path t fs
    = Ok (negb (flt t (fmul (fquot (fsub (r_mean r) b) b) (of_int 100))), msg).
Proof.
  intros Hr Hf Hm Hb. unfold check_regression. rewrite Hr, Hf.
  cbn [json_load bind]. rewrite Hm. cbn [bind equals_zero as_float].
  rewrite Hb. unfold py_div. rewrite Hb. cbn [bind].
  destruct (flt t _); eexists; reflexivity.
Qed.

(** The baseline follows the runs that pass: after the script has exited
    with 0, the next run is judged against the mean of that run, not
    against the baseline that was there before. *)
Theorem script_judges_against_last_pass elapsed1 elapsed2 fs
    (self1 self2 : BenchmarkHarness F) (r1 r2 : ResultRecord F) :
  run_benchmark stdev (init 100 (of_ratio (1 # 20))) elapsed1 = (self1, Ok r1) ->
  ended (CheckRegressionScript.main stdev float_str elapsed1 fs) = Ok 0 ->
  feq (r_mean r1) (of_int 0) = false ->
  run_benchmark stdev (init 100 (of_ratio (1 # 20))) elapsed2 = (self2, Ok r2) ->
  ended (CheckRegressionScript.main stdev float_str elapsed2
           (files (CheckRegressionScript.main stdev float_str elapsed1 fs)))
  = Ok (if flt (of_int 15)
             (fmul (fquot (fsub (r_mean r2) (r_mean r1)) (r_mean r1)) (of_int 100))
        then 1 else 0).
Proof.
  intros Erun1 Hexit Hnz Erun2.
  assert (files (CheckRegressionScript.main stdev float_str elapsed1 fs)
          = <[CheckRegressionScript.baseline_path := Document (to_json r1)]> fs)
    as Hfiles.
  { revert Hexit. unfold CheckRegressionScript.main. rewrite Erun1.
    rewrite (save_results_after_run stdev _ _ _ _ _ fs Erun1).
    destruct (check_regression _ _ _ _ _) as [[passed message]|e]; [|discriminate].
    destruct (negb passed && _); [discriminate | reflexivity]. }
  rewrite Hfiles.
  pose proof (run_benchmark_ok_stores stdev _ _ _ _ Erun2) as Hr2.
  destruct (check_regression_float_mean self2 r2 CheckRegressionScript.baseline_path
              (of_int 15) (<[CheckRegressionScript.baseline_path := Document (to_json r1)]> fs)
              (to_json r1) (r_mean r1) Hr2 (lookup_insert_eq _ _ _) eq_refl Hnz)
    as (msg & E).
  unfold CheckRegressionScript.main at 1. rewrite Erun2, E, lookup_insert_eq.
  destruct (flt (of_int 15) _); cbn [negb andb ended].
  - reflexivity.
  - rewrite (save_results_after_run stdev _ _ _ _ _ _ Erun2). reflexivity.
Qed.
End MoreScriptFacts.

(** * More of the harness on binary64 *)

Module MoreFloatFacts.
Import Binary64 FloatFacts.
Local Open Scope float_scope.

(** A finite [p] gives a finite [p / 100]. *)
Lemma div_100_finite (p : float) :
  float_is_finite p = true -> sf_mag 1020 (Prim2SF (p / 100)).
Proof.
  unfold float_is_finite. intros Hp.
  pose proof (Prim2SF_valid p) as Vp.
  rewrite Prim2SF_div, Prim2SF_100.
  destruct (Prim2SF p) as [s|s| |s m e] eqn:Ep; try discriminate.
  - exact I.
  - assert (Mp : sf_mag 1024 (S754_finite s m e)).
    { apply valid_mag in Vp as (D & E & C). cbn [sf_mag]. lia. }
    eapply sf_mag_weaken;
      [|apply (SFdiv_mag (S754_finite s m e) false 7036874417766400 (-46) 1024);
        [exact Vp|exact Mp|]];
      apply Z.leb_le; vm_compute; reflexivity.
Qed.

(** With a single sample and a finite [p] the index is [(p/100)*0]. *)
Lemma percentile_one_sample (x p : float) :
  float_is_finite p = true -> _percentile [x] p = Ok x.
Proof.
  intros Hp. pose proof (div_100_finite p Hp) as Mq.
  unfold _percentile. cbn [sorted foldr insert_sorted].
  rewrite py_div_100. cbn [bind fmul fsub fadd of_int to_int binary64_float].
  change (len [x] - 1)%Z with 0%Z. rewrite float_of_int_0.
  assert (Ei : float_to_int (p / 100 * 0) = Ok 0%Z).
  { unfold float_to_int. rewrite Prim2SF_mul, Prim2SF_0.
    destruct (Prim2SF (p / 100)) as [s|s| |s m e]; cbn [sf_mag] in Mq;
      try contradiction; reflexivity. }
  rewrite Ei. cbn [bind]. reflexivity.
Qed.

(** For a single sample every percentile is that sample, whichever finite
    [p] is asked for, in or out of [[0,100]]; for a [p] that is infinite
    or NaN the index [(p/100)*0] is NaN and [int] raises. *)
Theorem percentile_single (x p : float) :
  _percentile [x] p
  = if float_is_finite p then Ok x
    else Raise (ValueError "cannot convert float NaN to integer").
Proof.
  destruct (float_is_finite p) eqn:Hp; [apply percentile_one_sample, Hp|].
  unfold _percentile. cbn [sorted foldr insert_sorted].
  rewrite py_div_100. cbn [bind fmul fsub fadd of_int to_int binary64_float].
  change (len [x] - 1)%Z with 0%Z. rewrite float_of_int_0.
  assert (Ei : float_to_int (p / 100 * 0)
               = Raise (ValueError "cannot convert float NaN to integer")).
  { unfold float_to_int. rewrite Prim2SF_mul, Prim2SF_div, Prim2SF_0, Prim2SF_100.
    unfold float_is_finite in Hp.
    destruct (Prim2SF p) as [s|s| |s m e]; try discriminate Hp; reflexivity. }
  rewrite Ei. reflexivity.
Qed.

(** Raising the threshold never turns a passing check into a failing
    one: a check that passes returns the same verdict and message at
    every threshold that is at least as large. *)
Theorem check_regression_threshold_monotone (float_str : float -> string)
    (self : BenchmarkHarness float) (path : string) (t t' : float)
    (fs : gmap string (file float)) (msg : string) :
  (t <=? t') = true ->
  check_regression float_str self path t fs = Ok (true, msg) ->
  check_regression float_str self path t' fs = Ok (true, msg).
Proof.
  intros Ht. unfold check_regression.
  destruct (_results_dict self) as [r|]; [|discriminate].
  destruct (fs !! path) as [f|]; [|auto].
  destruct (json_load f) as [doc|e]; [|discriminate]. cbn [bind].
  destruct (subscript doc "mean") as [v|e]; [|discriminate]. cbn [bind].
  destruct (equals_zero v); [discriminate|].
  destruct (as_float v) as [b|e]; [|discriminate]. cbn [bind].
  destruct (py_div (fsub (r_mean r) b) b) as [q|e]; [|discriminate]. cbn [bind].
  cbn [flt fmul of_int binary64_float].
  set (pc := q * float_of_int 100).
  destruct (t <? pc) eqn:E; [discriminate|]. intros H.
  assert (E' : (t' <? pc) = false).
  { destruct (float_is_nan pc) eqn:Np; [apply ltb_nan_r, Np|].
    assert (Nt : float_is_nan t = false /\ float_is_nan t' = false).
    { rewrite FloatAxioms.leb_spec in Ht. unfold float_is_nan.
      destruct (Prim2SF t), (Prim2SF t'); try discriminate Ht; auto. }
    destruct Nt as [Nt Nt'].
    rewrite (leb_ltb t t' Nt Nt') in Ht. apply negb_true_iff in Ht.
    apply (ltb_negtrans t' t pc); assumption. }
  rewrite E'. exact H.
Qed.

(** Comparing a float with a zero ignores the sign of the zero. *)
Lemma ltb_zero (t z : float) (s : bool) :
  Prim2SF z = S754_zero s -> (t <? z) = (t <? 0).
Proof.
  intros Hz. rewrite !FloatAxioms.ltb_spec, Hz, Prim2SF_0.
  destruct (Prim2SF t) as [st|st| |st m e]; reflexivity.
Qed.

Lemma SFsub_diag (s : bool) (m : positive) (e : Z) :
  SFsub prec emax (S754_finite s m e) (S754_finite s m e) = S754_zero false.
Proof.
  assert (Hd : forall a : Z, IntDef.Z.sub a a = 0%Z).
  { intros a. change (a - a = 0)%Z. lia. }
  assert (Hm : IntDef.Z.min e e = e).
  { change (Z.min e e = e). lia. }
  cbn [SFsub]. unfold shl_align. rewrite Hm, !Hd. reflexivity.
Qed.

(** The change of a number against itself: zero when it is finite and
    not zero, NaN when it is not finite. *)
Lemma percent_change_self (c : float) :
  (c =? 0) = false ->
  match Prim2SF c with
  | S754_finite _ _ _ => exists s, Prim2SF (float_percent_change c c) = S754_zero s
  | _ => Prim2SF (float_percent_change c c) = S754_nan
  end.
Proof.
  unfold float_percent_change.
  rewrite FloatAxioms.eqb_spec, Prim2SF_0.
  rewrite Prim2SF_mul, Prim2SF_div, Prim2SF_sub, Prim2SF_100.
  destruct (Prim2SF c) as [s|s| |s m e]; intros Hz.
  - destruct s; discriminate Hz.
  - destruct s; reflexivity.
  - reflexivity.
  - rewrite SFsub_diag. cbn [SFdiv SFmul]. eexists. reflexivity.
Qed.

(** A run compared with its own saved results: when its mean is zero the
    file it wrote is refused as an invalid baseline; when its mean is a
    finite number other than zero the change is zero, and the check passes
    exactly when the threshold is not negative; when its mean is infinite
    or NaN the change is NaN and the check passes. *)
Theorem check_regression_against_own_results (float_str : float -> string)
    (self : BenchmarkHarness float) (r : ResultRecord float) (path : string)
    (t : float) (fs fs' : gmap string (file float)) :
  _results_dict self = Some r ->
  save_results self path fs = (Ok tt, fs') ->
  ((r_mean r =? 0) = true ->
   check_regression float_str self path t fs'
   = Ok (false, "Invalid baseline: mean latency is zero"%string))
  /\ ((r_mean r =? 0) = false -> float_is_finite (r_mean r) = true ->
      exists msg,
        check_regression float_str self path t fs' = Ok (negb (t <? 0), msg))
  /\ (float_is_finite (r_mean r) = false ->
      exists msg, check_regression float_str self path t fs' = Ok (true, msg)).
Proof.
  intros Hr Hs. unfold save_results in Hs. rewrite Hr in Hs.
  injection Hs as <-.
  assert (Hcheck : check_regression float_str self path t
                     (<[path := Document (to_json r)]> fs)
                   = if (r_mean r =? 0)
                     then Ok (false, "Invalid baseline: mean latency is zero"%string)
                     else check_regression float_str self path t
                            (<[path := Document (JObj [("mean", JNum (r_mean r))])]> fs)).
  { unfold check_regression. rewrite Hr, !lookup_insert_eq.
    cbn [json_load bind].
    change (subscript (to_json r) "mean") with (@Ok (json float) (JNum (r_mean r))).
    change (subscript (JObj [("mean", JNum (r_mean r))]) "mean")
      with (@Ok (json float) (JNum (r_mean r))).
    cbn [bind equals_zero feq of_int binary64_float]. rewrite float_of_int_0.
    destruct (r_mean r =? 0); reflexivity. }
  rewrite Hcheck. clear Hcheck.
  assert (Hnum : (r_mean r =? 0) = false ->
            exists msg,
              check_regression float_str self path t
                (<[path := Document (JObj [("mean", JNum (r_mean r))])]> fs)
              = Ok (negb (t <? float_percent_change (r_mean r) (r_mean r)), msg)).
  { intros Hz. unfold check_regression. rewrite Hr, lookup_insert_eq.
    cbn [json_load bind].
    change (subscript (JObj [("mean", JNum (r_mean r))]) "mean")
      with (@Ok (json float) (JNum (r_mean r))).
    cbn [bind equals_zero as_float feq of_int binary64_float].
    rewrite float_of_int_0, Hz.
    unfold py_div. cbn [feq fsub fquot fmul flt of_int binary64_float].
    rewrite float_of_int_0, Hz, float_of_int_100. cbn [bind].
    change ((r_mean r - r_mean r) / r_mean r * 100)
      with (float_percent_change (r_mean r) (r_mean r)).
    destruct (t <? float_percent_change (r_mean r) (r_mean r));
      eexists; reflexivity. }
  split; [intros ->; reflexivity|]. split.
  - intros Hz Hf. rewrite Hz. destruct (Hnum Hz) as (msg & E).
    exists msg. rewrite E. do 2 f_equal.
    pose proof (percent_change_self (r_mean r) Hz) as Hp.
    unfold float_is_finite in Hf.
    destruct (Prim2SF (r_mean r)) as [s|s| |s m e] eqn:Ec; try discriminate Hf.
    + rewrite FloatAxioms.eqb_spec, Ec, Prim2SF_0 in Hz. destruct s; discriminate Hz.
    + destruct Hp as [s' Hp]. f_equal. apply (ltb_zero _ _ s' Hp).
  - intros Hf.
    assert (Hz : (r_mean r =? 0) = false).
    { rewrite FloatAxioms.eqb_spec, Prim2SF_0. unfold float_is_finite in Hf.
      destruct (Prim2SF (r_mean r)) as [s|[]| |s m e]; try discriminate Hf;
        reflexivity. }
    rewrite Hz. destruct (Hnum Hz) as (msg & E). exists msg. rewrite E.
    do 2 f_equal.
    pose proof (percent_change_self (r_mean r) Hz) as Hp.
    unfold float_is_finite in Hf.
    destruct (Prim2SF (r_mean r)) as [s|s| |s m e] eqn:Ec; try discriminate Hf.
    + rewrite ltb_nan_r; [reflexivity|]. unfold float_is_nan. rewrite Hp. reflexivity.
    + rewrite ltb_nan_r; [reflexivity|]. unfold float_is_nan. rewrite Hp. reflexivity.
Qed.


(** The minimum and the maximum of a record are samples of the run and
    bound every sample, provided that no latency is NaN; so does the
    median of an odd number of samples, which is one of them. *)
Theorem record_extremes (stdev : list float -> float)
    (self self' : BenchmarkHarness float) (elapsed : nat -> float)
    (r : ResultRecord float) :
  run_benchmark stdev self elapsed = (self', Ok r) ->
  Forall (fun x => float_is_nan x = false) (r_latencies r) ->
  In (r_min r) (r_latencies r)
  /\ In (r_max r) (r_latencies r)
  /\ Forall (fun x => (r_min r <=? x) = true /\ (x <=? r_max r) = true)
            (r_latencies r)
  /\ ((len (r_latencies r) mod 2 = 1)%Z -> In (r_median r) (r_latencies r)).
Proof.
  intros Hrun Hn.
  destruct (run_benchmark_ok_summary stdev _ _ _ _ Hrun) as (self0 & Hs).
  destruct (summarize_ok_statistics stdev _ _ _ Hs)
    as (Hl & _ & Hmed & _ & Hmin & Hmax & _).
  rewrite <- Hl in Hmed, Hmin, Hmax. clear Hl Hs Hrun.
  set (data := r_latencies r) in *.
  assert (Hd : data <> []).
  { intros E. rewrite E in Hmin. discriminate Hmin. }
  assert (Hnan : forall x, In x data -> float_is_nan x = false).
  { intros x Hx. rewrite Forall_forall in Hn. apply Hn, list_elem_of_In, Hx. }
  destruct (py_min_extreme PrimFloat.ltb _ ltb_asym ltb_negtrans data Hd Hn)
    as (mn & Emn & Imn & Bmn).
  destruct (py_max_extreme PrimFloat.ltb _ ltb_asym ltb_negtrans data Hd Hn)
    as (mx & Emx & Imx & Bmx).
  cbn [flt binary64_float] in Hmin, Hmax.
  rewrite Emn in Hmin. rewrite Emx in Hmax.
  injection Hmin as <-. injection Hmax as <-.
  split; [exact Imn|]. split; [exact Imx|]. split.
  - rewrite Forall_forall. intros x Hx. apply list_elem_of_In in Hx.
    rewrite (leb_ltb mn x (Hnan _ Imn) (Hnan _ Hx)), (Bmn x Hx).
    rewrite (leb_ltb x mx (Hnan _ Hx) (Hnan _ Imx)), (Bmx x Hx).
    split; reflexivity.
  - intros Hodd. unfold median in Hmed. cbn [flt binary64_float] in Hmed.
    pose proof (len_positive data Hd) as Hlen.
    rewrite (len_sorted PrimFloat.ltb data) in Hmed.
    replace (len data =? 0)%Z with false in Hmed by lia.
    replace (len data mod 2 =? 1)%Z with true in Hmed by lia.
    assert (Hi : (0 <= len data / 2 < len (sorted PrimFloat.ltb data))%Z).
    { rewrite len_sorted. split; [apply Z.div_pos; lia|].
      apply Z.div_lt_upper_bound; lia. }
    rewrite (getitem_nth _ _ 0 Hi) in Hmed. injection Hmed as <-.
    apply (Permutation_in _ (sorted_perm PrimFloat.ltb data)), nth_In.
    unfold len in Hi |- *. lia.
Qed.

(** ** The mean of a single sample *)

(** Dividing the numerator by the denominator of a float gives the float
    back. *)
Lemma SFdiv_core_exact (m N D : positive) (e a b : Z) :
  bounded prec emax m e = true ->
  (0 <= a)%Z -> (0 <= b)%Z -> e = (a - b)%Z ->
  Zpos N = (Zpos m * 2 ^ a)%Z -> Zpos D = (2 ^ b)%Z ->
  exists k, (0 <= k)%Z
    /\ SFdiv_core_binary prec emax (Zpos N) 0 (Zpos D) 0
       = ((2 ^ k * Zpos m)%Z, (e - k)%Z, loc_Exact).
Proof.
  intros Hbd Ha Hb He HN HD.
  pose proof (bounded_spec m e Hbd) as [Hc He971].
  unfold SFdiv_core_binary.
  assert (D1 : Zdigits2 (Zpos N) = (Zpos (digits2_pos m) + a)%Z).
  { rewrite HN, Zdigits2_mul_pow by lia. reflexivity. }
  assert (D2 : Zdigits2 (Zpos D) = (b + 1)%Z).
  { rewrite HD, <- (Z.mul_1_l (2 ^ b)), Zdigits2_mul_pow by lia.
    change (Zdigits2 1) with 1%Z. lia. }
  rewrite D1, D2.
  change IntDef.Z.sub with Z.sub. change IntDef.Z.add with Z.add.
  change IntDef.Z.min with Z.min.
  set (e' := Z.min (fexp prec emax (Zpos (digits2_pos m) + a + 0 - (b + 1 + 0))) (0 - 0)).
  assert (He' : (e' <= e /\ e' <= 0)%Z).
  { subst e'. unfold fexp, SpecFloat.emin, prec, emax in Hc |- *.
    change IntDef.Z.max with Z.max in *. lia. }
  clearbody e'. exists (e - e')%Z. split; [lia|].
  assert (Hm' : match (0 - 0 - e')%Z with
                | Z0 => Zpos N
                | Zpos _ => Z.shiftl (Zpos N) (0 - 0 - e')
                | Zneg _ => 0%Z
                end = (2 ^ (e - e') * Zpos m * Zpos D)%Z).
  { assert (Hpow : (Zpos N * 2 ^ (- e') = 2 ^ (e - e') * Zpos m * Zpos D)%Z).
    { rewrite HN, HD. replace (- e')%Z with ((e - e') + b - a)%Z by lia.
      replace (Zpos m * 2 ^ a * 2 ^ (e - e' + b - a))%Z
        with (Zpos m * (2 ^ a * 2 ^ (e - e' + b - a)))%Z by ring.
      rewrite <- Z.pow_add_r by lia.
      replace (a + (e - e' + b - a))%Z with ((e - e') + b)%Z by lia.
      rewrite Z.pow_add_r by lia. ring. }
    destruct (0 - 0 - e')%Z as [|q|q] eqn:Es; try lia.
    - replace (- e')%Z with 0%Z in Hpow by lia. rewrite Z.pow_0_r in Hpow. lia.
    - rewrite Z.shiftl_mul_pow2 by lia. replace (Zpos q) with (- e')%Z by lia.
      exact Hpow. }
  rewrite Hm'.
  assert (Hq : Z.div_eucl (2 ^ (e - e') * Zpos m * Zpos D) (Zpos D)
               = ((2 ^ (e - e') * Zpos m)%Z, 0%Z)).
  { pose proof (Z.div_mul (2 ^ (e - e') * Zpos m) (Zpos D) ltac:(lia)) as Hdiv.
    pose proof (Z.mod_mul (2 ^ (e - e') * Zpos m) (Zpos D) ltac:(lia)) as Hmod.
    unfold Z.div, Z.modulo in Hdiv, Hmod.
    destruct (Z.div_eucl _ _) as [q r]. cbn in Hdiv, Hmod. subst. reflexivity. }
  change IntDef.Z.div_eucl with Z.div_eucl.
  rewrite Hq. f_equal; [f_equal; lia|].
  unfold new_location, new_location_even, new_location_odd.
  destruct (IntDef.Z.even (Zpos D)); reflexivity.
Qed.

Lemma SFdiv_exact (s : bool) (m N D : positive) (e a b : Z) :
  bounded prec emax m e = true ->
  (0 <= a)%Z -> (0 <= b)%Z -> e = (a - b)%Z ->
  Zpos N = (Zpos m * 2 ^ a)%Z -> Zpos D = (2 ^ b)%Z ->
  SFdiv prec emax (S754_finite s N 0) (S754_finite false D 0) = S754_finite s m e.
Proof.
  intros Hbd Ha Hb He HN HD.
  destruct (SFdiv_core_exact m N D e a b Hbd Ha Hb He HN HD) as (k & Hk & E).
  cbn [SFdiv]. rewrite E, xorb_false_r.
  apply binary_round_aux_exact; assumption.
Qed.

Lemma float_of_ratio_ext (q q' : Q) :
  Qnum q = Qnum q' -> Qden q = Qden q' -> float_of_ratio q = float_of_ratio q'.
Proof. unfold float_of_ratio. intros -> ->. reflexivity. Qed.

(** [float(Fraction(x))] is [x] again. *)
Lemma float_of_exact_ratio (x : float) (s : bool) (m : positive) (e : Z) :
  Prim2SF x = S754_finite s m e -> float_of_ratio (float_exact_ratio x) = x.
Proof.
  intros Hx. pose proof (Prim2SF_valid x) as V. rewrite Hx in V.
  cbn [SpecFloat.valid_binary] in V.
  rewrite <- (SF2Prim_Prim2SF x) at 2. rewrite Hx.
  unfold float_exact_ratio. rewrite Hx. destruct e as [|p|p].
  - unfold float_of_ratio. destruct s; cbn [Qnum Qden];
      rewrite (SFdiv_exact _ m m 1 0 0 0 V); try reflexivity; lia.
  - rewrite <- (Pos2Z.inj_pow 2 p). unfold float_of_ratio.
    destruct s; cbn [Qnum Qden];
      [change (Zneg m * Zpos (2 ^ p))%Z with (Zneg (m * 2 ^ p))
      |change (Zpos m * Zpos (2 ^ p))%Z with (Zpos (m * 2 ^ p))];
      cbv iota;
      rewrite (SFdiv_exact _ m (m * 2 ^ p) 1 (Zpos p) (Zpos p) 0 V);
      try reflexivity; try lia;
      rewrite Pos2Z.inj_mul, Pos2Z.inj_pow; reflexivity.
  - unfold float_of_ratio.
    destruct s; cbn [Qnum Qden];
      rewrite (SFdiv_exact _ m m (2 ^ p) (Zneg p) 0 (Zpos p) V);
      try reflexivity; try lia;
      rewrite Pos2Z.inj_pow; reflexivity.
Qed.

(** The mean of one finite sample is the sample (up to the sign of a
    zero). *)
Lemma mean_single (x : float) :
  float_is_finite x = true ->
  exists v, mean [x] = Ok v /\ (v =? x) = true.
Proof.
  intros Hx. unfold mean. cbn [map foldr]. change (len [x] <? 1)%Z with false.
  cbn iota. change (len [x]) with 1%Z.
  cbn [exact_ratio of_ratio binary64_float].
  eexists. split; [reflexivity|].
  assert (Hq : float_of_ratio ((float_exact_ratio x + 0) / inject_Z 1)%Q
               = float_of_ratio (float_exact_ratio x)).
  { apply float_of_ratio_ext; destruct (float_exact_ratio x) as [n d];
      unfold Qdiv, Qmult, Qinv, Qplus, inject_Z; cbn [Qnum Qden]; lia. }
  rewrite Hq. unfold float_is_finite in Hx.
  destruct (Prim2SF x) as [s|s| |s m e] eqn:Ex; try discriminate Hx.
  - unfold float_exact_ratio. rewrite Ex. cbn [float_of_ratio Qnum].
    rewrite FloatAxioms.eqb_spec, Ex. reflexivity.
  - rewrite (float_of_exact_ratio x s m e Ex).
    rewrite FloatAxioms.eqb_spec, Ex. unfold SFeqb.
    rewrite SFcompare_refl; [reflexivity|discriminate].
Qed.

(** A run of one iteration that measured a finite latency: every
    statistic of its record is that latency (the mean up to the sign of a
    zero), and the deviation is zero without [statistics.stdev] being
    asked. *)
Theorem run_benchmark_single_iteration (stdev : list float -> float)
    (self self' : BenchmarkHarness float) (elapsed : nat -> float)
    (r : ResultRecord float) :
  num_iterations self = 1%Z ->
  float_is_finite (elapsed 0%nat) = true ->
  run_benchmark stdev self elapsed = (self', Ok r) ->
  r_latencies r = [elapsed 0%nat]
  /\ r_stdev r = 0
  /\ (r_mean r =? elapsed 0%nat) = true
  /\ r_median r = elapsed 0%nat
  /\ r_min r = elapsed 0%nat
  /\ r_max r = elapsed 0%nat
  /\ r_p95 r = elapsed 0%nat
  /\ r_p99 r = elapsed 0%nat.
Proof.
  intros Hn Hx Hrun.
  destruct (run_benchmark_ok_summary stdev _ _ _ _ Hrun) as (self0 & Hs).
  rewrite Hn in Hs. change (map elapsed (seq 0 (Z.to_nat 1))) with [elapsed 0%nat] in Hs.
  destruct (summarize_ok_statistics stdev _ _ _ Hs)
    as (Hl & Hmean & Hmed & Hsd & Hmin & Hmax & H95 & H99).
  destruct (mean_single _ Hx) as (v & Ev & Hv).
  rewrite Ev in Hmean. injection Hmean as <-.
  assert (F95 : float_is_finite (of_int 95) = true) by (vm_compute; reflexivity).
  assert (F99 : float_is_finite (of_int 99) = true) by (vm_compute; reflexivity).
  rewrite (percentile_one_sample _ _ F95) in H95.
  rewrite (percentile_one_sample _ _ F99) in H99.
  injection H95 as <-. injection H99 as <-.
  injection Hmin as <-. injection Hmax as <-.
  change (median [elapsed 0%nat]) with (@Ok float (elapsed 0%nat)) in Hmed.
  injection Hmed as <-.
  change (if (1 <? len [elapsed 0%nat])%Z then stdev [elapsed 0%nat] else of_int 0)
    with (float_of_int 0) in Hsd.
  rewrite float_of_int_0 in Hsd.
  repeat split; assumption.
Qed.

End MoreFloatFacts.

(** * The further theorems at concrete inputs *)

Module MoreWitnesses.
Import Exact ExactFacts Examples MoreExamples.
Local Open Scope Q_scope.

Lemma run_benchmark_no_iterations_witness :
  (num_iterations idle <= 0)%Z
  /\ snd (run_benchmark no_stdev idle elapsed)
     = Raise (StatisticsError "mean requires at least one data point").
Proof.
  assert (num_iterations idle <= 0)%Z as H1 by (simpl; lia).
  split; [exact H1|].
  rewrite (run_benchmark_no_iterations no_stdev idle elapsed H1). reflexivity.
Defined.

Lemma run_benchmark_ok_shape_witness :
  exists self' r,
    run_benchmark no_stdev fresh elapsed = (self', Ok r)
    /\ r_latencies r = [51 # 1000; 49 # 1000; 50 # 1000]
    /\ results self' = r_latencies r.
Proof.
  eexists. eexists.
  assert (run_benchmark no_stdev fresh elapsed = (_, Ok _)) as H1
    by (vm_compute; reflexivity).
  split; [exact H1|].
  destruct (run_benchmark_ok_shape no_stdev fresh elapsed _ _ H1) as (Hl & _ & _ & Hs).
  split; [exact Hl|]. rewrite Hs at 1. reflexivity.
Defined.

Lemma run_benchmark_forgets_witness :
  exists self' r,
    run_benchmark no_stdev ran elapsed = (self', Ok r)
    /\ run_benchmark no_stdev fresh elapsed = (self', Ok r).
Proof.
  eexists. eexists.
  assert (run_benchmark no_stdev ran elapsed = (_, Ok _)) as H1
    by (vm_compute; reflexivity).
  split; [exact H1|].
  apply (run_benchmark_forgets no_stdev ran fresh elapsed _ _ eq_refl eq_refl H1).
Defined.

Lemma check_regression_only_means_witness :
  check_regression plain_str ran "baseline.json" 10 disk
  = check_regression plain_str ran "mean_only.json" 10 shelf.
Proof.
  assert (_results_dict ran = Some _) as H1 by (vm_compute; reflexivity).
  apply (check_regression_only_means plain_str ran ran _ _ "baseline.json"
           "mean_only.json" 10 disk shelf
           (JObj [("mean", JNum (1 # 25)); ("median", JNum (1 # 25))])
           (JObj [("mean", JNum (1 # 25))]) H1 H1 eq_refl).
  - vm_compute. reflexivity.
  - vm_compute. reflexivity.
  - reflexivity.
Defined.

Lemma check_regression_mean_not_a_number_witness :
  check_regression plain_str ran "null.json" 10 shelf = Raise TypeError.
Proof.
  assert (_results_dict ran = Some _) as H1 by (vm_compute; reflexivity).
  apply (check_regression_mean_not_a_number plain_str ran _ "null.json" 10 shelf
           (JObj [("mean", JNull)]) JNull H1).
  - vm_compute. reflexivity.
  - reflexivity.
  - intros x. discriminate.
  - intros b. discriminate.
Defined.

Lemma script_first_run_witness :
  exists self' r,
    run_benchmark no_stdev (init 100 (1 # 20)) even_pace = (self', Ok r)
    /\ no_files !! CheckRegressionScript.baseline_path = None
    /\ ended (CheckRegressionScript.main no_stdev plain_str even_pace no_files) = Ok 0%Z.
Proof.
  eexists. eexists.
  assert (run_benchmark no_stdev (init 100 (1 # 20)) even_pace = (_, Ok _)) as H1
    by (vm_compute; reflexivity).
  assert (no_files !! CheckRegressionScript.baseline_path = None) as H2 by reflexivity.
  split; [exact H1|]. split; [exact H2|].
  rewrite (script_first_run no_stdev plain_str even_pace no_files _ _ H1 H2).
  reflexivity.
Defined.

End MoreWitnesses.

Module MoreFloatWitnesses.
Import Binary64 FloatExamples MoreFloatFacts.
Local Open Scope float_scope.

Lemma check_regression_threshold_monotone_witness :
  exists msg,
    (10 <=? 20) = true
    /\ check_regression ten_str (steady 0.0077) "near.json" 10 stored_near
       = Ok (true, msg)
    /\ check_regression ten_str (steady 0.0077) "near.json" 20 stored_near
       = Ok (true, msg).
Proof.
  eexists.
  assert ((10 <=? 20) = true) as H1 by (vm_compute; reflexivity).
  assert (check_regression ten_str (steady 0.0077) "near.json" 10 stored_near
          = Ok (true, _)) as H2 by (vm_compute; reflexivity).
  split; [exact H1|]. split; [exact H2|].
  apply (check_regression_threshold_monotone ten_str (steady 0.0077) "near.json"
           10 20 stored_near _ H1 H2).
Defined.

Lemma check_regression_against_own_results_witness :
  exists r fs' msg,
    _results_dict (steady 0.05) = Some r
    /\ save_results (steady 0.05) "own.json" stored = (Ok tt, fs')
    /\ (r_mean r =? 0) = false
    /\ float_is_finite (r_mean r) = true
    /\ check_regression ten_str (steady 0.05) "own.json" 10 fs'
       = Ok (negb (10 <? 0), msg).
Proof.
  eexists. eexists.
  assert (_results_dict (steady 0.05) = Some _) as H1 by (vm_compute; reflexivity).
  assert (save_results (steady 0.05) "own.json" stored = (Ok tt, _)) as H2
    by reflexivity.
  destruct (check_regression_against_own_results ten_str (steady 0.05) _ "own.json"
              10 stored _ H1 H2) as (_ & Hnz & _).
  match type of H1 with
  | _ = Some ?r =>
      assert ((r_mean r =? 0) = false) as H3 by (vm_compute; reflexivity);
      assert (float_is_finite (r_mean r) = true) as H4 by (vm_compute; reflexivity)
  end.
  destruct (Hnz H3 H4) as (msg & E). exists msg.
  split; [exact H1|]. split; [exact H2|]. split; [exact H3|]. split; [exact H4|].
  exact E.
Defined.

Lemma script_judges_against_last_pass_witness :
  exists self1 r1 self2 r2,
    run_benchmark (fun _ => 0) (init 100 (of_ratio (1 # 20))) (fun _ => 0.05)
    = (self1, Ok r1)
    /\ ended (CheckRegressionScript.main (fun _ => 0) ten_str (fun _ => 0.05) ∅)
       = Ok 0%Z
    /\ feq (r_mean r1) (of_int 0) = false
    /\ run_benchmark (fun _ => 0) (init 100 (of_ratio (1 # 20))) (fun _ => 0.06)
       = (self2, Ok r2)
    /\ ended (CheckRegressionScript.main (fun _ => 0) ten_str (fun _ => 0.06)
                (files (CheckRegressionScript.main (fun _ => 0) ten_str
                          (fun _ => 0.05) ∅)))
       = Ok (if flt (of_int 15)
                  (fmul (fquot (fsub (r_mean r2) (r_mean r1)) (r_mean r1))
                        (of_int 100))
             then 1 else 0)%Z.
Proof.
  eexists. eexists. eexists. eexists.
  assert (run_benchmark (fun _ => 0) (init 100 (of_ratio (1 # 20))) (fun _ => 0.05)
          = (_, Ok _)) as H1 by (vm_compute; reflexivity).
  assert (ended (CheckRegressionScript.main (fun _ => 0) ten_str (fun _ => 0.05) ∅)
          = Ok 0%Z) as H2 by (vm_compute; reflexivity).
  match type of H1 with
  | _ = (_, Ok ?r) =>
      assert (feq (r_mean r) (of_int 0) = false) as H3 by (vm_compute; reflexivity)
  end.
  assert (run_benchmark (fun _ => 0) (init 100 (of_ratio (1 # 20))) (fun _ => 0.06)
          = (_, Ok _)) as H4 by (vm_compute; reflexivity).
  split; [exact H1|]. split; [exact H2|]. split; [exact H3|]. split; [exact H4|].
  apply (script_judges_against_last_pass (fun _ => 0) ten_str (fun _ => 0.05)
           (fun _ => 0.06) ∅ _ _ _ _ H1 H2 H3 H4).
Defined.

Lemma record_extremes_witness :
  exists self' r,
    run_benchmark (fun _ => 0) (init 3 0.05) (fun i => nth i three_samples 0)
    = (self', Ok r)
    /\ Forall (fun x => float_is_nan x = false) (r_latencies r)
    /\ In (r_min r) (r_latencies r)
    /\ In (r_max r) (r_latencies r)
    /\ ((len (r_latencies r) mod 2 = 1)%Z -> In (r_median r) (r_latencies r)).
Proof.
  eexists. eexists.
  assert (run_benchmark (fun _ => 0) (init 3 0.05) (fun i => nth i three_samples 0)
          = (_, Ok _)) as H1 by (vm_compute; reflexivity).
  match type of H1 with
  | _ = (_, Ok ?r) =>
      assert (Forall (fun x => float_is_nan x = false) (r_latencies r)) as H2
        by (repeat constructor)
  end.
  destruct (record_extremes (fun _ => 0) (init 3 0.05)
              _ (fun i => nth i three_samples 0) _ H1 H2) as (Hmin & Hmax & _ & Hmed).
  split; [exact H1|]. split; [exact H2|]. split; [exact Hmin|].
  split; [exact Hmax | exact Hmed].
Defined.

Lemma run_benchmark_single_iteration_witness :
  exists self' r,
    num_iterations (init 1 0.05) = 1%Z
    /\ float_is_finite 0.051 = true
    /\ run_benchmark (fun _ => 0) (init 1 0.05) (fun _ => 0.051) = (self', Ok r)
    /\ r_median r = 0.051 /\ r_p99 r = 0.051.
Proof.
  eexists. eexists.
  assert (num_iterations (init 1 0.05) = 1%Z) as H1 by reflexivity.
  assert (float_is_finite 0.051 = true) as H2 by (vm_compute; reflexivity).
  assert (run_benchmark (fun _ => 0) (init 1 0.05) (fun _ => 0.051) = (_, Ok _))
    as H3 by (vm_compute; reflexivity).
  destruct (run_benchmark_single_iteration (fun _ => 0) (init 1 0.05) _
              (fun _ => 0.051) _ H1 H2 H3)
    as (_ & _ & _ & Hmd & _ & _ & _ & H99).
  split; [exact H1|]. split; [exact H2|]. split; [exact H3|].
  split; [exact Hmd | exact H99].
Defined.

End MoreFloatWitnesses.
